(** * Envoy Bulk Booking: the booking orchestration core

  A shallow embedding of the two scripts of the extension:
  - [Content]    : the content script (src/content.js), the Page Agent;
  - [Background] : the background service worker, the Orchestrator.

  JavaScript numbers that the code only counts with are integers ([Z]);
  strings are ASCII strings ([string]); an exception is the text of its
  [message]; every platform call whose result the code cannot know (the
  DOM, the clock and the time zone, [chrome.tabs], the message channel)
  is an explicit input of the function that makes the call. *)

From Stdlib Require Import String Ascii List ZArith Lia Bool Arith.
From Stdlib Require Import DecimalString.
Import ListNotations.
Open Scope string_scope.

(** ** JavaScript string primitives used by both scripts *)
Module Js.

(** [s.includes(kw)] *)
Fixpoint includes (s kw : string) : bool :=
  if String.prefix kw s then true
  else match s with
       | EmptyString => false
       | String _ s' => includes s' kw
       end.

Definition lowerChar (c : ascii) : ascii :=
  let n := nat_of_ascii c in
  if (65 <=? n)%nat && (n <=? 90)%nat then ascii_of_nat (n + 32) else c.

(** [s.toLowerCase()] on ASCII text *)
Fixpoint toLowerCase (s : string) : string :=
  match s with
  | EmptyString => EmptyString
  | String c s' => String (lowerChar c) (toLowerCase s')
  end.

(** The ASCII white space that [trim] removes: TAB, LF, VT, FF, CR, SP. *)
Definition isSpace (c : ascii) : bool :=
  let n := nat_of_ascii c in
  ((9 <=? n)%nat && (n <=? 13)%nat) || (n =? 32)%nat.

Fixpoint trimStart (s : string) : string :=
  match s with
  | EmptyString => EmptyString
  | String c s' => if isSpace c then trimStart s' else s
  end.

Fixpoint trimEnd (s : string) : string :=
  match s with
  | EmptyString => EmptyString
  | String c s' =>
      match trimEnd s' with
      | EmptyString => if isSpace c then EmptyString else String c EmptyString
      | r => String c r
      end
  end.

(** [s.trim()] *)
Definition trim (s : string) : string := trimEnd (trimStart s).

(** [`${n}`] for an integer [n] *)
Definition ofZ (n : Z) : string := NilZero.string_of_int (Z.to_int n).

(** [xs.join(sep)] *)
Fixpoint join (sep : string) (xs : list string) : string :=
  match xs with
  | [] => ""
  | [x] => x
  | x :: rest => x ++ sep ++ join sep rest
  end.

(** [x || d] for a string that may be missing: [undefined] and the empty
    string are both falsy. *)
Definition orString (x : option string) (d : string) : string :=
  match x with
  | Some s => if (s =? "")%string then d else s
  | None => d
  end.

(** [x || d] for an array that may be missing: every array is truthy. *)
Definition orArray {A} (x : option (list A)) (d : list A) : list A :=
  match x with
  | Some l => l
  | None => d
  end.

End Js.

(** ** The messages the three contexts exchange *)

Inductive Level := info | success | warn | error.

Record BookingRecord := { date : string; desk : string }.

(** A message object, by its [type]; a field the receiver guards with [||]
  is optional. *)
Inductive Message :=
| START_BOOKING (selectedDays : option (list Z))
| LOG (level : option Level) (msg : string)
| BOOKING_PROGRESS (current total : Z)
| BOOKING_DONE (total : Z) (bookings : option (list BookingRecord))
| BOOKING_NONE (message : option string)
| BOOKING_ERROR (message : option string)
| GET_STATE
| UNKNOWN.

(** ** The content script (src/content.js) *)
Module Content.

(** A [button] element as the script reads it. *)
Record Button := { textContent : string; disabled : bool }.

(** A button of the schedule page, with what the script observes of it
    later in the run (the page is not under the script's control, so
    each observation is an input). *)
Record Candidate := {
  button : Button;          (* text and [disabled] when the page is scanned *)
  dayOfWeek : option Z;     (* [getButtonDayOfWeek(btn)]; [None] is [null] *)
  unavailable : bool;       (* [btn.disabled || !document.contains(btn)] in the click loop *)
  dateLabel : string;       (* [getButtonDateLabel(btn)] *)
  modalPolls : list (option (list Button));
                            (* the dialog each poll finds after the click, until the deadline *)
  assignedDesk : string     (* [captureAssignedDesk(container)] *)
}.

Record Page := {
  href : string;                       (* [location.href] *)
  buttonPolls : list (list Candidate)  (* [document.querySelectorAll('button')] at each poll
                                          before the deadline *)
}.

(** What the script does to the outside world, in order. *)
Inductive Effect :=
| Send (m : Message) (delivered : bool)   (* [chrome.runtime.sendMessage(m)] *)
| SendResponse                            (* [sendResponse({ received: true })] *)
| SetLocation (url : string)              (* [location.href = url] *)
| Click (i : nat)                         (* [btn.click()] on [filteredButtons[i]] *)
| ClickModal (b : Button).                (* [toClick.click()] *)

Definition Trace := list Effect.

(** The message channel: whether the call made after [k] effects is
    rejected, and with which message. *)
Definition Channel := nat -> option string.

(** Computations of the script: they read the channel, extend the trace,
    and either return a value or throw (the text of [err.message]). *)
Definition M (A : Type) : Type := Channel -> Trace -> Trace * (string + A).

Definition ret {A} (a : A) : M A := fun _ tr => (tr, inr a).

Definition bind {A B} (c : M A) (k : A -> M B) : M B :=
  fun ch tr =>
    match c ch tr with
    | (tr', inl err) => (tr', inl err)
    | (tr', inr a) => k a ch tr'
    end.

(** [try { c } catch (err) { h err }] *)
Definition tryCatch {A} (c : M A) (h : string -> M A) : M A :=
  fun ch tr =>
    match c ch tr with
    | (tr', inl err) => h err ch tr'
    | r => r
    end.

Definition effect (e : Effect) : M unit := fun _ tr => ((tr ++ [e])%list, inr tt).

Declare Scope agent_scope.
Delimit Scope agent_scope with agent.
Notation "x <- c ;; k" := (bind c (fun x => k))
  (at level 61, c at next level, right associativity) : agent_scope.
Notation "c ;; k" := (bind c (fun _ => k))
  (at level 61, right associativity) : agent_scope.
Open Scope agent_scope.

(** [await chrome.runtime.sendMessage(m)] *)
Definition sendMessage (m : Message) : M unit :=
  fun ch tr =>
    match ch (length tr) with
    | None => ((tr ++ [Send m true])%list, inr tt)
    | Some err => ((tr ++ [Send m false])%list, inl err)
    end.

Definition log (level : Level) (msg : string) : M unit :=
  tryCatch (sendMessage (LOG (Some level) msg)) (fun _ => ret tt).

(** [waitFor(predicate, timeout, interval)], over what the predicate sees
    at each poll that happens before the deadline. *)
Fixpoint waitFor {S R} (predicate : S -> option R) (polls : list S) : option R :=
  match polls with
  | [] => None
  | s :: later =>
      match predicate s with
      | Some result => Some result
      | None => waitFor predicate later
      end
  end.

(** *** Button detection *)

Definition BUTTON_LABELS : list string :=
  ["schedule"; "schedule desk"; "book desk"; "book"; "reserve"].

Definition isScheduleButton (c : Candidate) : bool :=
  if disabled (button c) then false
  else
    let text := Js.toLowerCase (Js.trim (textContent (button c))) in
    existsb (fun label => (text =? label)%string) BUTTON_LABELS.

Definition findScheduleButtons (document : list Candidate) : list Candidate :=
  filter isScheduleButton document.

Definition waitForScheduleButtons (page : Page) : M (option (list Candidate)) :=
  log info "Scanning page for Schedule buttons (timeout 15s)…" ;;
  ret (waitFor
         (fun document =>
            let btns := findScheduleButtons document in
            if (0 <? length btns)%nat then Some btns else None)
         (buttonPolls page)).

(** *** Modal handling *)

Definition CONFIRM_KEYWORDS : list string :=
  ["confirm"; "book"; "schedule"; "reserve"; "yes"; "submit"; "ok"].

Definition isConfirm (btn : Button) : bool :=
  let text := Js.toLowerCase (Js.trim (textContent btn)) in
  existsb (fun kw => Js.includes text kw) CONFIRM_KEYWORDS.

(** [confirmBtn || (buttons.length === 1 ? buttons[0] : null)] *)
Definition toClick (buttons : list Button) : option Button :=
  match find isConfirm buttons with
  | Some confirmBtn => Some confirmBtn
  | None => if (length buttons =? 1)%nat then hd_error buttons else None
  end.

Definition dq : string := String (ascii_of_nat 34) EmptyString.
Definition quoted (s : string) : string := dq ++ s ++ dq.

Definition handleConfirmationModal (polls : list (option (list Button))) : M bool :=
  match waitFor (fun modal => modal) polls with
  | None =>
      log info "No confirmation modal detected — continuing." ;;
      ret false
  | Some buttons =>
      log info "Confirmation modal detected." ;;
      log info ("Modal buttons: ["
                ++ Js.join ", " (map (fun b => quoted (Js.trim (textContent b))) buttons)
                ++ "]") ;;
      match toClick buttons with
      | Some b =>
          if negb (disabled b) then
            log info ("Clicking modal button: " ++ quoted (Js.trim (textContent b))) ;;
            effect (ClickModal b) ;;
            ret true
          else
            log warn "Could not find a confirm button in the modal — skipping modal." ;;
            ret false
      | None =>
          log warn "Could not find a confirm button in the modal — skipping modal." ;;
          ret false
      end
  end.

(** *** Main booking routine *)

Definition DAY_NAMES : list string := ["Sun"; "Mon"; "Tue"; "Wed"; "Thu"; "Fri"; "Sat"].

(** The value the callback of [buttons.filter] returns. *)
Definition keepButton (selectedDays : list Z) (btn : Candidate) : bool :=
  if (length selectedDays =? 0)%nat then true
  else
    match dayOfWeek btn with
    | None => true
    | Some day => if existsb (Z.eqb day) selectedDays then true else false
    end.

(** [buttons.filter((btn, i) => ...)], with the log line the callback
    sends for each button it drops; [i] is the index of the head. *)
Fixpoint filterButtons (selectedDays : list Z) (buttons : list Candidate) (i : nat)
  : M (list Candidate) :=
  match buttons with
  | [] => ret []
  | btn :: rest =>
      if (length selectedDays =? 0)%nat then
        kept <- filterButtons selectedDays rest (S i) ;;
        ret (btn :: kept)
      else
        match dayOfWeek btn with
        | None =>
            kept <- filterButtons selectedDays rest (S i) ;;
            ret (btn :: kept)
        | Some day =>
            if negb (existsb (Z.eqb day) selectedDays) then
              log info ("Skipping button " ++ Js.ofZ (Z.of_nat i + 1) ++ " — day "
                        ++ nth (Z.to_nat day) DAY_NAMES "undefined"
                        ++ " not in selected days") ;;
              filterButtons selectedDays rest (S i)
            else
              kept <- filterButtons selectedDays rest (S i) ;;
              ret (btn :: kept)
        end
  end.

(** The [for] loop over [filteredButtons], from index [i] on: [n] is
    [filteredButtons.length], [todo] the buttons from [i] on. *)
Fixpoint clickLoop (n : nat) (todo : list Candidate) (i : nat)
         (booked : Z) (bookings : list BookingRecord)
  : M (Z * list BookingRecord) :=
  match todo with
  | [] => ret (booked, bookings)
  | btn :: rest =>
      if unavailable btn then
        log warn ("Button " ++ Js.ofZ (Z.of_nat i + 1)
                  ++ " is no longer available — skipping.") ;;
        clickLoop n rest (S i) booked bookings
      else
        let label := if (dateLabel btn =? "")%string then ""
                     else " (" ++ quoted (dateLabel btn) ++ ")" in
        log info ("Clicking button " ++ Js.ofZ (Z.of_nat i + 1) ++ "/"
                  ++ Js.ofZ (Z.of_nat n) ++ label) ;;
        effect (Click i) ;;
        let booked := (booked + 1)%Z in
        tryCatch (sendMessage (BOOKING_PROGRESS booked (Z.of_nat n))) (fun _ => ret tt) ;;
        _ <- handleConfirmationModal (modalPolls btn) ;;
        let desk := assignedDesk btn in
        let bookings :=
          (bookings ++ [ {| date := Js.orString (Some (dateLabel btn))
                                                 ("Booking " ++ Js.ofZ booked);
                            desk := desk |} ])%list in
        clickLoop n rest (S i) booked bookings
  end.

(** Lines 161 to 245 of [runBulkBooking]: the scan of the page, the day
    filter, the click loop and the report. *)
Definition runBulkBooking_scan (page : Page) (selectedDays : list Z) : M unit :=
  buttons <- waitForScheduleButtons page ;;
  match buttons with
  | None =>
      log warn "No Schedule buttons found after waiting. The page may require login or the desks may already be booked." ;;
      sendMessage (BOOKING_NONE
        (Some "No Schedule buttons found. Ensure you're logged in and desks are available."))
  | Some buttons =>
      log info ("Found " ++ Js.ofZ (Z.of_nat (length buttons))
                ++ " Schedule button(s). Filtering by selected days: ["
                ++ Js.join "," (map Js.ofZ selectedDays) ++ "]") ;;
      filteredButtons <- filterButtons selectedDays buttons 0 ;;
      if (length filteredButtons =? 0)%nat then
        log warn "No buttons remain after day-of-week filter." ;;
        sendMessage (BOOKING_NONE (Some "No Schedule buttons matched the selected days."))
      else
        log info (Js.ofZ (Z.of_nat (length filteredButtons)) ++ " button(s) after day filter.") ;;
        r <- clickLoop (length filteredButtons) filteredButtons 0 0%Z [] ;;
        let '(booked, bookings) := r in
        log success ("All done — " ++ Js.ofZ booked ++ " desk(s) scheduled.") ;;
        tryCatch (sendMessage (BOOKING_DONE booked (Some bookings))) (fun _ => ret tt)
  end.

(** [runBulkBooking].  On a page whose address lacks /schedule the script
    assigns [location.href]: the tab leaves the document for the schedule
    page, and the script goes with the document it was injected into.  The
    [await sleep(3000)] that follows never resumes, so the run ends at the
    assignment and nothing of lines 161 to 245 happens; the script
    injected into the new document is not this run, and it waits for a
    START_BOOKING of its own. *)
Definition runBulkBooking (page : Page) (selectedDays : list Z) : M unit :=
  log info ("Content script active on: " ++ href page) ;;
  if negb (Js.includes (href page) "/schedule") then
    log warn "Not on /schedule — navigating…" ;;
    effect (SetLocation "https://dashboard.envoy.com/schedule")
  else
    runBulkBooking_scan page selectedDays.

(** The [chrome.runtime.onMessage] listener: the promise of
    [runBulkBooking] with its [.catch] handler.  A result [inl] is an
    exception that escapes the listener. *)
Definition onMessage (page : Page) (message : Message) : M bool :=
  match message with
  | START_BOOKING selectedDays =>
      effect SendResponse ;;
      tryCatch
        (runBulkBooking page (Js.orArray selectedDays [1; 2; 3; 4; 5]%Z))
        (fun err =>
           log error ("Unhandled error: " ++ err) ;;
           tryCatch (sendMessage (BOOKING_ERROR (Some ("Unhandled error: " ++ err))))
                    (fun _ => ret tt)) ;;
      ret true
  | _ => ret true
  end.

(** The messages of a trace that reached the background script. *)
Fixpoint delivered (tr : Trace) : list Message :=
  match tr with
  | [] => []
  | Send m true :: tr' => m :: delivered tr'
  | _ :: tr' => delivered tr'
  end.

(** The messages of a trace the script tried to send. *)
Fixpoint attempted (tr : Trace) : list Message :=
  match tr with
  | [] => []
  | Send m _ :: tr' => m :: attempted tr'
  | _ :: tr' => attempted tr'
  end.

(** The indices of the buttons the script clicked. *)
Fixpoint clicks (tr : Trace) : list nat :=
  match tr with
  | [] => []
  | Click i :: tr' => i :: clicks tr'
  | _ :: tr' => clicks tr'
  end.

Close Scope agent_scope.
End Content.

(** ** The background service worker *)
Module Background.
Local Open Scope Z_scope.

Definition SCHEDULE_URL : string := "https://dashboard.envoy.com/schedule".

(** *** Dates

    A [Date] object: its time value (milliseconds since the epoch, UTC)
    and the offset of local time from UTC at that instant, in minutes
    (positive east of Greenwich, the opposite sign of
    [getTimezoneOffset()]). *)
Record Date := { timeValue : Z; utcOffset : Z }.

Definition msPerDay : Z := 86400000.
Definition localTime (d : Date) : Z := timeValue d + utcOffset d * 60000.

Definition getHours (d : Date) : Z := (localTime d / 3600000) mod 24.
Definition getMinutes (d : Date) : Z := (localTime d / 60000) mod 60.
Definition getSeconds (d : Date) : Z := (localTime d / 1000) mod 60.

Definition pad2 (n : Z) : string :=
  if (n <? 10)%Z then "0" ++ Js.ofZ n else Js.ofZ n.

(** [now.toTimeString().slice(0, 8)]: the local time of day, HH:MM:SS. *)
Definition toTimeString8 (d : Date) : string :=
  pad2 (getHours d) ++ ":" ++ pad2 (getMinutes d) ++ ":" ++ pad2 (getSeconds d).

(** [new Date().toISOString().slice(0, 10)]: the calendar date in UTC.
    The text YYYY-MM-DD is represented by the number of the UTC day, which
    determines it and is determined by it. *)
Definition getTodayString (now : Date) : Z := timeValue now / msPerDay.

(** The calendar date in local time (the day that [getHours] is an hour
    of); no function of the worker computes it. *)
Definition localDate (d : Date) : Z := localTime d / msPerDay.

(** *** Shared state *)

Inductive Status := st_idle | st_running | st_done | st_error.

Record LogEntry := { time : string; level : Level; msg : string }.

Record RunState := {
  status : Status;
  current : Z;
  total : Z;
  log : list LogEntry;
  bookings : list BookingRecord
}.

Definition defaultState : RunState :=
  {| status := st_idle; current := 0; total := 0; log := []; bookings := [] |}.

(** Everything the worker owns or can reach. *)
Record World := {
  envoy_booking : option RunState;   (* chrome.storage.session *)
  lastRunDate : option Z;            (* chrome.storage.local *)
  selectedDays : option (list Z);    (* chrome.storage.local *)
  activeTabId : option Z;            (* guard against concurrent runs *)
  pendingSelectedDays : list Z;      (* forwarded to content script *)
  openTabs : list Z;                 (* tabs created and not removed *)
  sentToTab : list (Z * Message);    (* chrome.tabs.sendMessage, delivered *)
  alarm : option Z;                  (* 'dailyBooking': when it next fires *)
  notifications : list string        (* chrome.notifications.create, in order *)
}.

Definition initialWorld : World :=
  {| envoy_booking := None; lastRunDate := None; selectedDays := None;
     activeTabId := None; pendingSelectedDays := [1; 2; 3; 4; 5]%Z;
     openTabs := []; sentToTab := []; alarm := None; notifications := [] |}.

Definition set_envoy_booking (s : RunState) (w : World) : World :=
  {| envoy_booking := Some s; lastRunDate := lastRunDate w;
     selectedDays := selectedDays w; activeTabId := activeTabId w;
     pendingSelectedDays := pendingSelectedDays w; openTabs := openTabs w;
     sentToTab := sentToTab w; alarm := alarm w; notifications := notifications w |}.

Definition set_lastRunDate (d : Z) (w : World) : World :=
  {| envoy_booking := envoy_booking w; lastRunDate := Some d;
     selectedDays := selectedDays w; activeTabId := activeTabId w;
     pendingSelectedDays := pendingSelectedDays w; openTabs := openTabs w;
     sentToTab := sentToTab w; alarm := alarm w; notifications := notifications w |}.

Definition set_activeTabId (t : option Z) (w : World) : World :=
  {| envoy_booking := envoy_booking w; lastRunDate := lastRunDate w;
     selectedDays := selectedDays w; activeTabId := t;
     pendingSelectedDays := pendingSelectedDays w; openTabs := openTabs w;
     sentToTab := sentToTab w; alarm := alarm w; notifications := notifications w |}.

Definition set_pendingSelectedDays (l : list Z) (w : World) : World :=
  {| envoy_booking := envoy_booking w; lastRunDate := lastRunDate w;
     selectedDays := selectedDays w; activeTabId := activeTabId w;
     pendingSelectedDays := l; openTabs := openTabs w;
     sentToTab := sentToTab w; alarm := alarm w; notifications := notifications w |}.

Definition set_openTabs (l : list Z) (w : World) : World :=
  {| envoy_booking := envoy_booking w; lastRunDate := lastRunDate w;
     selectedDays := selectedDays w; activeTabId := activeTabId w;
     pendingSelectedDays := pendingSelectedDays w; openTabs := l;
     sentToTab := sentToTab w; alarm := alarm w; notifications := notifications w |}.

Definition set_sentToTab (l : list (Z * Message)) (w : World) : World :=
  {| envoy_booking := envoy_booking w; lastRunDate := lastRunDate w;
     selectedDays := selectedDays w; activeTabId := activeTabId w;
     pendingSelectedDays := pendingSelectedDays w; openTabs := openTabs w;
     sentToTab := l; alarm := alarm w; notifications := notifications w |}.

Definition set_alarm (a : Z) (w : World) : World :=
  {| envoy_booking := envoy_booking w; lastRunDate := lastRunDate w;
     selectedDays := selectedDays w; activeTabId := activeTabId w;
     pendingSelectedDays := pendingSelectedDays w; openTabs := openTabs w;
     sentToTab := sentToTab w; alarm := Some a; notifications := notifications w |}.

Definition set_notifications (l : list string) (w : World) : World :=
  {| envoy_booking := envoy_booking w; lastRunDate := lastRunDate w;
     selectedDays := selectedDays w; activeTabId := activeTabId w;
     pendingSelectedDays := pendingSelectedDays w; openTabs := openTabs w;
     sentToTab := sentToTab w; alarm := alarm w; notifications := l |}.

(** What the platform answers during one invocation of a listener. *)
Record Env := {
  clock : nat -> Date;             (* the k-th [new Date()] of the invocation *)
  atLocalTime : Z -> Date;         (* the Date of a time of the wall clock (milliseconds of
                                      local time), in the time zone of the machine: what
                                      [setHours] and [setDate] make of the local time they
                                      compute *)
  tabsCreate : string + Z;         (* chrome.tabs.create: the rejection, or [tab.id] *)
  tabComplete : bool;              (* the tab is 'complete' before TAB_LOAD_TIMEOUT *)
  tabsGet : string + string;       (* chrome.tabs.get: the rejection, or [loaded.url] *)
  tabsSendMessage : option string  (* chrome.tabs.sendMessage: the rejection, if any *)
}.

(** The same platform, seen after [n] readings of the clock. *)
Definition later (n : nat) (env : Env) : Env :=
  {| clock := fun k => clock env (n + k)%nat; atLocalTime := atLocalTime env;
     tabsCreate := tabsCreate env;
     tabComplete := tabComplete env; tabsGet := tabsGet env;
     tabsSendMessage := tabsSendMessage env |}.

(** *** Daily scheduling helpers *)

(** [d.setHours(8, 0, 0, 0)]: the local day of [d], at 8:00:00.000 on the
    wall clock. *)
Definition setHours8 (zone : Z -> Date) (d : Date) : Date :=
  zone ((localTime d / msPerDay) * msPerDay + 8 * 3600000).

(** [d.setDate(d.getDate() + 1)]: the local time of [d], a day later on
    the wall clock. *)
Definition setDateNext (zone : Z -> Date) (d : Date) : Date :=
  zone (localTime d + msPerDay).

(** [next8am.setHours(8, 0, 0, 0)], a day later on the calendar when
    that is not after [now]; the alarm then repeats every 1440 minutes.
    Both steps are steps on the wall clock: the instant they end at is the
    time zone's. *)
Definition scheduleNextAlarm (env : Env) (w : World) : World :=
  let now := clock env 0 in
  let next8am := setHours8 (atLocalTime env) now in
  let next8am := if (timeValue next8am <=? timeValue now)%Z
                 then setDateNext (atLocalTime env) next8am
                 else next8am in
  set_alarm (timeValue next8am) w.

Definition showBookingNotification (st : Status) (total : Z) (errorMsg : string)
           (w : World) : World :=
  let isError := match st with st_error => true | _ => false end in
  let isNone := match st with st_done => (total =? 0)%Z | _ => false end in
  let message :=
    if isError then "Booking failed: " ++ errorMsg
    else if isNone then "No desks found to book today."
    else "Done — scheduled " ++ Js.ofZ total ++ " desk(s)." in
  set_notifications (notifications w ++ [message])%list w.

(** *** Storage helpers *)

Definition getState (w : World) : RunState :=
  match envoy_booking w with
  | Some s => s
  | None => defaultState
  end.

(** The object literal given to [setState]: the keys it has. *)
Record Patch := {
  p_status : option Status;
  p_current : option Z;
  p_total : option Z;
  p_bookings : option (list BookingRecord)
}.

Definition orPrev {A} (new : option A) (prev : A) : A :=
  match new with
  | Some a => a
  | None => prev
  end.

(** [{ ...prev, ...patch }] *)
Definition setState (patch : Patch) (w : World) : World :=
  let prev := getState w in
  set_envoy_booking
    {| status := orPrev (p_status patch) (status prev);
       current := orPrev (p_current patch) (current prev);
       total := orPrev (p_total patch) (total prev);
       log := log prev;
       bookings := orPrev (p_bookings patch) (bookings prev) |} w.

Definition addLog (now : Date) (level : Level) (msg : string) (w : World) : World :=
  let entry := {| time := toTimeString8 now; level := level; msg := msg |} in
  let prev := getState w in
  set_envoy_booking
    {| status := status prev; current := current prev; total := total prev;
       log := (log prev ++ [entry])%list; bookings := bookings prev |} w.

(** *** Tab helpers *)

Definition closeTab (tabId : Z) (w : World) : World :=
  set_openTabs (remove Z.eq_dec tabId (openTabs w)) w.

(** *** Main booking flow *)

(** The two tests on [loaded.url], in the order of the code: the error
    thrown, if any. *)
Definition checkLoadedUrl (url : string) : option string :=
  if negb (Js.includes url "dashboard.envoy.com") then
    Some "Redirected away from Envoy — are you logged in?"
  else if Js.includes url "/login" || Js.includes url "/sign-in" || Js.includes url "/auth" then
    Some "Redirected to login page — please sign in to Envoy in Chrome first."
  else None.

Definition statusOnly (st : Status) : Patch :=
  {| p_status := Some st; p_current := None; p_total := None; p_bookings := None |}.

(** [runBooking] is an async function: it runs until a promise is
    awaited and goes on when the promise settles; other listeners run
    in between.  It is cut here at [await chrome.tabs.create] and at
    [await waitForTabComplete]. *)
Inductive Started :=
| Ignored (w : World)       (* the guard was set: the call has returned *)
| AwaitingTab (w : World).  (* suspended at [await chrome.tabs.create] *)

Inductive Created :=
| NoTab (w : World)                  (* the tab was not created: the call has returned *)
| AwaitingLoad (id : Z) (w : World). (* suspended at [await waitForTabComplete] *)

Definition worldOf (s : Started) : World :=
  match s with
  | Ignored w => w
  | AwaitingTab w => w
  end.

Definition worldAfter (c : Created) : World :=
  match c with
  | NoTab w => w
  | AwaitingLoad _ w => w
  end.

Definition runBooking_enter (env : Env) (days : list Z) (w : World) : Started :=
  let w := set_pendingSelectedDays days w in
  match activeTabId w with
  | Some _ =>
      Ignored (addLog (clock env 0) warn
                 "Booking already in progress — ignoring duplicate request." w)
  | None =>
      let w := set_envoy_booking
                 {| status := st_running; current := 0; total := 0;
                    log := []; bookings := [] |} w in
      AwaitingTab
        (addLog (clock env 0) info "Opening Envoy schedule page in background tab…" w)
  end.

Definition runBooking_created (env : Env) (w : World) : Created :=
  match tabsCreate env with
  | inl err =>
      let w := setState (statusOnly st_error) w in
      let w := addLog (clock env 1) error ("Failed to create tab: " ++ err) w in
      NoTab (set_activeTabId None w)
  | inr id =>
      let w := set_openTabs (openTabs w ++ [id])%list w in
      let w := set_activeTabId (Some id) w in
      let w := addLog (clock env 1) info
                 ("Background tab created (id=" ++ Js.ofZ id ++ ").") w in
      AwaitingLoad id (addLog (clock env 2) info "Waiting for page to load…" w)
  end.

(** The rest of the [try] block around the page load: the world after
    it, the message of the error it threw, if any, and how often the
    clock has been read so far. *)
Definition awaitLoad (env : Env) (w : World) : World * option string * nat :=
  if negb (tabComplete env) then (w, Some "Tab load timed out", 3%nat)
  else
    match tabsGet env with
    | inl err => (w, Some err, 3%nat)
    | inr url =>
        let w := addLog (clock env 3) info ("Page loaded. URL: " ++ url) w in
        (w, checkLoadedUrl url, 4%nat)
    end.

Definition runBooking_loaded (env : Env) (id : Z) (w : World) : World :=
  match awaitLoad env w with
  | (w, Some err, k) =>
      let w := setState (statusOnly st_error) w in
      let w := addLog (clock env k) error err w in
      let w := closeTab id w in
      set_activeTabId None w
  | (w, None, k) =>
      let w := addLog (clock env k) info "Sending booking command to page…" w in
      match tabsSendMessage env with
      | None =>
          set_sentToTab
            (sentToTab w ++ [(id, START_BOOKING (Some (pendingSelectedDays w)))])%list w
      | Some err =>
          let w := setState (statusOnly st_error) w in
          let w := addLog (clock env (S k)) error
                     ("Could not communicate with content script: " ++ err) w in
          let w := closeTab id w in
          set_activeTabId None w
      end
  end.

Definition runBooking_resume (env : Env) (w : World) : World :=
  match runBooking_created env w with
  | NoTab w' => w'
  | AwaitingLoad id w' => runBooking_loaded env id w'
  end.

(** A call of [runBooking] that no other listener interleaves with. *)
Definition runBooking (env : Env) (days : list Z) (w : World) : World :=
  match runBooking_enter env days w with
  | Ignored w' => w'
  | AwaitingTab w' => runBooking_resume env w'
  end.

(** *** Message listener *)

Inductive Response :=
| Received                 (* [{ received: true }] *)
| Ok                       (* [{ ok: true }] *)
| State (s : RunState).

Definition DEFAULT_DAYS : list Z := [1; 2; 3; 4; 5]%Z.

(** The part of a terminal case after its [setState] and [addLog]. *)
Definition finishRun (today : Z) (w : World) : World :=
  let w := match activeTabId w with
           | Some id => set_activeTabId None (closeTab id w)
           | None => w
           end in
  set_lastRunDate today w.

Definition onMessage (env : Env) (w : World) (message : Message)
  : World * option Response :=
  match message with
  | START_BOOKING days =>
      (runBooking env (Js.orArray days DEFAULT_DAYS) w, Some Received)
  | LOG lvl m =>
      (addLog (clock env 0) (match lvl with Some l => l | None => info end) m w, Some Ok)
  | BOOKING_PROGRESS cur tot =>
      let w := setState {| p_status := Some st_running; p_current := Some cur;
                           p_total := Some tot; p_bookings := None |} w in
      let w := addLog (clock env 0) info
                 ("Scheduled " ++ Js.ofZ cur ++ " / " ++ Js.ofZ tot ++ "…") w in
      (w, Some Ok)
  | BOOKING_DONE tot bks =>
      let w := setState {| p_status := Some st_done; p_current := Some tot;
                           p_total := Some tot;
                           p_bookings := Some (Js.orArray bks []) |} w in
      let w := addLog (clock env 0) success
                 ("Done! Successfully scheduled " ++ Js.ofZ tot ++ " desk(s).") w in
      let w := finishRun (getTodayString (clock env 1)) w in
      (showBookingNotification st_done tot "" w, Some Ok)
  | BOOKING_NONE m =>
      let w := setState {| p_status := Some st_done; p_current := Some 0%Z;
                           p_total := Some 0%Z; p_bookings := None |} w in
      let w := addLog (clock env 0) warn
                 (Js.orString m "No Schedule buttons were found on the page.") w in
      let w := finishRun (getTodayString (clock env 1)) w in
      (showBookingNotification st_done 0 "" w, Some Ok)
  | BOOKING_ERROR m =>
      let w := setState (statusOnly st_error) w in
      let w := addLog (clock env 0) error
                 (Js.orString m "An unexpected error occurred.") w in
      let w := finishRun (getTodayString (clock env 1)) w in
      (showBookingNotification st_error 0
         (Js.orString m "An unexpected error occurred.") w, Some Ok)
  | GET_STATE => (w, Some (State (getState w)))
  | UNKNOWN => (w, None)
  end.

(** *** Lifecycle listeners *)

Definition sameDate (stored : option Z) (today : Z) : bool :=
  match stored with
  | Some d => (d =? today)%Z
  | None => false
  end.

Definition onStartup (env : Env) (w : World) : World :=
  let w := scheduleNextAlarm env w in
  let now := clock env 1 in
  if (8 <=? getHours now)%Z then
    if negb (sameDate (lastRunDate w) (getTodayString (clock env 2))) then
      runBooking (later 3 env) (Js.orArray (selectedDays w) DEFAULT_DAYS) w
    else w
  else w.

(** The listener of [chrome.alarms.onAlarm], for the alarm 'dailyBooking'. *)
Definition onAlarm (env : Env) (w : World) : World :=
  if negb (sameDate (lastRunDate w) (getTodayString (clock env 0))) then
    runBooking (later 1 env) (Js.orArray (selectedDays w) DEFAULT_DAYS) w
  else w.

End Background.


(** ** Vocabulary of the specifications *)

Module Spec.
Import Content.
Local Open Scope list_scope.

(** [c] extends the trace by some [ext] and ends with [r] (a value or an
    exception), and [Q ext r] holds, whatever the channel does. *)
Definition runs {A} (c : M A) (Q : Trace -> string + A -> Prop) : Prop :=
  forall ch tr, exists ext r, c ch tr = (tr ++ ext, r) /\ Q ext r.

(** [c] never throws. *)
Definition returns {A} (c : M A) (Q : Trace -> A -> Prop) : Prop :=
  runs c (fun ext r => exists v, r = inr v /\ Q ext v).

Definition isLog (m : Message) : Prop :=
  match m with
  | LOG _ _ => True
  | _ => False
  end.

(** A stretch of the run that clicks no schedule button and sends
    nothing but log lines. *)
Definition quiet (ext : Trace) : Prop :=
  clicks ext = [] /\ Forall isLog (attempted ext).

(** A log line, or a progress report [(c, n)] with [lo < c <= hi]. *)
Definition progressWithin (lo hi : Z) (n : nat) (m : Message) : Prop :=
  match m with
  | LOG _ _ => True
  | BOOKING_PROGRESS c t => (lo < c <= hi)%Z /\ t = Z.of_nat n
  | _ => False
  end.

(** What the background script may rely on in a message of the agent. *)
Definition wellFormed (m : Message) : Prop :=
  match m with
  | BOOKING_PROGRESS c t => (1 <= c <= t)%Z
  | BOOKING_DONE t _ => (0 <= t)%Z
  | _ => True
  end.

(** What [waitForScheduleButtons] resolves to. *)
Definition discovered (page : Page) : option (list Candidate) :=
  waitFor (fun document =>
             let btns := findScheduleButtons document in
             if (0 <? length btns)%nat then Some btns else None)
          (buttonPolls page).

Definition available (c : Candidate) : bool := negb (unavailable c).

(** The buttons of [filteredButtons] that the click loop clicks. *)
Definition clicked (days : list Z) (buttons : list Candidate) : list Candidate :=
  filter available (filter (keepButton days) buttons).

(** Their positions in [filteredButtons], counted from [i]. *)
Fixpoint clickedIndices (todo : list Candidate) (i : nat) : list nat :=
  match todo with
  | [] => []
  | c :: rest =>
      if available c then i :: clickedIndices rest (S i)
      else clickedIndices rest (S i)
  end.

Definition isLogOrNone (m : Message) : Prop :=
  match m with
  | LOG _ _ | BOOKING_NONE _ => True
  | _ => False
  end.

(** A stretch that clicks nothing and sends log lines or a BOOKING_NONE. *)
Definition idle (ext : Trace) : Prop :=
  clicks ext = [] /\ Forall isLogOrNone (attempted ext).

(** A run of [runBulkBooking] that reaches its last statement: the trace
    [ext] is a body that sends log lines and progress reports and clicks
    the available survivors, then one [BOOKING_DONE]. *)
Definition completed (page : Page) (days : list Z) (ext : Trace) : Prop :=
  exists buttons body bs d,
    discovered page = Some buttons /\
    ext = body ++ [Send (BOOKING_DONE (Z.of_nat (length (clicked days buttons))) (Some bs)) d] /\
    Forall (progressWithin 0 (Z.of_nat (length (clicked days buttons)))
              (length (filter (keepButton days) buttons)))
           (attempted body) /\
    clicks body = clickedIndices (filter (keepButton days) buttons) 0 /\
    length bs = length (clicked days buttons) /\
    map desk bs = map assignedDesk (clicked days buttons).

(** [kw] occurs in [s]. *)
Definition contains (s kw : string) : Prop :=
  exists pre post, s = (pre ++ kw ++ post)%string.

(** The text of the button, trimmed and in lower case, contains a
    confirmation keyword. *)
Definition confirms (b : Button) : Prop :=
  exists kw, In kw CONFIRM_KEYWORDS /\
             contains (Js.toLowerCase (Js.trim (textContent b))) kw.

(** The day filter keeps [b] for the selection [days]. *)
Definition kept (days : list Z) (b : Candidate) : Prop :=
  days = [] \/ dayOfWeek b = None \/ exists d, dayOfWeek b = Some d /\ In d days.

(** The part of an address behind the first "://". *)
Fixpoint afterScheme (url : string) : string :=
  match url with
  | EmptyString => EmptyString
  | String _ rest =>
      if String.prefix "://" url then String.substring 3 (String.length url) url
      else afterScheme rest
  end.

Definition endsHost (c : ascii) : bool :=
  Ascii.eqb c ":" || Ascii.eqb c "/" || Ascii.eqb c "?" || Ascii.eqb c "#".

Fixpoint upTo (stop : ascii -> bool) (s : string) : string :=
  match s with
  | EmptyString => EmptyString
  | String c rest => if stop c then EmptyString else String c (upTo stop rest)
  end.

(** The host an address belongs to: in [scheme://host:port/path?query#fragment]
    (an address without user information) the text between "://" and the
    first colon, slash, question mark or hash. *)
Definition hostOf (url : string) : string := upTo endsHost (afterScheme url).

(** A message some run of the content script delivers. *)
Definition fromAgent (m : Message) : Prop :=
  exists page request ch,
    In m (delivered (fst (Content.onMessage page request ch []))).

(** A message the popup sends. *)
Definition fromPopup (m : Message) : Prop :=
  (exists days, m = START_BOOKING (Some days)) \/ m = GET_STATE.

(** The six inbound events of the orchestrator (all but the start
    command and messages of an unknown type). *)
Definition isEvent (m : Message) : bool :=
  match m with
  | START_BOOKING _ | UNKNOWN => false
  | _ => true
  end.

Definition isTerminal (m : Message) : bool :=
  match m with
  | BOOKING_DONE _ _ | BOOKING_NONE _ | BOOKING_ERROR _ => true
  | _ => false
  end.

(** The worlds the listeners of the background script can produce; a call
    of [runBooking] may also run piece by piece, other listeners in
    between. *)
Inductive reachable : Background.World -> Prop :=
| reach_initial : reachable Background.initialWorld
| reach_message env w m :
    reachable w -> fromAgent m \/ fromPopup m ->
    reachable (fst (Background.onMessage env w m))
| reach_startup env w :
    reachable w -> reachable (Background.onStartup env w)
| reach_alarm env w :
    reachable w -> reachable (Background.onAlarm env w)
| reach_enter env days w :
    reachable w -> reachable (Background.worldOf (Background.runBooking_enter env days w))
| reach_created env w :
    reachable w ->
    reachable (Background.worldAfter (Background.runBooking_created env w))
| reach_loaded env id w :
    reachable w -> reachable (Background.runBooking_loaded env id w).

(** The text of the notification for a terminal event: the success
    count, the zero result, or the failure message. *)
Definition wording (m : Message) : string :=
  match m with
  | BOOKING_DONE t _ =>
      if (t =? 0)%Z then "No desks found to book today."
      else "Done — scheduled " ++ Js.ofZ t ++ " desk(s)."
  | BOOKING_NONE _ => "No desks found to book today."
  | BOOKING_ERROR msg =>
      "Booking failed: " ++ Js.orString msg "An unexpected error occurred."
  | _ => ""
  end%string.

(** How many log entries the handler of an event appends. *)
Definition logged (m : Message) : nat :=
  match m with
  | LOG _ _ | BOOKING_PROGRESS _ _ | BOOKING_DONE _ _
  | BOOKING_NONE _ | BOOKING_ERROR _ => 1
  | _ => 0
  end.

Definition terminalStatus (m : Message) : Background.Status :=
  match m with
  | BOOKING_ERROR _ => Background.st_error
  | _ => Background.st_done
  end.

(** The invariant of the progress counters. *)
Definition counted (s : Background.RunState) : Prop :=
  (Background.current s <= Background.total s)%Z /\
  (Background.status s = Background.st_done ->
   Background.current s = Background.total s).

End Spec.

(** ** Concrete inputs *)

Module Examples.
Import Content.

Definition cancel : Button := {| textContent := "Cancel"; disabled := false |}.
Definition confirmBooking : Button :=
  {| textContent := "Confirm Booking"; disabled := false |}.
Definition dismiss : Button := {| textContent := "Dismiss"; disabled := false |}.

(** A schedule button of the page, by its day and whether it is gone
    when its turn comes. *)
Definition slot (day : option Z) (gone : bool) : Candidate :=
  {| button := {| textContent := "Schedule"; disabled := false |};
     dayOfWeek := day; unavailable := gone; dateLabel := "Mon 3";
     modalPolls := [None; Some [cancel; confirmBooking]];
     assignedDesk := "Desk 4" |}.

(** Three buttons appear at the second poll: Monday, Tuesday, and one
    without a day that is disabled before it is clicked. *)
Definition schedulePage : Page :=
  {| href := "https://dashboard.envoy.com/schedule";
     buttonPolls := [[]; [slot (Some 1%Z) false; slot (Some 2%Z) false; slot None true]] |}.

(** No button ever appears. *)
Definition emptyPage : Page :=
  {| href := "https://dashboard.envoy.com/schedule"; buttonPolls := [[]; []] |}.

Definition reliable : Channel := fun _ => None.

(** The service worker is gone when the fifth effect is attempted. *)
Definition broken : Channel :=
  fun k => if (k =? 4)%nat
           then Some "Could not establish connection. Receiving end does not exist."
           else None.

(** *** The background script *)

(** A time zone that keeps one offset from UTC (in minutes, positive
    east of Greenwich) all the year. *)
Definition fixedZone (offset : Z) (wall : Z) : Background.Date :=
  {| Background.timeValue := (wall - offset * 60000)%Z; Background.utcOffset := offset |}.

(** A platform on which everything succeeds: the tab gets identifier
    [id] and loads the schedule page; the clock stands at [now], in a
    time zone that keeps the offset of [now]. *)
Definition smooth (id : Z) (now : Background.Date) : Background.Env :=
  {| Background.clock := fun _ => now;
     Background.atLocalTime := fixedZone (Background.utcOffset now);
     Background.tabsCreate := inr id;
     Background.tabComplete := true;
     Background.tabsGet := inr "https://dashboard.envoy.com/schedule";
     Background.tabsSendMessage := None |}.

(** The same platform, but the tab ends at an address of another host
    that names the schedule page in its query. *)
Definition elsewhere : string := "https://evil.example/?next=dashboard.envoy.com/schedule".

Definition astray (id : Z) (now : Background.Date) : Background.Env :=
  {| Background.clock := fun _ => now;
     Background.atLocalTime := fixedZone (Background.utcOffset now);
     Background.tabsCreate := inr id;
     Background.tabComplete := true;
     Background.tabsGet := inr elsewhere;
     Background.tabsSendMessage := None |}.

(** Los Angeles (UTC-8), Monday 2 November 2026, 08:05 and 16:30. *)
Definition laMorning : Background.Date :=
  {| Background.timeValue := 1793635500000; Background.utcOffset := -480 |}.
Definition laAfternoon : Background.Date :=
  {| Background.timeValue := 1793665800000; Background.utcOffset := -480 |}.

(** Brisbane (UTC+10), Monday 2 November 2026, 11:00, and Tuesday, 08:00. *)
Definition brisbaneMonday : Background.Date :=
  {| Background.timeValue := 1793581200000; Background.utcOffset := 600 |}.
Definition brisbaneTuesday : Background.Date :=
  {| Background.timeValue := 1793656800000; Background.utcOffset := 600 |}.

(** A run that the popup starts at [now] and that ends at once with one
    desk booked. *)
Definition afterRun (id : Z) (now : Background.Date) : Background.World :=
  let w := fst (Background.onMessage (smooth id now) Background.initialWorld
                  (START_BOOKING (Some [1; 2; 3; 4; 5]%Z))) in
  fst (Background.onMessage (smooth id now) w
         (BOOKING_DONE 1 (Some [ {| date := "Mon 2"; desk := "Desk 4" |} ]))).

(** The browser is closed and opened again: the worker starts afresh and
    only [chrome.storage.local] is kept. *)
Definition afterRestart (w : Background.World) : Background.World :=
  {| Background.envoy_booking := None;
     Background.lastRunDate := Background.lastRunDate w;
     Background.selectedDays := Background.selectedDays w;
     Background.activeTabId := None;
     Background.pendingSelectedDays := [1; 2; 3; 4; 5]%Z;
     Background.openTabs := [];
     Background.sentToTab := [];
     Background.alarm := Background.alarm w;
     Background.notifications := [] |}.

(** *** Two overlapping calls of [runBooking]

    The first call (Monday, Wednesday, Friday) is suspended at
    [await chrome.tabs.create] when the second (Tuesday, Thursday) is
    made; the tabs are then created and loaded in the order of the
    calls. *)
Definition firstSuspended : Background.World :=
  Background.worldOf
    (Background.runBooking_enter (smooth 1 laMorning) [1; 3; 5]%Z Background.initialWorld).
Definition secondSuspended : Background.World :=
  Background.worldOf
    (Background.runBooking_enter (smooth 2 laMorning) [2; 4]%Z firstSuspended).
Definition firstCreated : Background.World :=
  Background.worldAfter (Background.runBooking_created (smooth 1 laMorning) secondSuspended).
Definition secondCreated : Background.World :=
  Background.worldAfter (Background.runBooking_created (smooth 2 laMorning) firstCreated).
Definition firstStarted : Background.World :=
  Background.runBooking_loaded (smooth 1 laMorning) 1 secondCreated.
Definition bothStarted : Background.World :=
  Background.runBooking_loaded (smooth 2 laMorning) 2 firstStarted.

(** The first call has its tab and waits for the page to load when the
    second is made and ignored; then the page of the first is loaded. *)
Definition firstLoading : Background.World :=
  Background.worldAfter (Background.runBooking_created (smooth 1 laMorning) firstSuspended).
Definition secondIgnored : Background.World :=
  Background.runBooking (smooth 2 laMorning) [2; 4]%Z firstLoading.
Definition firstSent : Background.World :=
  Background.runBooking_loaded (smooth 1 laMorning) 1 secondIgnored.

(** *** Messages of the agent, as the background script receives them *)
Definition progressed : Background.World :=
  fst (Background.onMessage (smooth 1 laMorning) Background.initialWorld
         (BOOKING_PROGRESS 1 2)).
Definition finished : Background.World :=
  fst (Background.onMessage (smooth 1 laMorning) progressed
         (BOOKING_DONE 1 (Some [ {| date := "Mon 3"; desk := "Desk 4" |} ]))).

End Examples.

(** ** Further vocabulary: the life of a run *)

Module Lifecycle.
Import Background.
Local Open Scope Z_scope.

(** Every platform call of [runBooking] succeeds and the page that loads
    passes the two tests on its address. *)
Definition succeeds (env : Env) : bool :=
  match tabsCreate env with
  | inl _ => false
  | inr _ =>
      tabComplete env &&
      match tabsGet env with
      | inl _ => false
      | inr url =>
          match checkLoadedUrl url, tabsSendMessage env with
          | None, None => true
          | _, _ => false
          end
      end
  end.

(** The tabs the guard accounts for. *)
Definition guardedTabs (w : World) : list Z :=
  match activeTabId w with
  | Some id => [id]
  | None => []
  end.

(** The worlds the listeners produce when every call of [runBooking] runs
    to its end before the next listener starts; the messages are
    arbitrary. *)
Inductive sequential : World -> Prop :=
| seq_initial : sequential initialWorld
| seq_message env w m :
    sequential w -> sequential (fst (Background.onMessage env w m))
| seq_startup env w : sequential w -> sequential (onStartup env w)
| seq_alarm env w : sequential w -> sequential (onAlarm env w).




(** A platform on which the tab loads a login page. *)
Definition loginRedirect (id : Z) (now : Date) : Env :=
  {| clock := fun _ => now;
     atLocalTime := Examples.fixedZone (utcOffset now);
     tabsCreate := inr id;
     tabComplete := true;
     tabsGet := inr "https://dashboard.envoy.com/login?return=schedule";
     tabsSendMessage := None |}.

End Lifecycle.

(** ** Further vocabulary: the protocol of the content script *)

Module Protocol.
Import Content.
Local Open Scope list_scope.

(** The buttons of a modal the script clicked. *)
Fixpoint modalClicks (tr : Trace) : list Button :=
  match tr with
  | [] => []
  | ClickModal b :: tr' => b :: modalClicks tr'
  | _ :: tr' => modalClicks tr'
  end.

(** The progress reports among some messages, as pairs (current, total). *)
Fixpoint progressOf (ms : list Message) : list (Z * Z) :=
  match ms with
  | [] => []
  | BOOKING_PROGRESS c t :: ms' => (c, t) :: progressOf ms'
  | _ :: ms' => progressOf ms'
  end.

(** The reports (from + 1, total), ..., (from + n, total). *)
Definition countUp (from : Z) (n : nat) (total : Z) : list (Z * Z) :=
  map (fun j => ((from + Z.of_nat j)%Z, total)) (seq 1 n).

(** The number of buttons the day filter leaves. *)
Definition survivors (page : Page) (days : list Z) : nat :=
  match Spec.discovered page with
  | Some buttons => length (filter (keepButton days) buttons)
  | None => 0
  end.

(** A channel that rejects nothing. *)
Definition reliableChannel (ch : Channel) : Prop := forall k, ch k = None.

(** No message of the trace was rejected. *)
Definition accepted (e : Effect) : Prop :=
  match e with
  | Send _ false => False
  | _ => True
  end.

(** On a reliable channel the computation has every message accepted. *)
Definition honest {A} (c : M A) : Prop :=
  forall ch tr, reliableChannel ch ->
                exists ext r, c ch tr = (tr ++ ext, r) /\ Forall accepted ext.

(** How a send that is not guarded by [try] ends. *)
Definition ended {A} (d : bool) (r : string + A) : Prop :=
  match r with
  | inr _ => d = true
  | inl _ => d = false
  end.

Definition isLogOrProgress (m : Message) : Prop :=
  match m with
  | LOG _ _ | BOOKING_PROGRESS _ _ => True
  | _ => False
  end.

Definition NONE_FOUND : string :=
  "No Schedule buttons found. Ensure you're logged in and desks are available.".
Definition NONE_MATCHED : string :=
  "No Schedule buttons matched the selected days.".

(** The address of the page has /schedule in it: the test of line 155. *)
Definition onSchedule (page : Page) : Prop := Spec.contains (href page) "/schedule".

(** The trace of a run of [runBulkBooking], by the four ways it ends: off
    the schedule page with the assignment of [location.href], on it with
    one of the two BOOKING_NONE or with the BOOKING_DONE. *)
Definition shape (page : Page) (days : list Z) (ext : Trace) (r : string + unit) : Prop :=
  if Js.includes (href page) "/schedule" then
    match Spec.discovered page with
    | None =>
        exists body d,
          ext = body ++ [Send (BOOKING_NONE (Some NONE_FOUND)) d] /\
          Spec.quiet body /\ ended d r
    | Some buttons =>
        if (length (filter (keepButton days) buttons) =? 0)%nat then
          exists body d,
            ext = body ++ [Send (BOOKING_NONE (Some NONE_MATCHED)) d] /\
            Spec.quiet body /\ ended d r
        else
          exists body bs d,
            ext = body ++ [Send (BOOKING_DONE
                                   (Z.of_nat (length (Spec.clicked days buttons))) (Some bs)) d] /\
            r = inr tt /\
            Forall isLogOrProgress (attempted body) /\
            progressOf (attempted body)
            = countUp 0 (length (Spec.clicked days buttons))
                      (Z.of_nat (length (filter (keepButton days) buttons))) /\
            length (clicks body) = length (Spec.clicked days buttons)
    end
  else
    exists body,
      ext = body ++ [SetLocation "https://dashboard.envoy.com/schedule"] /\
      Spec.quiet body /\ r = inr tt.

(** The dates of the records for the buttons [cs], when [from] buttons
    have been booked before them: the label of the button, or the ordinal
    of the booking when the label is empty. *)
Fixpoint dates (from : Z) (cs : list Candidate) : list string :=
  match cs with
  | [] => []
  | c :: rest =>
      Js.orString (Some (dateLabel c)) ("Booking " ++ Js.ofZ (from + 1))
      :: dates (from + 1) rest
  end.

End Protocol.

(** ** The content script: what it reads off the text of the page *)

Module PageText.

(** [\w] *)
Definition isWordChar (c : ascii) : bool :=
  let n := nat_of_ascii c in
  ((48 <=? n)%nat && (n <=? 57)%nat) || ((65 <=? n)%nat && (n <=? 90)%nat)
  || ((97 <=? n)%nat && (n <=? 122)%nat) || (n =? 95)%nat.

(** [s.slice(0, n)] *)
Fixpoint take (n : nat) (s : string) : string :=
  match n, s with
  | S k, String c rest => String c (take k rest)
  | _, _ => EmptyString
  end.

(** [s.slice(n)] *)
Fixpoint drop (n : nat) (s : string) : string :=
  match n, s with
  | S k, String _ rest => drop k rest
  | _, _ => s
  end.

Fixpoint takeWhile (p : ascii -> bool) (s : string) : string :=
  match s with
  | EmptyString => EmptyString
  | String c rest => if p c then String c (takeWhile p rest) else EmptyString
  end.

Fixpoint dropWhile (p : ascii -> bool) (s : string) : string :=
  match s with
  | EmptyString => EmptyString
  | String c rest => if p c then dropWhile p rest else s
  end.

Fixpoint allChars (p : ascii -> bool) (s : string) : bool :=
  match s with
  | EmptyString => true
  | String c rest => p c && allChars p rest
  end.

(** The lower-case word [w] stands at the head of [s], whatever the case
    of the letters of [s] (the flag [i] of a pattern). *)
Definition matchesAt (w s : string) : bool := String.prefix w (Js.toLowerCase s).

(** *** [getButtonDayOfWeek] *)

(** The alternatives of [/\b(Mon|Tue|Wed|Thu|Fri|Sat|Sun)[a-z]*/i]. *)
Definition DAY_ALTERNATIVES : list string :=
  ["mon"; "tue"; "wed"; "thu"; "fri"; "sat"; "sun"].

Definition dayMap (key : string) : option Z :=
  if (key =? "sun")%string then Some 0%Z
  else if (key =? "mon")%string then Some 1%Z
  else if (key =? "tue")%string then Some 2%Z
  else if (key =? "wed")%string then Some 3%Z
  else if (key =? "thu")%string then Some 4%Z
  else if (key =? "fri")%string then Some 5%Z
  else if (key =? "sat")%string then Some 6%Z
  else None.

(** [dayAbbr[0].slice(0, 3)] for the leftmost match of the pattern in
    [s]; [boundary] says whether [\b] holds in front of [s] (at the start
    of the text, or after a character that is not a word character; the
    match begins with a letter). *)
Fixpoint dayAbbr (boundary : bool) (s : string) : option string :=
  match s with
  | EmptyString => None
  | String c rest =>
      if boundary && existsb (fun w => matchesAt w s) DAY_ALTERNATIVES
      then Some (take 3 s)
      else dayAbbr (negb (isWordChar c)) rest
  end.

(** [container] is the text of the container, if the button has one.
    [dateFallback] stands for lines 127 to 132, the two date patterns and
    [new Date(...)], whose reading of a text is the browser's. *)
Definition getButtonDayOfWeek (dateFallback : string -> option Z)
           (container : option string) : option Z :=
  match container with
  | None => None
  | Some text =>
      match dayAbbr true text with
      | Some m => dayMap (Js.toLowerCase (take 3 m))
      | None => dateFallback text
      end
  end.

(** *** [getButtonDateLabel] *)

(** [text.replace(/\s+/g, ' ')]; [inRun] says whether the character in
    front was white space. *)
Fixpoint collapse (inRun : bool) (s : string) : string :=
  match s with
  | EmptyString => EmptyString
  | String c rest =>
      if Js.isSpace c then
        if inRun then collapse true rest else String " " (collapse true rest)
      else String c (collapse false rest)
  end.

(** The alternatives of [/schedule desk|book desk|schedule|book|reserve/gi]. *)
Definition LABEL_WORDS : list string :=
  ["schedule desk"; "book desk"; "schedule"; "book"; "reserve"].

(** The length of the first alternative that matches at the head of [s]. *)
Definition labelWordAt (s : string) : option nat :=
  option_map String.length (find (fun w => matchesAt w s) LABEL_WORDS).

(** [text.replace(/.../gi, '')]: the matches are taken from left to right
    and do not overlap; [skip] characters of the last match are still to
    be dropped. *)
Fixpoint strip (skip : nat) (s : string) : string :=
  match s with
  | EmptyString => EmptyString
  | String c rest =>
      match skip with
      | S k => strip k rest
      | O =>
          match labelWordAt s with
          | Some (S k) => strip k rest
          | _ => String c (strip 0 rest)
          end
      end
  end.

Definition getButtonDateLabel (container : option string) : string :=
  let text := match container with
              | Some t => Js.trim (collapse false t)
              | None => EmptyString
              end in
  take 40 (Js.trim (strip 0 text)).

(** *** [captureAssignedDesk] *)

(** The alternatives of [/(?:desk|table|seat|spot|space)\s*[\w\d#\-]+/i]. *)
Definition DESK_WORDS : list string := ["desk"; "table"; "seat"; "spot"; "space"].

(** [[\w\d#\-]] *)
Definition isDeskChar (c : ascii) : bool :=
  isWordChar c || Ascii.eqb c "#" || Ascii.eqb c "-".

(** The match of the pattern at the head of [s] with the alternative [w]:
    the word, the white space after it, and the longest token after that,
    which must not be empty. *)
Definition deskMatchWith (w s : string) : option string :=
  if matchesAt w s then
    let after := drop (String.length w) s in
    let token := takeWhile isDeskChar (dropWhile Js.isSpace after) in
    if (token =? "")%string then None
    else Some (take (String.length w) s ++ takeWhile Js.isSpace after ++ token)
  else None.

Fixpoint firstSome {A B} (f : A -> option B) (l : list A) : option B :=
  match l with
  | [] => None
  | a :: rest =>
      match f a with
      | Some b => Some b
      | None => firstSome f rest
      end
  end.

(** The leftmost match of the pattern in [s]. *)
Fixpoint deskMatch (s : string) : option string :=
  match firstSome (fun w => deskMatchWith w s) DESK_WORDS with
  | Some m => Some m
  | None =>
      match s with
      | EmptyString => None
      | String _ rest => deskMatch rest
      end
  end.

(** The pause of 600 ms apart. *)
Definition captureAssignedDesk (container : option string) : string :=
  let text := match container with
              | Some t => t
              | None => EmptyString
              end in
  match deskMatch text with
  | Some m => Js.trim m
  | None => "Booked"
  end.

(** *** Vocabulary *)

(** White space is a space character. *)
Definition tidyChar (c : ascii) : bool := negb (Js.isSpace c) || Ascii.eqb c " ".

Definition nonWord (c : ascii) : bool := negb (isWordChar c).

Definition nonSpace (c : ascii) : bool := negb (Js.isSpace c).

(** A word can begin behind [pre] ([\b] holds there when a letter
    follows): [pre] ends with a character that is not a word character, or
    it is empty and [front] says so of what stands before it. *)
Fixpoint wordBreak (front : bool) (pre : string) : bool :=
  match pre with
  | EmptyString => front
  | String c rest => wordBreak (negb (isWordChar c)) rest
  end.

(** A match of the desk pattern begins at position [n] of [text]: one of
    the five words in any mix of cases, white space or none, and a
    character of a token. *)
Definition deskAt (text : string) (n : nat) : Prop :=
  exists w sp c rest,
    drop n text = (w ++ sp ++ String c rest)%string /\
    In (Js.toLowerCase w) DESK_WORDS /\
    allChars Js.isSpace sp = true /\ isDeskChar c = true.

(** The text is empty or begins with a character that [p] rejects. *)
Definition stopsAt (p : ascii -> bool) (s : string) : Prop :=
  match s with
  | EmptyString => True
  | String c _ => p c = false
  end.

(** The text does not begin with white space. *)
Definition startsClean (s : string) : bool :=
  match s with
  | EmptyString => true
  | String c _ => negb (Js.isSpace c)
  end.

End PageText.

(** ** The popup: escaping *)

Module Popup.

(** [s.replace(/c/g, by)] for a pattern of one character. *)
Fixpoint replaceAll (c : ascii) (by_ : string) (s : string) : string :=
  match s with
  | EmptyString => EmptyString
  | String x rest =>
      if Ascii.eqb x c then by_ ++ replaceAll c by_ rest
      else String x (replaceAll c by_ rest)
  end.

Definition escHtml (str : string) : string :=
  replaceAll ">" "&gt;" (replaceAll "<" "&lt;" (replaceAll "&" "&amp;" str)).

(** What a reader of HTML makes of the three entities; [skip] characters
    of the last entity are still to be dropped. *)
Fixpoint unescHtml (skip : nat) (s : string) : string :=
  match s with
  | EmptyString => EmptyString
  | String x rest =>
      match skip with
      | S k => unescHtml k rest
      | O =>
          if Ascii.eqb x "&" then
            if String.prefix "amp;" rest then String "&" (unescHtml 4 rest)
            else if String.prefix "lt;" rest then String "<" (unescHtml 3 rest)
            else if String.prefix "gt;" rest then String ">" (unescHtml 3 rest)
            else String x (unescHtml 0 rest)
          else String x (unescHtml 0 rest)
      end
  end.

(** What [escHtml] makes of one character. *)
Definition escChar (c : ascii) : string :=
  if Ascii.eqb c "&" then "&amp;"
  else if Ascii.eqb c "<" then "&lt;"
  else if Ascii.eqb c ">" then "&gt;"
  else String c EmptyString.

Definition notMarkup (c : ascii) : bool := negb (Ascii.eqb c "<") && negb (Ascii.eqb c ">").

End Popup.

(** ** Further vocabulary: both scripts together *)

Module Together.

(** The background script handles the messages [ms] one after the other;
    [envs k] is what the platform answers during the [k]-th of them,
    counted from [i]. *)
Fixpoint deliver (envs : nat -> Background.Env) (i : nat) (ms : list Message)
         (w : Background.World) : Background.World :=
  match ms with
  | [] => w
  | m :: rest => deliver envs (S i) rest (fst (Background.onMessage (envs i) w m))
  end.


(** A message that neither starts nor ends a run. *)
Definition passing (m : Message) : Prop :=
  match m with
  | LOG _ _ | BOOKING_PROGRESS _ _ | GET_STATE | UNKNOWN => True
  | _ => False
  end.

End Together.

(** ** The content script: how computations run *)

Section AgentRuns.
Import Content Spec.
Local Open Scope list_scope.

Lemma attempted_app (a b : Trace) : attempted (a ++ b) = attempted a ++ attempted b.
Proof.
  induction a as [|e a IH]; simpl; [reflexivity|].
  destruct e; simpl; rewrite IH; reflexivity.
Qed.

Lemma delivered_app (a b : Trace) : delivered (a ++ b) = delivered a ++ delivered b.
Proof.
  induction a as [|e a IH]; simpl; [reflexivity|].
  destruct e as [m [|]| | | |]; simpl; rewrite IH; reflexivity.
Qed.

Lemma clicks_app (a b : Trace) : clicks (a ++ b) = clicks a ++ clicks b.
Proof.
  induction a as [|e a IH]; simpl; [reflexivity|].
  destruct e; simpl; rewrite IH; reflexivity.
Qed.

Lemma delivered_attempted (tr : Trace) (m : Message) :
  In m (delivered tr) -> In m (attempted tr).
Proof.
  induction tr as [|e tr IH]; simpl; [tauto|].
  destruct e as [m' [|]| | | |]; simpl; tauto.
Qed.

Lemma quiet_nil : quiet [].
Proof. split; [reflexivity | constructor]. Qed.

Lemma quiet_app (a b : Trace) : quiet a -> quiet b -> quiet (a ++ b).
Proof.
  intros [ca fa] [cb fb]; split.
  - rewrite clicks_app, ca, cb; reflexivity.
  - rewrite attempted_app; apply Forall_app; split; assumption.
Qed.

Lemma quiet_log l m d : quiet [Send (LOG (Some l) m) d].
Proof. split; [reflexivity | repeat constructor]. Qed.

Lemma quiet_clickModal b : quiet [ClickModal b].
Proof. split; [reflexivity | constructor]. Qed.

(** *** Rules for the primitives *)

Lemma runs_weaken {A} (c : M A) (Q Q' : Trace -> string + A -> Prop) :
  runs c Q -> (forall ext r, Q ext r -> Q' ext r) -> runs c Q'.
Proof.
  intros H HQ ch tr. destruct (H ch tr) as (ext & r & E & q).
  exists ext, r; split; [exact E | apply HQ, q].
Qed.

Lemma runs_ret {A} (a : A) (Q : Trace -> string + A -> Prop) :
  Q [] (inr a) -> runs (ret a) Q.
Proof.
  intros q ch tr. exists [], (inr a). unfold ret. rewrite app_nil_r. auto.
Qed.

Lemma runs_bind {A B} (c : M A) (k : A -> M B) Q1 (Q : Trace -> string + B -> Prop) :
  runs c Q1 ->
  (forall e1 err, Q1 e1 (inl err) -> Q e1 (inl err)) ->
  (forall e1 a, Q1 e1 (inr a) -> runs (k a) (fun e2 r => Q (e1 ++ e2) r)) ->
  runs (bind c k) Q.
Proof.
  intros Hc Herr Hk ch tr. unfold bind.
  destruct (Hc ch tr) as (e1 & r1 & E1 & q1). rewrite E1.
  destruct r1 as [err|a].
  - exists e1, (inl err). auto.
  - destruct (Hk e1 a q1 ch (tr ++ e1)) as (e2 & r & E2 & q).
    exists (e1 ++ e2), r. rewrite E2, app_assoc. auto.
Qed.

Lemma returns_bind {A B} (c : M A) (k : A -> M B) Q1 (Q : Trace -> string + B -> Prop) :
  returns c Q1 ->
  (forall e1 a, Q1 e1 a -> runs (k a) (fun e2 r => Q (e1 ++ e2) r)) ->
  runs (bind c k) Q.
Proof.
  intros Hc Hk. eapply runs_bind; [exact Hc | |].
  - intros e1 err (v & E & _). discriminate E.
  - intros e1 a (v & E & q). injection E as <-. apply Hk, q.
Qed.

Lemma runs_sendMessage (m : Message) (Q : Trace -> string + unit -> Prop) :
  Q [Send m true] (inr tt) -> (forall err, Q [Send m false] (inl err)) ->
  runs (sendMessage m) Q.
Proof.
  intros ok ko ch tr. unfold sendMessage.
  destruct (ch (length tr)) as [err|]; eauto.
Qed.

(** [try { await chrome.runtime.sendMessage(m) } catch { }] never throws. *)
Lemma returns_trySend (m : Message) (Q : Trace -> unit -> Prop) :
  (forall d, Q [Send m d] tt) ->
  returns (tryCatch (sendMessage m) (fun _ => ret tt)) Q.
Proof.
  intros q ch tr. unfold tryCatch, sendMessage, ret.
  destruct (ch (length tr)) as [err|]; eauto 6.
Qed.

Lemma returns_log l m (Q : Trace -> unit -> Prop) :
  (forall d, Q [Send (LOG (Some l) m) d] tt) -> returns (log l m) Q.
Proof. apply returns_trySend. Qed.

Lemma returns_effect e (Q : Trace -> unit -> Prop) :
  Q [e] tt -> returns (effect e) Q.
Proof. intros q ch tr. unfold effect. eauto 6. Qed.

Lemma returns_ret {A} (a : A) (Q : Trace -> A -> Prop) :
  Q [] a -> returns (ret a) Q.
Proof. intros q. apply runs_ret. eauto. Qed.

(** A log line in front of a computation. *)
Lemma runs_log_then {B} l m (k : M B) (Q : Trace -> string + B -> Prop) :
  (forall d, runs k (fun e2 r => Q (Send (LOG (Some l) m) d :: e2) r)) ->
  runs (bind (log l m) (fun _ => k)) Q.
Proof.
  intros Hk. eapply returns_bind.
  - apply returns_log with (Q := fun ext _ => exists d, ext = [Send (LOG (Some l) m) d]).
    eauto.
  - intros e1 [] (d & ->). apply Hk.
Qed.

Lemma runs_effect_then {B} e (k : M B) (Q : Trace -> string + B -> Prop) :
  runs k (fun e2 r => Q (e :: e2) r) ->
  runs (bind (effect e) (fun _ => k)) Q.
Proof.
  intros Hk. eapply returns_bind.
  - apply returns_effect with (Q := fun ext _ => ext = [e]). reflexivity.
  - intros e1 [] ->. apply Hk.
Qed.

End AgentRuns.

(** ** The content script: what each function does *)

Section AgentFunctions.
Import Content Spec.
Local Open Scope list_scope.

Ltac run_step :=
  first [ apply runs_log_then; intros ?
        | apply runs_effect_then
        | apply runs_ret ].

Ltac is_quiet :=
  repeat first [ apply quiet_nil | apply quiet_log | apply quiet_clickModal
               | assumption
               | apply (quiet_app [_]) | apply quiet_app ].

Lemma quiet_cons_log l m d ext : quiet ext -> quiet (Send (LOG (Some l) m) d :: ext).
Proof. intros q. apply (quiet_app [_]); [apply quiet_log | exact q]. Qed.

Lemma quiet_cons_clickModal b ext : quiet ext -> quiet (ClickModal b :: ext).
Proof. intros q. apply (quiet_app [_]); [apply quiet_clickModal | exact q]. Qed.

Lemma handleConfirmationModal_returns polls :
  returns (handleConfirmationModal polls) (fun ext _ => quiet ext).
Proof.
  unfold returns, handleConfirmationModal.
  destruct (waitFor _ polls) as [buttons|].
  - do 2 run_step.
    destruct (toClick buttons) as [b|]; [destruct (negb (disabled b))|];
      repeat run_step; eexists; (split; [reflexivity|]);
      repeat first [ apply quiet_cons_log | apply quiet_cons_clickModal | apply quiet_nil ].
  - repeat run_step. eexists; split; [reflexivity|].
    apply quiet_cons_log, quiet_nil.
Qed.

Lemma filterButtons_returns days buttons i :
  returns (filterButtons days buttons i)
          (fun ext kept => kept = filter (keepButton days) buttons /\ quiet ext).
Proof.
  revert i. induction buttons as [|btn rest IH]; intros i; cbn [filterButtons filter].
  - apply returns_ret. split; [reflexivity | apply quiet_nil].
  - unfold keepButton at 1.
    destruct (length days =? 0)%nat.
    + eapply returns_bind; [apply IH|]. intros e1 kept [-> q].
      apply runs_ret. rewrite app_nil_r. eauto.
    + destruct (dayOfWeek btn) as [day|].
      * destruct (existsb (Z.eqb day) days); cbn [negb].
        -- eapply returns_bind; [apply IH|]. intros e1 kept [-> q].
           apply runs_ret. rewrite app_nil_r. eauto.
        -- run_step. eapply runs_weaken; [apply IH|].
           intros ext r (v & -> & -> & q). eexists; split; [reflexivity|].
           split; [reflexivity | apply quiet_cons_log, q].
      * eapply returns_bind; [apply IH|]. intros e1 kept [-> q].
        apply runs_ret. rewrite app_nil_r. eauto.
Qed.

Lemma waitForScheduleButtons_returns page :
  returns (waitForScheduleButtons page)
          (fun ext found => found = discovered page /\ quiet ext).
Proof.
  unfold returns, waitForScheduleButtons. repeat run_step.
  eexists; split; [reflexivity|]. split; [reflexivity|].
  apply quiet_cons_log, quiet_nil.
Qed.

Lemma isLog_progressWithin lo hi n m : isLog m -> progressWithin lo hi n m.
Proof. destruct m; simpl; tauto. Qed.

Lemma quiet_progressWithin lo hi n ext :
  quiet ext -> Forall (progressWithin lo hi n) (attempted ext).
Proof.
  intros [_ q]. eapply Forall_impl; [|exact q].
  intros m. apply isLog_progressWithin.
Qed.

Lemma progressWithin_widen lo hi lo' hi' n m :
  (lo' <= lo)%Z -> (hi <= hi')%Z ->
  progressWithin lo hi n m -> progressWithin lo' hi' n m.
Proof. intros L H. destruct m; simpl; try tauto. intros [? ?]; split; [lia | assumption]. Qed.

Lemma clickedIndices_length todo i :
  length (clickedIndices todo i) = length (filter available todo).
Proof.
  revert i. induction todo as [|c rest IH]; intros i; simpl; [reflexivity|].
  destruct (available c); simpl; rewrite IH; reflexivity.
Qed.

(** The click loop never throws; it clicks exactly the available buttons,
    in order, and records one booking for each of them. *)
Lemma clickLoop_returns n todo i booked bookings :
  returns (clickLoop n todo i booked bookings)
    (fun ext r =>
       let hits := filter available todo in
       fst r = (booked + Z.of_nat (length hits))%Z /\
       map desk (snd r) = map desk bookings ++ map assignedDesk hits /\
       length (snd r) = (length bookings + length hits)%nat /\
       clicks ext = clickedIndices todo i /\
       Forall (progressWithin booked (fst r) n) (attempted ext)).
Proof.
  revert i booked bookings.
  induction todo as [|btn rest IH]; intros i booked bookings;
    cbn [clickLoop filter clickedIndices].
  - apply returns_ret. cbn. rewrite Z.add_0_r, app_nil_r, Nat.add_0_r.
    repeat split; constructor.
  - unfold returns. change (available btn) with (negb (unavailable btn)).
    destruct (unavailable btn); cbn [negb].
    + run_step. eapply runs_weaken; [apply IH|].
      intros ext r (v & -> & H1 & H2 & H3 & H4 & H5).
      eexists; split; [reflexivity|]. cbn [clicks attempted].
      repeat split; try assumption. constructor; [exact I | assumption].
    + run_step. run_step.
      eapply returns_bind.
      { apply returns_trySend
          with (Q := fun ext _ =>
                       exists d, ext = [Send (BOOKING_PROGRESS (booked + 1) (Z.of_nat n)) d]).
        eauto. }
      intros e1 [] (dp & ->).
      eapply returns_bind; [apply handleConfirmationModal_returns|].
      intros e2 dismissed q. cbv beta in q |- *.
      eapply runs_weaken; [apply IH|].
      intros ext r (v & -> & H1 & H2 & H3 & H4 & H5).
      eexists; split; [reflexivity|]. cbn [length map].
      repeat split.
      * rewrite H1. lia.
      * rewrite H2, map_app, <- app_assoc. reflexivity.
      * rewrite H3, length_app. cbn [length]. lia.
      * cbn [clicks app]. rewrite clicks_app, H4. destruct q as [-> _]. reflexivity.
      * cbn [attempted app]. constructor; [exact I|].
        constructor; [cbn; split; [lia | reflexivity]|].
        rewrite attempted_app. apply Forall_app; split.
        -- apply quiet_progressWithin, q.
        -- eapply Forall_impl; [|exact H5].
           intros m. apply progressWithin_widen; lia.
Qed.

End AgentFunctions.

(** ** The content script: a whole run *)

Section AgentRun.
Import Content Spec.
Local Open Scope list_scope.

Ltac run_step :=
  first [ apply runs_log_then; intros ?
        | apply runs_effect_then
        | apply runs_ret ].

Lemma runs_tryCatch {A} (c : M A) (h : string -> M A) Q1 (Q : Trace -> string + A -> Prop) :
  runs c Q1 ->
  (forall e1 v, Q1 e1 (inr v) -> Q e1 (inr v)) ->
  (forall e1 err, Q1 e1 (inl err) -> runs (h err) (fun e2 r => Q (e1 ++ e2) r)) ->
  runs (tryCatch c h) Q.
Proof.
  intros Hc Hv Hh ch tr. unfold tryCatch.
  destruct (Hc ch tr) as (e1 & r1 & E1 & q1). rewrite E1.
  destruct r1 as [err|v].
  - destruct (Hh e1 err q1 ch (tr ++ e1)) as (e2 & r & E2 & q).
    exists (e1 ++ e2), r. rewrite E2, app_assoc. auto.
  - exists e1, (inr v). auto.
Qed.

Lemma runs_trySend (m : Message) (Q : Trace -> string + unit -> Prop) :
  (forall d, Q [Send m d] (inr tt)) ->
  runs (tryCatch (sendMessage m) (fun _ => ret tt)) Q.
Proof.
  intros q. eapply runs_weaken.
  - apply returns_trySend with (Q := fun ext _ => exists d, ext = [Send m d]). eauto.
  - intros ext r (v & -> & d & ->). destruct v. apply q.
Qed.

Lemma snoc_one {A} (x : A) : [x] = [] ++ [x].
Proof. reflexivity. Qed.

Lemma snoc_cons {A} (e x : A) (b body : list A) :
  b = body ++ [x] -> e :: b = (e :: body) ++ [x].
Proof. intros ->. reflexivity. Qed.

Lemma snoc_app {A} (x : A) (a b body : list A) :
  b = body ++ [x] -> a ++ b = (a ++ body) ++ [x].
Proof. intros ->. apply app_assoc. Qed.

Lemma quiet_isLogOrNone ext : quiet ext -> Forall isLogOrNone (attempted ext).
Proof.
  intros [_ q]. eapply Forall_impl; [|exact q]. intros []; simpl; tauto.
Qed.

Lemma idle_app a b : idle a -> idle b -> idle (a ++ b).
Proof.
  intros [ca fa] [cb fb]; split.
  - rewrite clicks_app, ca, cb; reflexivity.
  - rewrite attempted_app; apply Forall_app; split; assumption.
Qed.

Lemma quiet_idle ext : quiet ext -> idle ext.
Proof. intros q; split; [apply q | apply quiet_isLogOrNone, q]. Qed.

Lemma idle_cons_log l m d ext : idle ext -> idle (Send (LOG (Some l) m) d :: ext).
Proof.
  intros [c f]; split; [exact c | constructor; [exact I | exact f]].
Qed.

Lemma idle_none m d : idle [Send (BOOKING_NONE m) d].
Proof. split; [reflexivity | repeat constructor]. Qed.

(** [runBulkBooking] either ends (normally or not) without a click and
    without a BOOKING_DONE, or completes. *)
Lemma runs_effect e (Q : Trace -> string + unit -> Prop) :
  Q [e] (inr tt) -> runs (effect e) Q.
Proof. intros q ch tr. unfold effect. eauto. Qed.

Lemma runBulkBooking_runs page days :
  runs (runBulkBooking page days)
       (fun ext r => idle ext \/ (r = inr tt /\ completed page days ext)).
Proof.
  unfold runBulkBooking. run_step.
  destruct (negb _).
  { run_step. apply runs_effect. left.
    apply idle_cons_log, idle_cons_log. split; [reflexivity | constructor]. }
  unfold runBulkBooking_scan.
  eapply returns_bind; [apply waitForScheduleButtons_returns|].
  intros e2 found [-> q2]. cbv beta.
  destruct (discovered page) as [buttons|] eqn:D.
  - run_step.
    eapply returns_bind; [apply filterButtons_returns|].
    intros e3 kept [-> q3]. cbv beta.
    destruct (length (filter (keepButton days) buttons) =? 0)%nat.
    + run_step. apply runs_sendMessage; [|intros err]; left;
        apply idle_cons_log, idle_app, idle_cons_log, idle_app,
              idle_cons_log, idle_none;
        auto using quiet_idle.
    + run_step.
      eapply returns_bind; [apply clickLoop_returns|].
      intros e4 [booked bookings] (H1 & H2 & H3 & H4 & H5).
      cbn [fst snd] in H1, H2, H3, H5. cbn [map app length] in H2, H3.
      rewrite Z.add_0_l in H1. rewrite Nat.add_0_l in H3. subst booked. cbv beta iota.
      run_step.
      apply runs_trySend. intros dd. right. split; [reflexivity|].
      exists buttons. eexists. exists bookings, dd.
      split; [exact D|]. split.
      { repeat first [ apply snoc_one | apply snoc_cons | apply snoc_app ]. }
      fold (clicked days buttons) in H2, H3, H5 |- *.
      repeat split.
      * repeat first [ rewrite attempted_app
                     | progress cbn [attempted app]
                     | apply Forall_app; split
                     | apply Forall_cons
                     | apply Forall_nil
                     | exact I
                     | apply quiet_progressWithin; assumption
                     | exact H5 ].
      * repeat first [ rewrite clicks_app | progress cbn [clicks app] ].
        destruct q2 as [-> _], q3 as [-> _].
        rewrite H4, app_nil_r. reflexivity.
      * exact H3.
      * exact H2.
  - run_step. apply runs_sendMessage; [|intros err]; left;
      apply idle_cons_log, idle_app, idle_cons_log, idle_none;
      auto using quiet_idle.
Qed.

End AgentRun.

(** ** The content script: day filter and modal choice *)

Section AgentChoices.
Import Content Spec.
Local Open Scope list_scope.

Lemma prefix_spec (kw s : string) :
  String.prefix kw s = true <-> exists post, s = (kw ++ post)%string.
Proof.
  revert s. induction kw as [|a kw IH]; intros s; simpl.
  - split; [intros _; exists s; reflexivity | intros _; destruct s; reflexivity].
  - destruct s as [|b s].
    + split; [discriminate | intros [post E]; discriminate E].
    + simpl. destruct (ascii_dec a b) as [->|ne].
      * rewrite IH. split; intros [post E]; exists post; congruence.
      * split; [discriminate | intros [post E]; congruence].
Qed.

Lemma includes_spec (s kw : string) : Js.includes s kw = true <-> contains s kw.
Proof.
  induction s as [|c s IH]; cbn [Js.includes].
  - destruct (String.prefix kw "") eqn:P.
    + split; [intros _ | reflexivity].
      apply prefix_spec in P as [post E]. exists ""%string, post. exact E.
    + split; [discriminate|]. intros (pre & post & E).
      destruct pre; [|discriminate E]. simpl in E.
      assert (String.prefix kw "" = true) by (apply prefix_spec; eauto). congruence.
  - destruct (String.prefix kw (String c s)) eqn:P.
    + split; [intros _ | reflexivity].
      apply prefix_spec in P as [post E]. exists ""%string, post. exact E.
    + rewrite IH. split.
      * intros (pre & post & ->). exists (String c pre), post. reflexivity.
      * intros (pre & post & E). destruct pre as [|c' pre]; simpl in E.
        -- assert (String.prefix kw (String c s) = true) by (apply prefix_spec; eauto).
           congruence.
        -- injection E as _ ->. exists pre, post. reflexivity.
Qed.

Lemma isConfirm_spec (b : Button) : isConfirm b = true <-> confirms b.
Proof.
  unfold isConfirm, confirms. rewrite existsb_exists.
  split; intros (kw & I & H); exists kw; (split; [exact I|]); apply includes_spec, H.
Qed.

Lemma find_first {A} (f : A -> bool) (l : list A) :
  match find f l with
  | Some b => exists pre post, l = pre ++ b :: post /\ f b = true /\
                               Forall (fun x => f x = false) pre
  | None => Forall (fun x => f x = false) l
  end.
Proof.
  induction l as [|a l IH]; simpl; [constructor|].
  destruct (f a) eqn:Fa.
  - exists [], l. repeat split; [exact Fa | constructor].
  - destruct (find f l) as [b|].
    + destruct IH as (pre & post & -> & Fb & none).
      exists (a :: pre), post. repeat split; [exact Fb | constructor; assumption].
    + constructor; assumption.
Qed.

Lemma not_confirms (b : Button) : isConfirm b = false -> ~ confirms b.
Proof. intros F C. apply isConfirm_spec in C. congruence. Qed.

Lemma keepButton_spec (days : list Z) (b : Candidate) :
  keepButton days b = true <-> kept days b.
Proof.
  unfold keepButton, kept. destruct days as [|d0 days]; cbn [length Nat.eqb].
  - split; auto.
  - destruct (dayOfWeek b) as [day|]; [|split; auto].
    destruct (existsb (Z.eqb day) (d0 :: days)) eqn:E.
    + split; [intros _ | reflexivity]. right; right.
      apply existsb_exists in E as (x & I & H). apply Z.eqb_eq in H. subst x. eauto.
    + split; [discriminate|]. intros [H|[H|(d & H & I)]]; try discriminate.
      injection H as <-.
      assert (existsb (Z.eqb day) (d0 :: days) = true)
        by (apply existsb_exists; exists day; split; [exact I | apply Z.eqb_refl]).
      congruence.
Qed.

End AgentChoices.

(** ** The content script: the properties of the specification *)

Section AgentProperties.
Import Content Spec.
Local Open Scope list_scope.

(** C4 (amended): the day filter returns the same list whatever the
    channel and the trace are, and it fails open: a candidate is kept
    exactly when the selection is empty, or its day is undetermined, or
    its day is in the selection.  So a candidate whose day is undetermined
    is always kept and, when the selection is not empty, a candidate
    whose day is determined and not selected is always dropped, wherever
    it stands in the list. *)
Theorem day_filter_fail_open (days : list Z) (buttons : list Candidate)
        (i : nat) (ch : Channel) (tr : Trace) :
  (exists ext, filterButtons days buttons i ch tr
               = (tr ++ ext, inr (filter (keepButton days) buttons))) /\
  (forall b, In b (filter (keepButton days) buttons) <-> In b buttons /\ kept days b) /\
  (forall b, In b buttons -> dayOfWeek b = None ->
             In b (filter (keepButton days) buttons)) /\
  (forall b d, days <> [] -> dayOfWeek b = Some d -> ~ In d days ->
               ~ In b (filter (keepButton days) buttons)).
Proof.
  split; [|split; [|split]].
  - destruct (filterButtons_returns days buttons i ch tr) as (ext & r & E & v & -> & -> & _).
    exists ext. exact E.
  - intros b. rewrite filter_In, keepButton_spec. reflexivity.
  - intros b I N. apply filter_In. split; [exact I|].
    apply keepButton_spec. right; left; exact N.
  - intros b d NE D NI I. apply filter_In in I as [_ K].
    apply keepButton_spec in K as [K|[K|(d' & K & I)]]; congruence.
Qed.

(** C4, as stated, fails: with the empty selection a Monday button is
    kept although Monday is not in the selection. *)
Lemma day_filter_empty_selection_keeps_all :
  dayOfWeek (Examples.slot (Some 1%Z) false) = Some 1%Z /\
  ~ In 1%Z [] /\
  snd (filterButtons [] [Examples.slot (Some 1%Z) false] 0 Examples.reliable [])
  = inr [Examples.slot (Some 1%Z) false] /\
  In (Examples.slot (Some 1%Z) false)
     (filter (keepButton []) [Examples.slot (Some 1%Z) false]).
Proof.
  split; [reflexivity|]. split; [intros []|]. split; [reflexivity|]. left. reflexivity.
Qed.

(** C5: the button [toClick] is the first one whose trimmed, lower-case
    text contains a confirmation keyword; failing that, the only button
    of the modal; failing that, none, and the handler then logs the
    warning and clicks nothing.  With the texts Cancel and Confirm
    Booking it is Confirm Booking, with Dismiss alone it is Dismiss, with
    Cancel and Dismiss it is none. *)
Theorem modal_confirm_choice :
  (forall buttons,
      match toClick buttons with
      | Some b =>
          (exists pre post, buttons = pre ++ b :: post /\ confirms b /\
                            Forall (fun x => ~ confirms x) pre) \/
          (buttons = [b] /\ ~ confirms b)
      | None => Forall (fun x => ~ confirms x) buttons /\ length buttons <> 1%nat
      end) /\
  (forall polls buttons ch tr,
      waitFor (fun modal => modal) polls = Some buttons ->
      toClick buttons = None ->
      exists d1 d2 d3,
        handleConfirmationModal polls ch tr
        = (tr ++ [Send (LOG (Some info) "Confirmation modal detected.") d1;
                  Send (LOG (Some info)
                          ("Modal buttons: ["
                           ++ Js.join ", "
                                (map (fun b => quoted (Js.trim (textContent b))) buttons)
                           ++ "]")) d2;
                  Send (LOG (Some warn)
                          "Could not find a confirm button in the modal — skipping modal.")
                       d3],
           inr false)) /\
  (forall d1 d2,
      toClick [ {| textContent := "Cancel"; disabled := d1 |};
                {| textContent := "Confirm Booking"; disabled := d2 |} ]
      = Some {| textContent := "Confirm Booking"; disabled := d2 |}) /\
  (forall d, toClick [ {| textContent := "Dismiss"; disabled := d |} ]
             = Some {| textContent := "Dismiss"; disabled := d |}) /\
  (forall d1 d2,
      toClick [ {| textContent := "Cancel"; disabled := d1 |};
                {| textContent := "Dismiss"; disabled := d2 |} ] = None).
Proof.
  split; [|split; [|repeat split; intros; reflexivity]].
  - intros buttons. unfold toClick.
    pose proof (find_first isConfirm buttons) as F.
    destruct (find isConfirm buttons) as [b|].
    + left. destruct F as (pre & post & -> & Fb & none).
      exists pre, post. split; [reflexivity|]. split; [apply isConfirm_spec, Fb|].
      eapply Forall_impl; [|exact none]. intros x. apply not_confirms.
    + assert (N : Forall (fun x => ~ confirms x) buttons)
        by (eapply Forall_impl; [|exact F]; intros x; apply not_confirms).
      destruct buttons as [|b [|b' rest]]; cbn.
      * split; [constructor | discriminate].
      * right. split; [reflexivity|]. inversion N; assumption.
      * split; [exact N | discriminate].
  - intros polls buttons ch tr W T. unfold handleConfirmationModal. rewrite W, T.
    unfold bind, log, tryCatch, sendMessage, ret.
    repeat match goal with
           | |- context [ch ?k] => destruct (ch k)
           end;
      rewrite <- !app_assoc; cbn [app]; eauto.
Qed.

(** Every run of the listener ends normally, whatever the page and the
    channel do, and sends only messages the background script can rely
    on. *)
Lemma onMessage_runs page request :
  runs (Content.onMessage page request)
       (fun ext r => r = inr true /\ Forall wellFormed (attempted ext)).
Proof.
  destruct request; try (apply runs_ret; split; [reflexivity | constructor]).
  cbn [Content.onMessage]. apply runs_effect_then.
  eapply runs_bind
    with (Q1 := fun ext r => r = inr tt /\ Forall wellFormed (attempted ext)).
  - eapply runs_tryCatch; [apply runBulkBooking_runs| |].
    + intros e1 [] [[_ L]|[_ C]]; (split; [reflexivity|]).
      * eapply Forall_impl; [|exact L]. intros []; simpl; tauto.
      * destruct C as (buttons & body & bs & d & _ & -> & W & _).
        rewrite attempted_app. apply Forall_app; split.
        -- eapply Forall_impl; [|exact W].
           intros [] ; simpl; try tauto. intros [[? ?] ->].
           pose proof (filter_length_le available (filter (keepButton (Js.orArray selectedDays [1; 2; 3; 4; 5]%Z)) buttons)).
           unfold clicked in *. lia.
        -- repeat constructor. simpl. lia.
    + intros e1 err [[_ L]|[E _]]; [|discriminate E].
      apply runs_log_then; intros d1. apply runs_trySend. intros d2.
      split; [reflexivity|]. rewrite attempted_app. apply Forall_app; split.
      * eapply Forall_impl; [|exact L]. intros []; simpl; tauto.
      * repeat constructor.
  - intros e1 err [E _]. discriminate E.
  - intros e1 [] [_ W]. apply runs_ret. rewrite app_nil_r. split; [reflexivity|].
    cbn [attempted]. exact W.
Qed.

(** C6: when [runBulkBooking] throws an error with message [m], the
    listener catches it, logs it, reports a BOOKING_ERROR whose message is
    [m] behind the words "Unhandled error: ", and ends normally: nothing
    escapes, also when the channel rejects the report. *)
Theorem unhandled_failure_is_reported
        (page : Page) (days : option (list Z)) (ch : Channel) (tr : Trace) (m : string) :
  runBulkBooking page (Js.orArray days [1; 2; 3; 4; 5]%Z) ch [SendResponse] = (tr, inl m) ->
  exists d1 d2,
    Content.onMessage page (START_BOOKING days) ch []
    = (tr ++ [Send (LOG (Some error) ("Unhandled error: " ++ m)) d1;
              Send (BOOKING_ERROR (Some ("Unhandled error: " ++ m)%string)) d2],
       inr true).
Proof.
  intros H. cbn [Content.onMessage]. unfold bind at 1. unfold effect at 1.
  cbn [app]. unfold bind at 1. unfold tryCatch at 1. rewrite H.
  unfold bind, log, tryCatch, sendMessage, ret.
  repeat match goal with
         | |- context [ch ?k] => destruct (ch k)
         end;
    rewrite <- !app_assoc; cbn [app]; eauto.
Qed.

Lemma unhandled_failure_is_reported_witness :
  exists d1 d2,
    Content.onMessage Examples.emptyPage (START_BOOKING None) Examples.broken []
    = (fst (runBulkBooking Examples.emptyPage [1; 2; 3; 4; 5]%Z Examples.broken [SendResponse])
       ++ [Send (LOG (Some error)
                   "Unhandled error: Could not establish connection. Receiving end does not exist.")
                d1;
           Send (BOOKING_ERROR
                   (Some "Unhandled error: Could not establish connection. Receiving end does not exist."))
                d2],
       inr true).
Proof.
  apply (unhandled_failure_is_reported Examples.emptyPage None Examples.broken).
  vm_compute. reflexivity.
Defined.

Lemma clickedIndices_spec todo i j :
  In j (clickedIndices todo i) <->
  exists k c, j = (i + k)%nat /\ nth_error todo k = Some c /\ unavailable c = false.
Proof.
  revert i. induction todo as [|c0 rest IH]; intros i; cbn [clickedIndices].
  - split; [intros [] | intros (k & c & _ & N & _); destruct k; discriminate N].
  - unfold available. destruct (unavailable c0) eqn:U; cbn [negb In]; rewrite IH.
    + split.
      * intros (k & c & -> & N & A). exists (S k), c. repeat split; [lia | exact N | exact A].
      * intros (k & c & -> & N & A). destruct k as [|k]; cbn in N.
        -- injection N as <-. congruence.
        -- exists k, c. repeat split; [lia | exact N | exact A].
    + split.
      * intros [<-|(k & c & -> & N & A)].
        -- exists 0%nat, c0. repeat split; [lia | exact U].
        -- exists (S k), c. repeat split; [lia | exact N | exact A].
      * intros (k & c & -> & N & A). destruct k as [|k]; cbn in N.
        -- left. lia.
        -- right. exists k, c. repeat split; [lia | exact N | exact A].
Qed.

(** C10: a BOOKING_DONE that [runBulkBooking] sends carries a total equal
    to the length of its bookings list and to the number of clicks of the
    run; the buttons clicked are exactly the survivors of the day filter
    that were still available at their turn, and the list has one record
    for each of them, in order, and none for a survivor that was
    skipped. *)
Theorem done_total_counts_clicks
        (page : Page) (days : list Z) (ch : Channel)
        (total : Z) (bookings : option (list BookingRecord)) :
  In (BOOKING_DONE total bookings) (attempted (fst (runBulkBooking page days ch []))) ->
  exists buttons bs,
    discovered page = Some buttons /\
    bookings = Some bs /\
    total = Z.of_nat (length bs) /\
    length bs = length (clicks (fst (runBulkBooking page days ch []))) /\
    (forall j, In j (clicks (fst (runBulkBooking page days ch []))) <->
               exists c, nth_error (filter (keepButton days) buttons) j = Some c /\
                         unavailable c = false) /\
    map desk bs = map assignedDesk (clicked days buttons).
Proof.
  destruct (runBulkBooking_runs page days ch []) as (ext & r & E & Q).
  rewrite E. cbn [fst app]. intros I.
  destruct Q as [[_ L]|[_ C]].
  - rewrite Forall_forall in L. apply L in I. destruct I.
  - destruct C as (buttons & body & bs & d & D & -> & W & K & Lb & Mb).
    rewrite attempted_app in I. apply in_app_or in I as [I|I].
    + rewrite Forall_forall in W. apply W in I. destruct I.
    + destruct I as [I|[]]. injection I as <- <-.
      exists buttons, bs. rewrite clicks_app, app_nil_r, K.
      repeat split; try assumption.
      * rewrite Lb. reflexivity.
      * rewrite clickedIndices_length. exact Lb.
      * intros H. apply clickedIndices_spec in H as (k & c & -> & N & A). eauto.
      * intros (c & N & A). apply clickedIndices_spec. exists j, c. auto.
Qed.

Lemma done_total_counts_clicks_witness :
  exists buttons bs,
    discovered Examples.schedulePage = Some buttons /\
    Some [ {| date := "Mon 3"; desk := "Desk 4" |} ] = Some bs /\
    1%Z = Z.of_nat (length bs) /\
    length bs
    = length (clicks (fst (runBulkBooking Examples.schedulePage [1; 3; 5]%Z
                                          Examples.reliable []))) /\
    (forall j, In j (clicks (fst (runBulkBooking Examples.schedulePage [1; 3; 5]%Z
                                                Examples.reliable []))) <->
               exists c, nth_error (filter (keepButton [1; 3; 5]%Z) buttons) j = Some c /\
                         unavailable c = false) /\
    map desk bs = map assignedDesk (clicked [1; 3; 5]%Z buttons).
Proof.
  apply (done_total_counts_clicks Examples.schedulePage [1; 3; 5]%Z Examples.reliable 1%Z
           (Some [ {| date := "Mon 3"; desk := "Desk 4" |} ])).
  vm_compute. do 12 right. left. reflexivity.
Defined.

End AgentProperties.

(** ** The background script: storage and counters *)

Section Orchestrator.
Import Background Spec.
Local Open Scope list_scope.
Local Open Scope Z_scope.

Lemma getState_addLog now l m w :
  getState (addLog now l m w)
  = {| status := status (getState w); current := current (getState w);
       total := total (getState w);
       log := log (getState w) ++ [ {| time := toTimeString8 now; level := l; msg := m |} ];
       bookings := bookings (getState w) |}.
Proof. reflexivity. Qed.

Lemma getState_setState p w :
  getState (setState p w)
  = {| status := orPrev (p_status p) (status (getState w));
       current := orPrev (p_current p) (current (getState w));
       total := orPrev (p_total p) (total (getState w));
       log := log (getState w);
       bookings := orPrev (p_bookings p) (bookings (getState w)) |}.
Proof. reflexivity. Qed.

Lemma getState_finishRun today w : getState (finishRun today w) = getState w.
Proof. unfold finishRun. destruct (activeTabId w); reflexivity. Qed.

(** The day [getTodayString] names is the day of the calendar in UTC
    that the instant falls in. *)
Lemma utc_day (now : Date) :
  getTodayString now * msPerDay <= timeValue now < (getTodayString now + 1) * msPerDay.
Proof.
  unfold getTodayString, msPerDay. Z.to_euclidean_division_equations. lia.
Qed.

Lemma counted_addLog now l m w :
  counted (getState w) -> counted (getState (addLog now l m w)).
Proof. rewrite getState_addLog. exact (fun H => H). Qed.

Lemma counted_failed w :
  counted (getState w) -> counted (getState (setState (statusOnly st_error) w)).
Proof.
  rewrite getState_setState. intros [H _]. split; [exact H | discriminate].
Qed.

Lemma counted_enter env days w :
  counted (getState w) -> counted (getState (worldOf (runBooking_enter env days w))).
Proof.
  intros H. unfold runBooking_enter.
  destruct (activeTabId (set_pendingSelectedDays days w)); cbn [worldOf].
  - apply counted_addLog. exact H.
  - split; [cbn; lia | discriminate].
Qed.

Lemma counted_loaded env id w :
  counted (getState w) -> counted (getState (runBooking_loaded env id w)).
Proof.
  intros H. unfold runBooking_loaded, awaitLoad.
  destruct (tabComplete env); cbn [negb].
  - destruct (tabsGet env) as [err|url].
    + apply (counted_addLog _ _ _ (setState _ _)), counted_failed, H.
    + destruct (checkLoadedUrl url) as [err|].
      * apply (counted_addLog _ _ _ (setState _ _)), counted_failed, counted_addLog, H.
      * destruct (tabsSendMessage env) as [err|].
        -- apply (counted_addLog _ _ _ (setState _ _)), counted_failed,
             counted_addLog, counted_addLog, H.
        -- apply (counted_addLog _ _ _ (addLog _ _ _ _)), counted_addLog, H.
  - apply (counted_addLog _ _ _ (setState _ _)), counted_failed, H.
Qed.

Lemma counted_created env w :
  counted (getState w) ->
  counted (getState (worldAfter (runBooking_created env w))).
Proof.
  intros H. unfold runBooking_created.
  destruct (tabsCreate env) as [err|id]; cbn [worldAfter].
  - apply (counted_addLog _ _ _ (setState _ _)), counted_failed, H.
  - apply (counted_addLog _ _ _ (addLog _ _ _ _)).
    apply (counted_addLog _ _ _ (set_activeTabId _ (set_openTabs _ w))). exact H.
Qed.

Lemma counted_resume env w :
  counted (getState w) -> counted (getState (runBooking_resume env w)).
Proof.
  intros H. unfold runBooking_resume.
  pose proof (counted_created env w H) as C.
  destruct (runBooking_created env w) as [w'|id w']; cbn [worldAfter] in C; [exact C|].
  apply counted_loaded, C.
Qed.

Lemma counted_runBooking env days w :
  counted (getState w) -> counted (getState (runBooking env days w)).
Proof.
  intros H. unfold runBooking.
  pose proof (counted_enter env days w H) as E.
  destruct (runBooking_enter env days w); [exact E|].
  apply counted_resume, E.
Qed.

Lemma counted_onMessage env w m :
  wellFormed m -> counted (getState w) ->
  counted (getState (fst (Background.onMessage env w m))).
Proof.
  intros W H.
  destruct m as [days|lvl text|cur tot|tot bks|note|note| |];
    cbn [Background.onMessage fst].
  - apply counted_runBooking, H.
  - apply counted_addLog, H.
  - apply counted_addLog. rewrite getState_setState. unfold counted.
    cbn in W |- *. split; [lia | discriminate].
  - change (counted (getState (finishRun (getTodayString (clock env 1))
              (addLog (clock env 0) success
                 ("Done! Successfully scheduled " ++ Js.ofZ tot ++ " desk(s).")%string
                 (setState {| p_status := Some st_done; p_current := Some tot;
                              p_total := Some tot;
                              p_bookings := Some (Js.orArray bks []) |} w))))).
    rewrite getState_finishRun. apply counted_addLog. rewrite getState_setState.
    unfold counted. cbn. split; [lia | reflexivity].
  - change (counted (getState (finishRun (getTodayString (clock env 1))
              (addLog (clock env 0) warn
                 (Js.orString note "No Schedule buttons were found on the page.")
                 (setState {| p_status := Some st_done; p_current := Some 0;
                              p_total := Some 0; p_bookings := None |} w))))).
    rewrite getState_finishRun. apply counted_addLog. rewrite getState_setState.
    unfold counted. cbn. split; [lia | reflexivity].
  - change (counted (getState (finishRun (getTodayString (clock env 1))
              (addLog (clock env 0) error
                 (Js.orString note "An unexpected error occurred.")
                 (setState (statusOnly st_error) w))))).
    rewrite getState_finishRun. apply counted_addLog, counted_failed, H.
  - exact H.
  - exact H.
Qed.

Lemma fromAgent_wellFormed m : fromAgent m -> wellFormed m.
Proof.
  intros (page & request & ch & I).
  destruct (onMessage_runs page request ch []) as (ext & r & E & _ & W).
  rewrite E in I. cbn [fst app] in I.
  apply delivered_attempted in I. rewrite Forall_forall in W. apply W, I.
Qed.

Lemma fromPopup_wellFormed m : fromPopup m -> wellFormed m.
Proof. intros [[days ->] | ->]; exact I. Qed.

Lemma reachable_counted w : reachable w -> counted (getState w).
Proof.
  induction 1 as [|env w m _ IH [A|P]|env w _ IH|env w _ IH|env days w _ IH
                 |env w _ IH|env id w _ IH].
  - split; [cbn; lia | discriminate].
  - apply counted_onMessage; [apply fromAgent_wellFormed, A | exact IH].
  - apply counted_onMessage; [apply fromPopup_wellFormed, P | exact IH].
  - unfold onStartup.
    destruct (8 <=? getHours (clock env 1)); [|exact IH].
    destruct (negb _); [|exact IH].
    apply counted_runBooking. exact IH.
  - unfold onAlarm. destruct (negb _); [|exact IH].
    apply counted_runBooking, IH.
  - apply counted_enter, IH.
  - apply counted_created, IH.
  - apply counted_loaded, IH.
Qed.

End Orchestrator.

(** ** The background script: the properties of the specification *)

Section OrchestratorProperties.
Import Background Spec.
Local Open Scope list_scope.
Local Open Scope Z_scope.

(** While the guard is set, a call of [runBooking] only appends the
    warning to the log and overwrites [pendingSelectedDays]. *)
Lemma runBooking_guarded env days w id :
  activeTabId w = Some id ->
  runBooking env days w
  = addLog (clock env 0) warn "Booking already in progress — ignoring duplicate request."
           (set_pendingSelectedDays days w).
Proof.
  intros G. unfold runBooking, runBooking_enter.
  cbn [activeTabId set_pendingSelectedDays]. rewrite G. reflexivity.
Qed.

Lemma runBooking_guarded_state env days w id :
  activeTabId w = Some id ->
  let w' := runBooking env days w in
  status (getState w') = status (getState w) /\
  current (getState w') = current (getState w) /\
  total (getState w') = total (getState w) /\
  bookings (getState w') = bookings (getState w) /\
  (exists entry, log (getState w') = log (getState w) ++ [entry] /\ level entry = warn) /\
  openTabs w' = openTabs w /\ activeTabId w' = activeTabId w /\
  sentToTab w' = sentToTab w /\ pendingSelectedDays w' = days.
Proof.
  intros G. cbv zeta. rewrite (runBooking_guarded env days w id G).
  rewrite getState_addLog. cbn. repeat split. eexists; split; reflexivity.
Qed.

(** C1: two calls of [runBooking] that overlap.  A call that arrives
    while the first is suspended at [await chrome.tabs.create] finds the
    status running and the guard still unset: it is not ignored, it
    replaces the state, and each of the two calls then opens a tab and
    sends the command to it; the guard keeps the second tab only.  A call
    that arrives once the guard is set is ignored, but it has overwritten
    [pendingSelectedDays] before the guard was tested, and the run in
    flight then sends the days of the ignored call to its page. *)
Theorem runBooking_overlapping_calls :
  (status (getState Examples.firstSuspended) = st_running /\
   activeTabId Examples.firstSuspended = None /\
   openTabs Examples.firstSuspended = []) /\
  (runBooking_enter (Examples.smooth 2 Examples.laMorning) [2; 4] Examples.firstSuspended
   = AwaitingTab Examples.secondSuspended /\
   openTabs Examples.bothStarted = [1; 2] /\
   activeTabId Examples.bothStarted = Some 2 /\
   sentToTab Examples.bothStarted
   = [(1, START_BOOKING (Some [2; 4])); (2, START_BOOKING (Some [2; 4]))]) /\
  (activeTabId Examples.firstLoading = Some 1 /\
   pendingSelectedDays Examples.firstLoading = [1; 3; 5] /\
   openTabs Examples.secondIgnored = openTabs Examples.firstLoading /\
   pendingSelectedDays Examples.secondIgnored = [2; 4] /\
   sentToTab Examples.firstSent = [(1, START_BOOKING (Some [2; 4]))]).
Proof. vm_compute. repeat split. Qed.

(** C2: in every world the listeners can produce from messages of the
    popup and of the content script, the counter [current] does not
    exceed [total] once [total] is not zero, and it equals [total] when
    the status is done. *)
Theorem counters_never_overrun (w : World) :
  reachable w ->
  (total (getState w) <> 0 -> current (getState w) <= total (getState w)) /\
  (status (getState w) = st_done -> current (getState w) = total (getState w)).
Proof.
  intros R. destruct (reachable_counted w R) as [L D]. split; [intros _; exact L | exact D].
Qed.

Lemma counters_never_overrun_witness :
  reachable Examples.finished /\
  status (getState Examples.finished) = st_done /\
  (total (getState Examples.finished) <> 0 ->
   current (getState Examples.finished) <= total (getState Examples.finished)) /\
  (status (getState Examples.finished) = st_done ->
   current (getState Examples.finished) = total (getState Examples.finished)).
Proof.
  assert (A : forall m,
             In m (Content.delivered
                     (fst (Content.onMessage Examples.schedulePage
                             (START_BOOKING (Some [1; 3; 5])) Examples.reliable []%list))) ->
             fromAgent m).
  { intros m I. exists Examples.schedulePage, (START_BOOKING (Some [1; 3; 5])),
      Examples.reliable. exact I. }
  assert (R : reachable Examples.finished).
  { apply reach_message; [apply reach_message; [apply reach_initial|]|]; left; apply A;
      vm_compute; tauto. }
  split; [exact R|]. split; [reflexivity|].
  exact (counters_never_overrun Examples.finished R).
Defined.

(** The two tests on the address, in the order of the code, and what
    [runBooking] does with their result: a failure sets the status to
    error, logs the cause, closes the tab and releases the guard;
    otherwise the command is sent to the page. *)
Lemma checkLoadedUrl_cases (url : string) :
  (~ contains url "dashboard.envoy.com" ->
   checkLoadedUrl url = Some "Redirected away from Envoy — are you logged in?") /\
  (contains url "dashboard.envoy.com" ->
   contains url "/login" \/ contains url "/sign-in" \/ contains url "/auth" ->
   checkLoadedUrl url
   = Some "Redirected to login page — please sign in to Envoy in Chrome first.") /\
  (contains url "dashboard.envoy.com" ->
   ~ contains url "/login" -> ~ contains url "/sign-in" -> ~ contains url "/auth" ->
   checkLoadedUrl url = None) /\
  (forall env id w,
      tabComplete env = true -> tabsGet env = inr url ->
      match checkLoadedUrl url with
      | Some cause =>
          status (getState (runBooking_loaded env id w)) = st_error /\
          (exists entries,
              log (getState (runBooking_loaded env id w))
              = entries ++ [ {| time := toTimeString8 (clock env 4);
                                level := error; msg := cause |} ]) /\
          ~ In id (openTabs (runBooking_loaded env id w)) /\
          activeTabId (runBooking_loaded env id w) = None /\
          sentToTab (runBooking_loaded env id w) = sentToTab w
      | None =>
          tabsSendMessage env = None ->
          status (getState (runBooking_loaded env id w)) = status (getState w) /\
          activeTabId (runBooking_loaded env id w) = activeTabId w /\
          sentToTab (runBooking_loaded env id w)
          = sentToTab w ++ [(id, START_BOOKING (Some (pendingSelectedDays w)))]
      end).
Proof.
  assert (B : forall kw, Js.includes url kw = false <-> ~ contains url kw).
  { intros kw. rewrite <- includes_spec. destruct (Js.includes url kw); split;
      congruence. }
  unfold checkLoadedUrl. split; [|split; [|split]].
  - intros H. apply B in H. rewrite H. reflexivity.
  - intros H F. apply includes_spec in H. rewrite H. cbn [negb].
    destruct F as [F|[F|F]]; apply includes_spec in F; rewrite F;
      rewrite ?orb_true_r; reflexivity.
  - intros H L S A. apply includes_spec in H. apply B in L, S, A.
    rewrite H, L, S, A. reflexivity.
  - intros env id w C G. unfold runBooking_loaded, awaitLoad.
    rewrite C, G. cbn [negb]. fold (checkLoadedUrl url).
    destruct (checkLoadedUrl url) as [cause|].
    + cbn. repeat split.
      * eexists. reflexivity.
      * apply remove_In.
    + intros S. rewrite S. cbn. repeat split.
Qed.

(** C3: the test for the host (line 145) looks for the text
    dashboard.envoy.com anywhere in the address, not at the host.  An
    address passes the two tests exactly when it contains that text and
    none of /login, /sign-in, /auth; so the address
    https://evil.example/?next=dashboard.envoy.com/schedule, whose host
    is evil.example, passes: a run whose tab ends there logs no error,
    keeps the status running and the tab open, and sends START_BOOKING
    to the page on the other host, where the claim has it fail as
    redirected away.  The test for the host also comes before the test
    for the login fragments, so the address of a login page on another
    host fails as redirected away, not as redirected to login. *)
Theorem redirect_test_reads_the_whole_address :
  (forall url,
      checkLoadedUrl url = None <->
      contains url "dashboard.envoy.com" /\
      ~ contains url "/login" /\ ~ contains url "/sign-in" /\ ~ contains url "/auth") /\
  (hostOf SCHEDULE_URL = "dashboard.envoy.com"%string /\
   hostOf Examples.elsewhere = "evil.example"%string /\
   checkLoadedUrl Examples.elsewhere = None /\
   status (getState (runBooking (Examples.astray 7 Examples.laMorning) [1; 3; 5] initialWorld))
   = st_running /\
   Forall (fun e => level e <> error)
          (log (getState (runBooking (Examples.astray 7 Examples.laMorning) [1; 3; 5]
                            initialWorld))) /\
   activeTabId (runBooking (Examples.astray 7 Examples.laMorning) [1; 3; 5] initialWorld)
   = Some 7 /\
   openTabs (runBooking (Examples.astray 7 Examples.laMorning) [1; 3; 5] initialWorld) = [7] /\
   sentToTab (runBooking (Examples.astray 7 Examples.laMorning) [1; 3; 5] initialWorld)
   = [(7, START_BOOKING (Some [1; 3; 5]))]) /\
  (hostOf "https://accounts.google.com/login" = "accounts.google.com"%string /\
   contains "https://accounts.google.com/login" "/login" /\
   checkLoadedUrl "https://accounts.google.com/login"
   = Some "Redirected away from Envoy — are you logged in?"%string).
Proof.
  split; [|split].
  - intros url. destruct (checkLoadedUrl_cases url) as (Away & Login & Pass & _).
    assert (D : forall kw, contains url kw \/ ~ contains url kw).
    { intros kw. rewrite <- includes_spec. destruct (Js.includes url kw); [left | right];
        congruence. }
    split.
    + intros N. destruct (D "dashboard.envoy.com"%string) as [H|H];
        [|rewrite (Away H) in N; discriminate N].
      split; [exact H|].
      repeat split; intros F;
        (rewrite (Login H) in N; [discriminate N | tauto]).
    + intros (H & L & S & A). apply Pass; assumption.
  - vm_compute. repeat split. repeat constructor; discriminate.
  - split; [reflexivity|]. split; [apply includes_spec|]; reflexivity.
Qed.

(** C7: a terminal event that arrives while the guard holds tab [id]
    sets the status (done for done and none, error for error) and, for
    done and none, the counters; it closes the tab, releases the guard
    and creates the notification with the wording of the event: so far
    the claim.  The date it stores as [lastRunDate] is the day of the
    calendar in UTC that the instant falls in, and that is not always
    today's date where the user is: when the event is handled in Los
    Angeles on Monday 2 November 2026 at 16:30, the date stored is
    Tuesday's. *)
Theorem terminal_event_ends_run :
  (forall (env : Env) (w : World) (m : Message) (id : Z),
      isTerminal m = true ->
      activeTabId w = Some id ->
      status (getState (fst (Background.onMessage env w m))) = terminalStatus m /\
      match m with
      | BOOKING_DONE t b =>
          current (getState (fst (Background.onMessage env w m))) = t /\
          total (getState (fst (Background.onMessage env w m))) = t /\
          bookings (getState (fst (Background.onMessage env w m))) = Js.orArray b []
      | BOOKING_NONE _ =>
          current (getState (fst (Background.onMessage env w m))) = 0 /\
          total (getState (fst (Background.onMessage env w m))) = 0
      | _ => True
      end /\
      openTabs (fst (Background.onMessage env w m)) = remove Z.eq_dec id (openTabs w) /\
      ~ In id (openTabs (fst (Background.onMessage env w m))) /\
      activeTabId (fst (Background.onMessage env w m)) = None /\
      (exists day,
          lastRunDate (fst (Background.onMessage env w m)) = Some day /\
          day * msPerDay <= timeValue (clock env 1) < (day + 1) * msPerDay) /\
      notifications (fst (Background.onMessage env w m)) = notifications w ++ [wording m]) /\
  (getHours Examples.laAfternoon = 16 /\
   localDate Examples.laAfternoon = 20759 /\
   localDate Examples.laMorning = 20759 /\
   activeTabId Examples.firstLoading = Some 1 /\
   lastRunDate (fst (Background.onMessage (Examples.smooth 1 Examples.laAfternoon)
                       Examples.firstLoading (BOOKING_DONE 1 None)))
   = Some 20760).
Proof.
  split; [|vm_compute; repeat split].
  intros env w m id T G.
  pose proof (utc_day (clock env 1)) as U.
  destruct m as [days|lvl text|cur tot|tot bks|note|note| |]; try discriminate T;
    cbn [Background.onMessage fst terminalStatus wording];
    unfold finishRun;
    cbn [activeTabId addLog setState set_envoy_booking];
    rewrite G; cbn [lastRunDate set_lastRunDate showBookingNotification set_notifications
                    set_activeTabId closeTab set_openTabs openTabs activeTabId notifications
                    getState envoy_booking status current total bookings orPrev
                    p_status p_current p_total p_bookings statusOnly];
    repeat first [ split | reflexivity | apply remove_In
                 | (eexists; split; [reflexivity | exact U]) ].
Qed.

Lemma terminal_event_ends_run_witness :
  status (getState Examples.firstLoading) = st_running /\
  activeTabId Examples.firstLoading = Some 1 /\
  openTabs Examples.firstLoading = [1] /\
  status (getState (fst (Background.onMessage (Examples.smooth 1 Examples.laMorning)
                           Examples.firstLoading (BOOKING_ERROR (Some "boom")))))
  = st_error /\
  openTabs (fst (Background.onMessage (Examples.smooth 1 Examples.laMorning)
                   Examples.firstLoading (BOOKING_ERROR (Some "boom")))) = [] /\
  notifications (fst (Background.onMessage (Examples.smooth 1 Examples.laMorning)
                        Examples.firstLoading (BOOKING_ERROR (Some "boom"))))
  = ["Booking failed: boom"%string].
Proof.
  pose proof (proj1 terminal_event_ends_run (Examples.smooth 1 Examples.laMorning)
                Examples.firstLoading (BOOKING_ERROR (Some "boom")) 1
                eq_refl eq_refl) as (S & _ & O & _ & _ & _ & N).
  split; [reflexivity|]. split; [reflexivity|]. split; [reflexivity|].
  split; [exact S|]. split; [exact O | exact N].
Defined.

Lemma getState_showBookingNotification st t e w :
  getState (showBookingNotification st t e w) = getState w.
Proof. reflexivity. Qed.

(** C8 (amended): delivering an event twice leaves the status, the
    counters and the bookings as delivering it once does; the log is not
    left alone: every event but the state query appends one entry at each
    delivery, the second with the level and text of the first. *)
Theorem duplicate_delivery (env1 env2 : Env) (w : World) (m : Message) :
  isEvent m = true ->
  status (getState (fst (Background.onMessage env2 (fst (Background.onMessage env1 w m)) m)))
  = status (getState (fst (Background.onMessage env1 w m))) /\
  current (getState (fst (Background.onMessage env2 (fst (Background.onMessage env1 w m)) m)))
  = current (getState (fst (Background.onMessage env1 w m))) /\
  total (getState (fst (Background.onMessage env2 (fst (Background.onMessage env1 w m)) m)))
  = total (getState (fst (Background.onMessage env1 w m))) /\
  bookings (getState (fst (Background.onMessage env2 (fst (Background.onMessage env1 w m)) m)))
  = bookings (getState (fst (Background.onMessage env1 w m))) /\
  exists first second,
    log (getState (fst (Background.onMessage env1 w m))) = log (getState w) ++ first /\
    log (getState (fst (Background.onMessage env2 (fst (Background.onMessage env1 w m)) m)))
    = log (getState (fst (Background.onMessage env1 w m))) ++ second /\
    length first = logged m /\ length second = logged m /\
    map level second = map level first /\ map msg second = map msg first.
Proof.
  intros E.
  destruct m as [days|lvl text|cur tot|tot bks|note|note| |]; try discriminate E;
    cbn [Background.onMessage fst logged];
    rewrite ?getState_showBookingNotification, ?getState_finishRun,
      ?getState_addLog, ?getState_setState;
    cbn [status current total log bookings orPrev
         p_status p_current p_total p_bookings statusOnly];
    rewrite ?getState_showBookingNotification, ?getState_finishRun,
      ?getState_addLog, ?getState_setState;
    cbn [status current total log bookings orPrev
         p_status p_current p_total p_bookings statusOnly];
    (repeat split);
    first [ solve [eexists [_], [_]; repeat split]
          | exists [], []; rewrite !app_nil_r; repeat split ].
Qed.

Lemma duplicate_delivery_witness :
  status (getState (fst (Background.onMessage (Examples.smooth 1 Examples.laAfternoon)
                           Examples.finished (BOOKING_PROGRESS 1 2))))
  = st_running /\
  total (getState (fst (Background.onMessage (Examples.smooth 1 Examples.laAfternoon)
                          (fst (Background.onMessage (Examples.smooth 1 Examples.laMorning)
                                  Examples.finished (BOOKING_PROGRESS 1 2)))
                          (BOOKING_PROGRESS 1 2))))
  = total (getState (fst (Background.onMessage (Examples.smooth 1 Examples.laMorning)
                            Examples.finished (BOOKING_PROGRESS 1 2)))).
Proof.
  split; [reflexivity|].
  exact (proj1 (proj2 (proj2
           (duplicate_delivery (Examples.smooth 1 Examples.laMorning)
              (Examples.smooth 1 Examples.laAfternoon)
              Examples.finished (BOOKING_PROGRESS 1 2) eq_refl)))).
Defined.

(** C8, as stated, fails: a log event delivered twice leaves two entries
    in the log, delivered once it leaves one. *)
Lemma duplicate_log_event_is_logged_twice :
  isEvent (LOG (Some info) "Scanning") = true /\
  length (log (getState (fst (Background.onMessage (Examples.smooth 1 Examples.laMorning)
                                initialWorld (LOG (Some info) "Scanning"))))) = 1%nat /\
  length (log (getState
                 (fst (Background.onMessage (Examples.smooth 1 Examples.laMorning)
                         (fst (Background.onMessage (Examples.smooth 1 Examples.laMorning)
                                 initialWorld (LOG (Some info) "Scanning")))
                         (LOG (Some info) "Scanning"))))) = 2%nat /\
  getState (fst (Background.onMessage (Examples.smooth 1 Examples.laMorning)
                   (fst (Background.onMessage (Examples.smooth 1 Examples.laMorning)
                           initialWorld (LOG (Some info) "Scanning")))
                   (LOG (Some info) "Scanning")))
  <> getState (fst (Background.onMessage (Examples.smooth 1 Examples.laMorning)
                      initialWorld (LOG (Some info) "Scanning"))).
Proof.
  split; [reflexivity|]. split; [reflexivity|]. split; [reflexivity|].
  intros H. apply (f_equal (fun s => length (log s))) in H. vm_compute in H. discriminate H.
Qed.

(** When the listeners of the daily run call [runBooking]: on startup,
    from 8:00 local time on, and on the alarm at any time, when the
    stored date is not the date of today in UTC. *)
Lemma daily_run_condition (env : Env) (w : World) :
  onStartup env w
  = (if (8 <=? getHours (clock env 1))
        && negb (sameDate (lastRunDate w) (getTodayString (clock env 2)))
     then runBooking (later 3 env) (Js.orArray (selectedDays w) DEFAULT_DAYS)
                     (scheduleNextAlarm env w)
     else scheduleNextAlarm env w) /\
  onAlarm env w
  = (if negb (sameDate (lastRunDate w) (getTodayString (clock env 0)))
     then runBooking (later 1 env) (Js.orArray (selectedDays w) DEFAULT_DAYS) w
     else w).
Proof.
  unfold onStartup, onAlarm. split; [|reflexivity].
  destruct (8 <=? getHours (clock env 1)); [|reflexivity].
  cbn [andb lastRunDate scheduleNextAlarm set_alarm].
  destruct (negb _); reflexivity.
Qed.

(** C9: the date of today that the listeners compare is the date in
    UTC, the hour is the local hour.  In Los Angeles a run ends on Monday
    at 08:05; when the browser starts again on the same Monday at 16:30,
    the date in UTC is Tuesday's and the run is started a second time.
    In Brisbane a run ends on Monday at 11:00; when the alarm fires on
    Tuesday at 08:00, the date in UTC is still Monday's and no run is
    started. *)
Theorem daily_run_compares_utc_dates :
  (localDate Examples.laMorning = localDate Examples.laAfternoon /\
   8 <= getHours Examples.laAfternoon /\
   lastRunDate (Examples.afterRun 7 Examples.laMorning)
   = Some (getTodayString Examples.laMorning) /\
   status (getState (onStartup (Examples.smooth 8 Examples.laAfternoon)
                       (Examples.afterRestart (Examples.afterRun 7 Examples.laMorning))))
   = st_running /\
   openTabs (onStartup (Examples.smooth 8 Examples.laAfternoon)
               (Examples.afterRestart (Examples.afterRun 7 Examples.laMorning))) = [8]) /\
  (localDate Examples.brisbaneMonday + 1 = localDate Examples.brisbaneTuesday /\
   getHours Examples.brisbaneTuesday = 8 /\
   lastRunDate (Examples.afterRun 7 Examples.brisbaneMonday)
   = Some (getTodayString Examples.brisbaneMonday) /\
   onAlarm (Examples.smooth 8 Examples.brisbaneTuesday)
     (Examples.afterRestart (Examples.afterRun 7 Examples.brisbaneMonday))
   = Examples.afterRestart (Examples.afterRun 7 Examples.brisbaneMonday)).
Proof. vm_compute. repeat split. discriminate. Qed.

End OrchestratorProperties.

(** ** The background script: further properties *)

Section OrchestratorLifecycle.
Import Background Spec Lifecycle.
Local Open Scope list_scope.
Local Open Scope Z_scope.



Ltac run_cases env :=
  unfold runBooking, runBooking_enter, runBooking_resume, runBooking_created,
    runBooking_loaded, awaitLoad, succeeds;
  cbn [activeTabId set_pendingSelectedDays];
  destruct (tabsCreate env) as [cerr|id];
  [ | destruct (tabComplete env);
      [ destruct (tabsGet env) as [gerr|url];
        [ | destruct (checkLoadedUrl url) as [cause|];
            [ | destruct (tabsSendMessage env) as [serr|] ] ] | ] ].

(** X3: a call of [runBooking] that finds the guard unset and is not
    interleaved with another.  It replaces the state: the counters are
    zero, the bookings empty, the log starts anew.  If every platform call
    succeeds and the page passes the tests on its address, the status is
    running, the guard holds the new tab, the tab is open and the page got
    START_BOOKING with the days of the call.  Otherwise the status is
    error, the last log entry is an error, the guard is released, the tab
    (if one was created) is closed and no command was sent. *)
Theorem runBooking_outcome (env : Env) (days : list Z) (w : World) :
  activeTabId w = None ->
  current (getState (runBooking env days w)) = 0 /\
  total (getState (runBooking env days w)) = 0 /\
  bookings (getState (runBooking env days w)) = [] /\
  (exists rest,
      log (getState (runBooking env days w))
      = {| time := toTimeString8 (clock env 0); level := info;
           msg := "Opening Envoy schedule page in background tab…" |} :: rest) /\
  (succeeds env = true ->
   exists id,
     tabsCreate env = inr id /\
     status (getState (runBooking env days w)) = st_running /\
     activeTabId (runBooking env days w) = Some id /\
     openTabs (runBooking env days w) = openTabs w ++ [id] /\
     sentToTab (runBooking env days w)
     = sentToTab w ++ [(id, START_BOOKING (Some days))]) /\
  (succeeds env = false ->
   status (getState (runBooking env days w)) = st_error /\
   activeTabId (runBooking env days w) = None /\
   sentToTab (runBooking env days w) = sentToTab w /\
   (forall id, tabsCreate env = inr id -> ~ In id (openTabs (runBooking env days w))) /\
   (exists entries e,
       log (getState (runBooking env days w)) = entries ++ [e] /\ level e = error)).
Proof.
  intros G.
  assert (L : forall l : list LogEntry,
             l <> [] -> level (last l {| time := ""; level := info; msg := "" |}) = error ->
             exists entries e, l = entries ++ [e] /\ level e = error).
  { intros l N E. exists (removelast l), (last l {| time := ""; level := info; msg := "" |}).
    split; [apply app_removelast_last, N | exact E]. }
  run_cases env; rewrite G; cbn;
    (split; [reflexivity|]); (split; [reflexivity|]); (split; [reflexivity|]);
    (split; [eexists; reflexivity|]);
    (split; intros S; try discriminate S).
  - repeat split; [intros id' E; discriminate E | apply L; [discriminate | reflexivity]].
  - repeat split; [intros id' E; injection E as <-; apply remove_In
                  | apply L; [discriminate | reflexivity]].
  - repeat split; [intros id' E; injection E as <-; apply remove_In
                  | apply L; [discriminate | reflexivity]].
  - repeat split; [intros id' E; injection E as <-; apply remove_In
                  | apply L; [discriminate | reflexivity]].
  - exists id. repeat split.
  - repeat split; [intros id' E; injection E as <-; apply remove_In
                  | apply L; [discriminate | reflexivity]].
Qed.

Lemma runBooking_outcome_witness :
  status (getState (runBooking (loginRedirect 5 Examples.laMorning) [1; 3] initialWorld))
  = st_error /\
  activeTabId (runBooking (loginRedirect 5 Examples.laMorning) [1; 3] initialWorld) = None /\
  ~ In 5 (openTabs (runBooking (loginRedirect 5 Examples.laMorning) [1; 3] initialWorld)).
Proof.
  pose proof (runBooking_outcome (loginRedirect 5 Examples.laMorning) [1; 3] initialWorld
                eq_refl) as (_ & _ & _ & _ & _ & F).
  destruct (F eq_refl) as (S & G & _ & T & _).
  split; [exact S|]. split; [exact G|]. apply T. reflexivity.
Defined.

(** X4: [runBooking] itself never creates a notification and never
    writes [lastRunDate], the stored day selection or the alarm, however
    it ends: a run that fails before the page is commanded (no tab, load
    timed out, redirected, content script unreachable) is only visible
    in the state and its log. *)
Theorem runBooking_is_silent (env : Env) (days : list Z) (w : World) :
  notifications (runBooking env days w) = notifications w /\
  lastRunDate (runBooking env days w) = lastRunDate w /\
  selectedDays (runBooking env days w) = selectedDays w /\
  alarm (runBooking env days w) = alarm w.
Proof.
  run_cases env; destruct (activeTabId w); repeat split.
Qed.

Lemma tidy_runBooking env days w :
  openTabs w = guardedTabs w ->
  openTabs (runBooking env days w) = guardedTabs (runBooking env days w).
Proof.
  unfold guardedTabs. destruct (activeTabId w) as [held|] eqn:G; intros T.
  - rewrite (runBooking_guarded env days w held G). cbn. rewrite G. exact T.
  - run_cases env; rewrite G; cbn; rewrite T; cbn; try reflexivity;
      destruct (Z.eq_dec id id); congruence.
Qed.

Lemma tidy_finishRun today w :
  openTabs w = guardedTabs w ->
  openTabs (finishRun today w) = guardedTabs (finishRun today w).
Proof.
  unfold guardedTabs, finishRun. destruct (activeTabId w) as [held|] eqn:G; intros T; cbn.
  - rewrite T. cbn. destruct (Z.eq_dec held held); congruence.
  - rewrite G. exact T.
Qed.

Lemma sequential_tidy w : sequential w -> openTabs w = guardedTabs w.
Proof.
  induction 1 as [|env w m _ IH|env w _ IH|env w _ IH].
  - reflexivity.
  - destruct m as [days|lvl text|cur tot|tot bks|note|note| |];
      cbn [Background.onMessage fst]; try exact IH.
    + apply tidy_runBooking, IH.
    + apply (tidy_finishRun _ (addLog _ _ _ (setState _ w))), IH.
    + apply (tidy_finishRun _ (addLog _ _ _ (setState _ w))), IH.
    + apply (tidy_finishRun _ (addLog _ _ _ (setState _ w))), IH.
  - unfold onStartup.
    destruct (8 <=? getHours (clock env 1)); [|exact IH].
    destruct (negb _); [|exact IH].
    apply (tidy_runBooking _ _ (scheduleNextAlarm _ w)), IH.
  - unfold onAlarm. destruct (negb _); [|exact IH].
    apply tidy_runBooking, IH.
Qed.

(** X5: when the calls of [runBooking] do not overlap, the open tabs are
    exactly the tab the guard holds: at most one tab is open at any time,
    whatever messages arrive and whatever the platform answers, and no tab
    is open when the guard is released. *)
Theorem sequential_runs_hold_one_tab (w : World) :
  sequential w ->
  openTabs w = guardedTabs w /\
  (length (openTabs w) <= 1)%nat /\
  (activeTabId w = None -> openTabs w = []).
Proof.
  intros S. pose proof (sequential_tidy w S) as T. split; [exact T|].
  rewrite T. unfold guardedTabs. destruct (activeTabId w); cbn; split; auto; discriminate.
Qed.

Lemma sequential_runs_hold_one_tab_witness :
  sequential (Examples.afterRun 7 Examples.laMorning) /\
  openTabs (Examples.afterRun 7 Examples.laMorning)
  = guardedTabs (Examples.afterRun 7 Examples.laMorning) /\
  (length (openTabs (Examples.afterRun 7 Examples.laMorning)) <= 1)%nat /\
  (activeTabId (Examples.afterRun 7 Examples.laMorning) = None ->
   openTabs (Examples.afterRun 7 Examples.laMorning) = []).
Proof.
  assert (S : sequential (Examples.afterRun 7 Examples.laMorning))
    by (apply seq_message, seq_message, seq_initial).
  split; [exact S|].
  exact (sequential_runs_hold_one_tab (Examples.afterRun 7 Examples.laMorning) S).
Defined.

Lemma lastRunDate_terminal env w m :
  isTerminal m = true ->
  lastRunDate (fst (Background.onMessage env w m)) = Some (getTodayString (clock env 1)).
Proof.
  destruct m; try discriminate; intros _; reflexivity.
Qed.

(** X6: once a terminal event has been handled, the daily triggers start
    no run as long as the date in UTC is the date at which the event was
    handled: the alarm leaves the world as it is, and the startup listener
    only sets the alarm anew. *)
Theorem no_second_run_on_the_same_utc_day (env env' : Env) (w : World) (m : Message) :
  isTerminal m = true ->
  (getTodayString (clock env' 0) = getTodayString (clock env 1) ->
   onAlarm env' (fst (Background.onMessage env w m)) = fst (Background.onMessage env w m)) /\
  (getTodayString (clock env' 2) = getTodayString (clock env 1) ->
   onStartup env' (fst (Background.onMessage env w m))
   = scheduleNextAlarm env' (fst (Background.onMessage env w m))).
Proof.
  intros T. pose proof (lastRunDate_terminal env w m T) as L. split; intros E.
  - unfold onAlarm. rewrite L. cbn [sameDate]. rewrite E, Z.eqb_refl. reflexivity.
  - unfold onStartup. cbn [lastRunDate scheduleNextAlarm set_alarm].
    rewrite L. cbn [sameDate]. rewrite E, Z.eqb_refl. cbn [negb].
    destruct (8 <=? getHours (clock env' 1)); reflexivity.
Qed.

Lemma no_second_run_on_the_same_utc_day_witness :
  onAlarm (Examples.smooth 8 Examples.laMorning)
    (fst (Background.onMessage (Examples.smooth 7 Examples.laMorning) Examples.firstLoading
            (BOOKING_NONE None)))
  = fst (Background.onMessage (Examples.smooth 7 Examples.laMorning) Examples.firstLoading
           (BOOKING_NONE None)).
Proof.
  apply (proj1 (no_second_run_on_the_same_utc_day
                  (Examples.smooth 7 Examples.laMorning) (Examples.smooth 8 Examples.laMorning)
                  Examples.firstLoading (BOOKING_NONE None) eq_refl)).
  reflexivity.
Defined.

(** X7: on a profile where no run has ever ended and no day selection is
    stored, the alarm starts a run at any hour, and when the platform
    cooperates the page is commanded with the default days, Monday to
    Friday. *)
Theorem alarm_on_a_fresh_profile (env : Env) (w : World) :
  lastRunDate w = None -> selectedDays w = None -> activeTabId w = None ->
  succeeds env = true ->
  exists id,
    tabsCreate env = inr id /\
    status (getState (onAlarm env w)) = st_running /\
    activeTabId (onAlarm env w) = Some id /\
    sentToTab (onAlarm env w)
    = sentToTab w ++ [(id, START_BOOKING (Some [1; 2; 3; 4; 5]))].
Proof.
  intros L D G S. unfold onAlarm. rewrite L, D. cbn [sameDate negb Js.orArray].
  revert S.
  unfold runBooking, runBooking_enter, runBooking_resume, runBooking_created,
    runBooking_loaded, awaitLoad, succeeds, later.
  cbn [activeTabId set_pendingSelectedDays tabsCreate tabComplete tabsGet tabsSendMessage].
  rewrite G.
  destruct (tabsCreate env) as [cerr|id]; [discriminate|].
  destruct (tabComplete env); [|discriminate].
  destruct (tabsGet env) as [gerr|url]; [discriminate|].
  destruct (checkLoadedUrl url) as [cause|]; [discriminate|].
  destruct (tabsSendMessage env) as [serr|]; [discriminate|].
  intros _. exists id. repeat split.
Qed.

Lemma alarm_on_a_fresh_profile_witness :
  exists id,
    tabsCreate (Examples.smooth 3 Examples.brisbaneTuesday) = inr id /\
    status (getState (onAlarm (Examples.smooth 3 Examples.brisbaneTuesday) initialWorld))
    = st_running /\
    activeTabId (onAlarm (Examples.smooth 3 Examples.brisbaneTuesday) initialWorld) = Some id /\
    sentToTab (onAlarm (Examples.smooth 3 Examples.brisbaneTuesday) initialWorld)
    = sentToTab initialWorld ++ [(id, START_BOOKING (Some [1; 2; 3; 4; 5]))].
Proof.
  exact (alarm_on_a_fresh_profile (Examples.smooth 3 Examples.brisbaneTuesday) initialWorld
           eq_refl eq_refl eq_refl eq_refl).
Defined.

(** X8: a terminal event that arrives when the guard is not set (a late
    or repeated event) closes no tab, but it still sets the status,
    creates a notification and overwrites [lastRunDate], with the day of
    the calendar in UTC that the instant falls in (in Los Angeles on a
    Monday afternoon that is Tuesday's date). *)
Theorem terminal_event_without_a_run (env : Env) (w : World) (m : Message) :
  isTerminal m = true ->
  activeTabId w = None ->
  openTabs (fst (Background.onMessage env w m)) = openTabs w /\
  activeTabId (fst (Background.onMessage env w m)) = None /\
  status (getState (fst (Background.onMessage env w m))) = terminalStatus m /\
  (exists day,
      lastRunDate (fst (Background.onMessage env w m)) = Some day /\
      day * msPerDay <= timeValue (clock env 1) < (day + 1) * msPerDay) /\
  notifications (fst (Background.onMessage env w m)) = notifications w ++ [wording m].
Proof.
  intros T G.
  pose proof (utc_day (clock env 1)) as U.
  destruct m as [days|lvl text|cur tot|tot bks|note|note| |]; try discriminate T;
    cbn [Background.onMessage fst terminalStatus wording];
    unfold finishRun;
    cbn [activeTabId addLog setState set_envoy_booking];
    rewrite G;
    cbn [lastRunDate set_lastRunDate showBookingNotification set_notifications
         set_activeTabId closeTab set_openTabs openTabs activeTabId notifications
         getState envoy_booking status current total bookings orPrev
         p_status p_current p_total p_bookings statusOnly];
    repeat first [ split | reflexivity | exact G
                 | (eexists; split; [reflexivity | exact U]) ].
Qed.

Lemma terminal_event_without_a_run_witness :
  activeTabId Examples.finished = None /\
  localDate Examples.laAfternoon = 20759 /\
  lastRunDate Examples.finished = Some 20759 /\
  status (getState (fst (Background.onMessage (Examples.smooth 1 Examples.laAfternoon)
                           Examples.finished (BOOKING_ERROR None)))) = st_error /\
  lastRunDate (fst (Background.onMessage (Examples.smooth 1 Examples.laAfternoon)
                      Examples.finished (BOOKING_ERROR None))) = Some 20760 /\
  notifications (fst (Background.onMessage (Examples.smooth 1 Examples.laAfternoon)
                        Examples.finished (BOOKING_ERROR None)))
  = notifications Examples.finished ++ ["Booking failed: An unexpected error occurred."%string].
Proof.
  pose proof (terminal_event_without_a_run (Examples.smooth 1 Examples.laAfternoon)
                Examples.finished (BOOKING_ERROR None) eq_refl eq_refl)
    as (_ & _ & S & _ & N).
  split; [reflexivity|]. split; [reflexivity|]. split; [reflexivity|].
  split; [exact S|]. split; [reflexivity | exact N].
Defined.

(** X21: a call of [runBooking] that finds the guard set is ignored: it
    leaves the status, the counters, the bookings, the tabs, the guard and
    the stored settings as they are and appends one warning to the log.
    But it has replaced [pendingSelectedDays] by its own days before the
    guard was tested, and when the page of the run in flight is loaded
    afterwards, the command that run sends carries the days of the ignored
    call. *)
Theorem ignored_call_replaces_the_days
        (env env' : Env) (days : list Z) (w : World) (id : Z) (url : string) :
  activeTabId w = Some id ->
  tabComplete env' = true -> tabsGet env' = inr url -> checkLoadedUrl url = None ->
  tabsSendMessage env' = None ->
  status (getState (runBooking env days w)) = status (getState w) /\
  current (getState (runBooking env days w)) = current (getState w) /\
  total (getState (runBooking env days w)) = total (getState w) /\
  bookings (getState (runBooking env days w)) = bookings (getState w) /\
  log (getState (runBooking env days w))
  = log (getState w)
    ++ [ {| time := toTimeString8 (clock env 0); level := warn;
            msg := "Booking already in progress — ignoring duplicate request." |} ] /\
  openTabs (runBooking env days w) = openTabs w /\
  activeTabId (runBooking env days w) = Some id /\
  sentToTab (runBooking env days w) = sentToTab w /\
  lastRunDate (runBooking env days w) = lastRunDate w /\
  notifications (runBooking env days w) = notifications w /\
  sentToTab (runBooking_loaded env' id (runBooking env days w))
  = sentToTab w ++ [(id, START_BOOKING (Some days))].
Proof.
  intros G C U K S. rewrite (runBooking_guarded env days w id G).
  unfold runBooking_loaded, awaitLoad. rewrite C, U, K, S.
  rewrite getState_addLog. cbn. repeat split. exact G.
Qed.

Lemma ignored_call_replaces_the_days_witness :
  pendingSelectedDays Examples.firstLoading = [1; 3; 5] /\
  sentToTab (runBooking_loaded (Examples.smooth 1 Examples.laMorning) 1
               (runBooking (Examples.smooth 2 Examples.laMorning) [2; 4]
                  Examples.firstLoading))
  = sentToTab Examples.firstLoading ++ [(1, START_BOOKING (Some [2; 4]))].
Proof.
  split; [reflexivity|].
  pose proof (ignored_call_replaces_the_days
                (Examples.smooth 2 Examples.laMorning) (Examples.smooth 1 Examples.laMorning)
                [2; 4] Examples.firstLoading 1 "https://dashboard.envoy.com/schedule"
                eq_refl eq_refl eq_refl eq_refl eq_refl) as H.
  exact (proj2 (proj2 (proj2 (proj2 (proj2 (proj2 (proj2 (proj2 (proj2 (proj2 H)))))))))).
Defined.

End OrchestratorLifecycle.

(** ** The content script: further properties *)

Section AgentProtocol.
Import Content Spec Protocol.
Local Open Scope list_scope.

Lemma waitFor_first {S R} (predicate : S -> option R) (polls : list S) :
  match waitFor predicate polls with
  | Some result =>
      exists before s after,
        polls = before ++ s :: after /\ predicate s = Some result /\
        Forall (fun x => predicate x = None) before
  | None => Forall (fun x => predicate x = None) polls
  end.
Proof.
  induction polls as [|s polls IH]; cbn [waitFor]; [constructor|].
  destruct (predicate s) as [result|] eqn:P.
  - exists [], s, polls. repeat split; [exact P | constructor].
  - destruct (waitFor predicate polls) as [result|].
    + destruct IH as (before & s' & after & -> & H & N).
      exists (s :: before), s', after. repeat split; [exact H | constructor; assumption].
    + constructor; assumption.
Qed.

(** X9: [waitFor] resolves to the result of the first poll whose
    predicate is truthy, and to null exactly when no poll before the
    deadline is (in particular when there is no poll at all). *)
Theorem waitFor_first_hit {S R} (predicate : S -> option R) (polls : list S) :
  match waitFor predicate polls with
  | Some result =>
      exists before s after,
        polls = before ++ s :: after /\ predicate s = Some result /\
        Forall (fun x => predicate x = None) before
  | None => Forall (fun x => predicate x = None) polls
  end.
Proof. exact (waitFor_first predicate polls). Qed.

(** X10: the buttons [waitForScheduleButtons] resolves to are those of
    the first poll that has any: there is at least one, each is enabled,
    and the text of each, trimmed and in lower case, is equal to (not
    merely contains) one of the five labels; the polls before had none. *)
Theorem discovered_buttons (page : Page) (buttons : list Candidate) :
  discovered page = Some buttons ->
  buttons <> [] /\
  Forall (fun c => disabled (button c) = false /\
                   In (Js.toLowerCase (Js.trim (textContent (button c)))) BUTTON_LABELS)
         buttons /\
  exists before document after,
    buttonPolls page = before ++ document :: after /\
    buttons = findScheduleButtons document /\
    Forall (fun d => findScheduleButtons d = []) before.
Proof.
  intros D. unfold discovered in D.
  pose proof (waitFor_first
                (fun document =>
                   let btns := findScheduleButtons document in
                   if (0 <? length btns)%nat then Some btns else None)
                (buttonPolls page)) as W.
  cbv zeta in D, W. rewrite D in W. destruct W as (before & document & after & E & H & N).
  destruct (0 <? length (findScheduleButtons document))%nat eqn:L; [|discriminate H].
  injection H as <-. apply Nat.ltb_lt in L.
  split; [intros Z; rewrite Z in L; cbn in L; lia|]. split.
  - apply Forall_forall. intros c I. apply filter_In in I as [_ I].
    unfold isScheduleButton in I. destruct (disabled (button c)); [discriminate I|].
    split; [reflexivity|]. apply existsb_exists in I as (label & IL & EQ).
    apply String.eqb_eq in EQ. rewrite EQ. exact IL.
  - exists before, document, after. repeat split; [exact E|].
    eapply Forall_impl; [|exact N]. intros d H.
    cbv beta in H. destruct (findScheduleButtons d); [reflexivity | discriminate H].
Qed.

Lemma discovered_buttons_witness :
  exists buttons,
    discovered Examples.schedulePage = Some buttons /\ buttons <> [] /\
    Forall (fun c => disabled (button c) = false /\
                     In (Js.toLowerCase (Js.trim (textContent (button c)))) BUTTON_LABELS)
           buttons.
Proof.
  eexists. split; [reflexivity|].
  pose proof (discovered_buttons Examples.schedulePage _ eq_refl) as (N & F & _).
  split; [exact N | exact F].
Defined.

Lemma toClick_In (buttons : list Button) (b : Button) :
  toClick buttons = Some b -> In b buttons.
Proof.
  unfold toClick. destruct (find isConfirm buttons) as [c|] eqn:F.
  - intros E. injection E as <-. apply find_some in F. tauto.
  - destruct buttons as [|x [|y rest]]; cbn; try discriminate.
    intros E. injection E as <-. left. reflexivity.
Qed.

(** X11: [handleConfirmationModal] never throws, clicks no schedule
    button and sends only log lines.  It clicks at most one button of the
    modal: the button chosen, and only if that button is enabled; it
    returns true exactly when it clicked.  When no modal appears before
    the deadline, or no button is chosen, or the chosen button is
    disabled, it clicks nothing and returns false. *)
Theorem modal_click (polls : list (option (list Button))) (ch : Channel) (tr : Trace) :
  exists ext r,
    handleConfirmationModal polls ch tr = (tr ++ ext, inr r) /\
    clicks ext = [] /\ Forall isLog (attempted ext) /\
    match waitFor (fun modal => modal) polls with
    | None => r = false /\ modalClicks ext = []
    | Some buttons =>
        match toClick buttons with
        | Some b =>
            In b buttons /\
            if disabled b then r = false /\ modalClicks ext = []
            else r = true /\ modalClicks ext = [b]
        | None => r = false /\ modalClicks ext = []
        end
    end.
Proof.
  unfold handleConfirmationModal.
  destruct (waitFor (fun modal => modal) polls) as [buttons|].
  - destruct (toClick buttons) as [b|] eqn:T.
    + pose proof (toClick_In buttons b T) as I.
      destruct (disabled b); cbn [negb];
        unfold bind, log, tryCatch, sendMessage, ret, effect;
        repeat match goal with
               | |- context [ch ?k] => destruct (ch k)
               end;
        rewrite <- ?app_assoc; cbn [app];
        eexists; eexists; (split; [reflexivity|]);
        cbn [clicks attempted modalClicks app];
        repeat split; auto; repeat constructor.
    + unfold bind, log, tryCatch, sendMessage, ret, effect;
        repeat match goal with
               | |- context [ch ?k] => destruct (ch k)
               end;
        rewrite <- ?app_assoc; cbn [app];
        eexists; eexists; (split; [reflexivity|]);
        cbn [clicks attempted modalClicks app];
        repeat split; auto; repeat constructor.
  - unfold bind, log, tryCatch, sendMessage, ret, effect;
      destruct (ch (length tr));
      eexists; eexists; (split; [reflexivity|]);
      cbn [clicks attempted modalClicks app];
      repeat split; auto; repeat constructor.
Qed.

(** *** The shape of a run *)

Lemma returns_both {A} (c : M A) (Q1 Q2 : Trace -> A -> Prop) :
  returns c Q1 -> returns c Q2 -> returns c (fun ext v => Q1 ext v /\ Q2 ext v).
Proof.
  intros H1 H2 ch tr.
  destruct (H1 ch tr) as (e1 & r1 & E1 & v1 & -> & q1).
  destruct (H2 ch tr) as (e2 & r2 & E2 & v2 & -> & q2).
  rewrite E1 in E2. injection E2 as E2 <-. apply app_inv_head in E2. subst e2.
  exists e1, (inr v1). split; [exact E1|]. exists v1. auto.
Qed.

Lemma progressOf_app (a b : list Message) :
  progressOf (a ++ b) = progressOf a ++ progressOf b.
Proof.
  induction a as [|m a IH]; cbn; [reflexivity|].
  destruct m; cbn; rewrite IH; reflexivity.
Qed.

Lemma progressOf_logs (ms : list Message) : Forall isLog ms -> progressOf ms = [].
Proof.
  induction 1 as [|m ms L _ IH]; cbn; [reflexivity|].
  destruct m; cbn in L |- *; try contradiction. exact IH.
Qed.

Lemma logs_are_logOrProgress (ms : list Message) :
  Forall isLog ms -> Forall isLogOrProgress ms.
Proof.
  intros F. eapply Forall_impl; [|exact F]. intros []; cbn; tauto.
Qed.

Lemma countUp_step (from : Z) (k : nat) (t : Z) :
  countUp from (S k) t = ((from + 1)%Z, t) :: countUp (from + 1) k t.
Proof.
  unfold countUp. cbn [seq map]. f_equal.
  rewrite <- seq_shift, map_map. apply map_ext. intros j. f_equal. lia.
Qed.

Lemma clickLoop_progress n todo i booked bookings :
  returns (clickLoop n todo i booked bookings)
    (fun ext _ =>
       progressOf (attempted ext)
       = countUp booked (length (filter available todo)) (Z.of_nat n) /\
       Forall isLogOrProgress (attempted ext)).
Proof.
  revert i booked bookings.
  induction todo as [|btn rest IH]; intros i booked bookings; cbn [clickLoop filter].
  - apply returns_ret. split; [reflexivity | constructor].
  - unfold returns. change (available btn) with (negb (unavailable btn)).
    destruct (unavailable btn); cbn [negb].
    + apply runs_log_then; intros d. eapply runs_weaken; [apply IH|].
      intros ext r (v & -> & P & F). eexists; split; [reflexivity|].
      cbn [attempted progressOf]. split; [exact P | constructor; [exact I | exact F]].
    + apply runs_log_then; intros d. apply runs_effect_then.
      eapply returns_bind.
      { apply returns_trySend
          with (Q := fun ext _ =>
                       exists dd, ext = [Send (BOOKING_PROGRESS (booked + 1) (Z.of_nat n)) dd]).
        eauto. }
      intros e1 [] (dp & ->).
      eapply returns_bind; [apply handleConfirmationModal_returns|].
      intros e2 dismissed q. cbv beta in q |- *.
      eapply runs_weaken; [apply IH|].
      intros ext r (v & -> & P & F). eexists; split; [reflexivity|].
      cbn [length attempted app progressOf].
      rewrite attempted_app, progressOf_app, P, countUp_step.
      rewrite (progressOf_logs _ (proj2 q)). cbn [app]. split; [reflexivity|].
      constructor; [exact I|]. constructor; [exact I|].
      apply Forall_app. split; [apply logs_are_logOrProgress, q | exact F].
Qed.

Lemma quiet_snoc_log ext l m d : quiet ext -> quiet (ext ++ [Send (LOG (Some l) m) d]).
Proof. intros q. apply quiet_app; [exact q | apply quiet_log]. Qed.

(** Every run of [runBulkBooking] has one of the four shapes. *)
Lemma runBulkBooking_shape page days :
  runs (runBulkBooking page days) (shape page days).
Proof.
  unfold runBulkBooking, shape, NONE_FOUND, NONE_MATCHED.
  apply runs_log_then; intros d0.
  destruct (Js.includes (href page) "/schedule"); cbn [negb].
  2: { apply runs_log_then; intros d. apply runs_effect.
       eexists. split; [repeat first [ apply snoc_one | apply snoc_cons ]|].
       split; [|reflexivity]. apply quiet_cons_log, quiet_cons_log, quiet_nil. }
  unfold runBulkBooking_scan.
  eapply returns_bind; [apply waitForScheduleButtons_returns|].
  intros e2 found [-> q2]. cbv beta.
  destruct (discovered page) as [buttons|].
  - apply runs_log_then; intros d1.
    eapply returns_bind; [apply filterButtons_returns|].
    intros e3 kept [-> q3]. cbv beta.
    destruct (length (filter (keepButton days) buttons) =? 0)%nat.
    + apply runs_log_then; intros d2.
      apply runs_sendMessage; [|intros err];
        (eexists; eexists; split;
         [repeat first [ apply snoc_one | apply snoc_cons | apply snoc_app ]|]);
        (split; [|reflexivity]);
        apply quiet_cons_log, quiet_app, quiet_cons_log, quiet_app,
              quiet_cons_log, quiet_nil; assumption.
    + apply runs_log_then; intros d2.
      eapply returns_bind;
        [apply returns_both; [apply clickLoop_returns | apply clickLoop_progress]|].
      intros e4 [booked bookings] ((H1 & H2 & H3 & H4 & H5) & (P & F)).
      cbn [fst snd] in H1, H2, H3, H5. cbn [map app length] in H2, H3.
      rewrite Z.add_0_l in H1. subst booked. cbv beta iota.
      apply runs_log_then; intros d3.
      apply runs_trySend. intros dd.
      eexists. exists bookings, dd. fold (clicked days buttons) in P, H4 |- *.
      split; [repeat first [ apply snoc_one | apply snoc_cons | apply snoc_app ]|].
      split; [reflexivity|].
      assert (N : forall ext, quiet ext -> Forall isLogOrProgress (attempted ext))
        by (intros ext q; apply logs_are_logOrProgress, q).
      assert (Z0 : forall ext, quiet ext -> progressOf (attempted ext) = [])
        by (intros ext q; apply progressOf_logs, q).
      repeat split.
      * repeat first [ rewrite attempted_app
                     | progress cbn [attempted app]
                     | apply Forall_app; split
                     | apply Forall_cons
                     | apply Forall_nil
                     | exact I
                     | apply N; assumption
                     | exact F ].
      * repeat first [ rewrite attempted_app
                     | rewrite progressOf_app
                     | progress cbn [attempted app progressOf] ].
        rewrite (Z0 e2 q2), (Z0 e3 q3), P. cbn [app].
        rewrite app_nil_r. reflexivity.
      * repeat first [ rewrite clicks_app | progress cbn [clicks app] ].
        destruct q2 as [-> _], q3 as [-> _].
        rewrite H4, app_nil_r. cbn [app]. apply clickedIndices_length.
  - apply runs_log_then; intros d1.
    apply runs_sendMessage; [|intros err];
      (eexists; eexists; split;
       [repeat first [ apply snoc_one | apply snoc_cons | apply snoc_app ]|]);
      (split; [|reflexivity]);
      apply quiet_cons_log, quiet_app, quiet_cons_log, quiet_nil; assumption.
Qed.

(** *** Reliable channels *)

Lemma honest_ret {A} (a : A) : honest (ret a).
Proof. intros ch tr _. exists [], (inr a). unfold ret. rewrite app_nil_r. auto. Qed.

Lemma honest_bind {A B} (c : M A) (k : A -> M B) :
  honest c -> (forall a, honest (k a)) -> honest (bind c k).
Proof.
  intros Hc Hk ch tr R. unfold bind.
  destruct (Hc ch tr R) as (e1 & r1 & E1 & F1). rewrite E1.
  destruct r1 as [err|a].
  - exists e1, (inl err). auto.
  - destruct (Hk a ch (tr ++ e1) R) as (e2 & r & E2 & F2).
    exists (e1 ++ e2), r. rewrite E2, app_assoc. split; [reflexivity|].
    apply Forall_app; auto.
Qed.

Lemma honest_tryCatch {A} (c : M A) (h : string -> M A) :
  honest c -> (forall err, honest (h err)) -> honest (tryCatch c h).
Proof.
  intros Hc Hh ch tr R. unfold tryCatch.
  destruct (Hc ch tr R) as (e1 & r1 & E1 & F1). rewrite E1.
  destruct r1 as [err|a].
  - destruct (Hh err ch (tr ++ e1) R) as (e2 & r & E2 & F2).
    exists (e1 ++ e2), r. rewrite E2, app_assoc. split; [reflexivity|].
    apply Forall_app; auto.
  - exists e1, (inr a). auto.
Qed.

Lemma honest_effect (e : Effect) : accepted e -> honest (effect e).
Proof. intros a ch tr _. exists [e], (inr tt). split; [reflexivity | repeat constructor; exact a]. Qed.

Lemma honest_sendMessage (m : Message) : honest (sendMessage m).
Proof.
  intros ch tr R. unfold sendMessage. rewrite R.
  exists [Send m true], (inr tt). split; [reflexivity | repeat constructor].
Qed.

Lemma honest_log l m : honest (log l m).
Proof.
  apply honest_tryCatch; [apply honest_sendMessage | intros; apply honest_ret].
Qed.

Ltac honesty :=
  repeat first
    [ apply honest_log
    | apply honest_ret
    | apply honest_sendMessage
    | apply honest_effect; exact I
    | assumption
    | apply honest_bind; [|intros ?]
    | apply honest_tryCatch; [|intros ?]
    | match goal with
      | |- honest (match ?x with _ => _ end) => destruct x
      | |- honest (if ?x then _ else _) => destruct x
      end ].

Lemma honest_handleConfirmationModal polls : honest (handleConfirmationModal polls).
Proof. unfold handleConfirmationModal. honesty. Qed.

Lemma honest_filterButtons days buttons i : honest (filterButtons days buttons i).
Proof.
  revert i. induction buttons as [|btn rest IH]; intros i; cbn [filterButtons].
  - honesty.
  - destruct (length days =? 0)%nat; [|destruct (dayOfWeek btn) as [day|];
                                       [destruct (negb _)|]].
    all: repeat first [ apply IH | apply honest_log | apply honest_ret
                      | apply honest_bind; [|intros ?] ].
Qed.

Lemma honest_clickLoop n todo i booked bookings :
  honest (clickLoop n todo i booked bookings).
Proof.
  revert i booked bookings.
  induction todo as [|btn rest IH]; intros i booked bookings; cbn [clickLoop].
  - honesty.
  - destruct (unavailable btn).
    + apply honest_bind; [apply honest_log | intros ?; apply IH].
    + cbv zeta.
      repeat first [ apply IH | apply honest_log | apply honest_ret
                   | apply honest_sendMessage
                   | apply honest_handleConfirmationModal
                   | apply honest_effect; exact I
                   | apply honest_bind; [|intros ?]
                   | apply honest_tryCatch; [|intros ?] ].
Qed.

Lemma honest_runBulkBooking page days : honest (runBulkBooking page days).
Proof.
  unfold runBulkBooking, runBulkBooking_scan, waitForScheduleButtons.
  repeat first
    [ apply honest_filterButtons
    | apply honest_clickLoop
    | apply honest_log
    | apply honest_ret
    | apply honest_sendMessage
    | apply honest_effect; exact I
    | apply honest_bind; [|intros ?]
    | apply honest_tryCatch; [|intros ?]
    | match goal with
      | |- honest (match ?x with _ => _ end) => destruct x
      | |- honest (if ?x then _ else _) => destruct x
      | |- honest (let '(_, _) := ?x in _) => destruct x
      end ].
Qed.

(** X12: the progress reports of a run count up from 1 in steps of 1,
    one report for each click, and every report carries the same total,
    the number of buttons the day filter left; a run that clicks nothing
    reports no progress. *)
Theorem progress_counts_up (page : Page) (days : list Z) (ch : Channel) :
  progressOf (attempted (fst (runBulkBooking page days ch [])))
  = countUp 0 (length (clicks (fst (runBulkBooking page days ch []))))
            (Z.of_nat (survivors page days)).
Proof.
  destruct (runBulkBooking_shape page days ch []) as (ext & r & E & S).
  rewrite E. cbn [fst app]. unfold shape, survivors in *.
  destruct (Js.includes (href page) "/schedule").
  2: { destruct S as (body & -> & q & _).
       rewrite attempted_app, progressOf_app, clicks_app, (progressOf_logs _ (proj2 q)).
       destruct q as [-> _]. reflexivity. }
  destruct (discovered page) as [buttons|].
  - destruct (length (filter (keepButton days) buttons) =? 0)%nat.
    + destruct S as (body & d & -> & q & _).
      rewrite attempted_app, progressOf_app, clicks_app, (progressOf_logs _ (proj2 q)).
      destruct q as [-> _]. reflexivity.
    + destruct S as (body & bs & d & -> & _ & _ & P & C).
      rewrite attempted_app, progressOf_app, clicks_app, P. cbn.
      rewrite !app_nil_r, C. reflexivity.
  - destruct S as (body & d & -> & q & _).
    rewrite attempted_app, progressOf_app, clicks_app, (progressOf_logs _ (proj2 q)).
    destruct q as [-> _]. reflexivity.
Qed.

(** X13: on a page whose address has /schedule in it, when no button is
    discovered before the deadline, or the day filter leaves none,
    [runBulkBooking] clicks nothing and sends log lines and then one
    BOOKING_NONE, whose message tells the two cases apart; it returns if
    the message is delivered and throws if it is rejected. *)
Theorem nothing_to_book (page : Page) (days : list Z) (ch : Channel) :
  onSchedule page ->
  survivors page days = 0%nat ->
  exists body d note,
    fst (runBulkBooking page days ch []) = body ++ [Send (BOOKING_NONE (Some note)) d] /\
    clicks body = [] /\ Forall isLog (attempted body) /\
    note = match discovered page with
           | None => NONE_FOUND
           | Some _ => NONE_MATCHED
           end /\
    ended d (snd (runBulkBooking page days ch [])).
Proof.
  intros O Z. destruct (runBulkBooking_shape page days ch []) as (ext & r & E & S).
  rewrite E. cbn [fst snd app]. apply includes_spec in O.
  unfold shape, survivors in *. rewrite O in S.
  destruct (discovered page) as [buttons|].
  - rewrite Z in S. cbn in S. destruct S as (body & d & -> & [C L] & N).
    exists body, d, NONE_MATCHED. auto.
  - destruct S as (body & d & -> & [C L] & N).
    exists body, d, NONE_FOUND. auto.
Qed.

Lemma nothing_to_book_witness :
  onSchedule Examples.emptyPage /\
  exists body d note,
    fst (runBulkBooking Examples.emptyPage [1; 2; 3]%Z Examples.reliable [])
    = body ++ [Send (BOOKING_NONE (Some note)) d] /\
    clicks body = [] /\ Forall isLog (attempted body) /\
    note = match discovered Examples.emptyPage with
           | None => NONE_FOUND
           | Some _ => NONE_MATCHED
           end /\
    ended d (snd (runBulkBooking Examples.emptyPage [1; 2; 3]%Z Examples.reliable [])).
Proof.
  assert (O : onSchedule Examples.emptyPage)
    by (exists "https://dashboard.envoy.com"%string, ""%string; reflexivity).
  split; [exact O|].
  exact (nothing_to_book Examples.emptyPage [1; 2; 3]%Z Examples.reliable O eq_refl).
Defined.

Lemma delivered_Forall (P : Message -> Prop) (tr : Trace) :
  Forall P (attempted tr) -> Forall P (delivered tr).
Proof.
  intros F. apply Forall_forall. intros m I.
  rewrite Forall_forall in F. apply F, delivered_attempted, I.
Qed.



(** The trace of the listener: the response, the run, and the report of
    the error if the run threw. *)
Lemma listener_trace page days ch :
  exists ext r tail,
    runBulkBooking page (Js.orArray days [1; 2; 3; 4; 5]%Z) ch [SendResponse]
    = (SendResponse :: ext, r) /\
    shape page (Js.orArray days [1; 2; 3; 4; 5]%Z) ext r /\
    fst (Content.onMessage page (START_BOOKING days) ch []) = SendResponse :: ext ++ tail /\
    match r with
    | inr _ => tail = []
    | inl err =>
        exists d1 d2,
          tail = [Send (LOG (Some error) ("Unhandled error: " ++ err)) d1;
                  Send (BOOKING_ERROR (Some ("Unhandled error: " ++ err)%string)) d2]
    end.
Proof.
  destruct (runBulkBooking_shape page (Js.orArray days [1; 2; 3; 4; 5]%Z) ch [SendResponse])
    as (ext & r & E & S).
  cbn [app] in E. exists ext, r.
  cbn [Content.onMessage]. unfold bind at 1. unfold effect at 1.
  cbn [app]. unfold bind at 1. unfold tryCatch at 1. rewrite E.
  destruct r as [err|[]].
  - unfold bind, log, tryCatch, sendMessage, ret.
    repeat match goal with
           | |- context [ch ?k] => destruct (ch k)
           end;
      eexists; (split; [reflexivity|]); (split; [exact S|]);
      cbn [fst]; rewrite <- ?app_assoc; cbn [app];
      (split; [reflexivity | eauto]).
  - exists []. unfold ret. cbn [fst]. rewrite app_nil_r. auto.
Qed.



(** *** The records of a run *)

Lemma clickLoop_dates n todo i booked bookings :
  returns (clickLoop n todo i booked bookings)
    (fun _ r => map date (snd r) = map date bookings ++ dates booked (filter available todo)).
Proof.
  revert i booked bookings.
  induction todo as [|btn rest IH]; intros i booked bookings; cbn [clickLoop filter].
  - apply returns_ret. cbn. rewrite app_nil_r. reflexivity.
  - unfold returns. change (available btn) with (negb (unavailable btn)).
    destruct (unavailable btn); cbn [negb].
    + apply runs_log_then; intros d. eapply runs_weaken; [apply IH|].
      intros ext r (v & -> & H). eexists; split; [reflexivity | exact H].
    + apply runs_log_then; intros d. apply runs_effect_then.
      eapply returns_bind.
      { apply returns_trySend with (Q := fun _ _ => True). auto. }
      intros e1 [] _.
      eapply returns_bind; [apply handleConfirmationModal_returns|].
      intros e2 dismissed _. cbv beta.
      eapply runs_weaken; [apply IH|].
      intros ext r (v & -> & H). eexists; split; [reflexivity|].
      rewrite H, map_app, <- app_assoc. reflexivity.
Qed.

(** A BOOKING_DONE of [runBulkBooking] carries what the click loop
    returned for the survivors of the day filter: any property [Q] the
    loop gives its result holds of the message. *)
Lemma runBulkBooking_done (Q : list Candidate -> Z * list BookingRecord -> Prop)
      page days :
  (forall n todo,
      returns (clickLoop n todo 0 0%Z []) (fun _ r => Q todo r)) ->
  runs (runBulkBooking page days)
       (fun ext _ =>
          idle ext \/
          exists buttons body k bs d,
            discovered page = Some buttons /\
            ext = body ++ [Send (BOOKING_DONE k (Some bs)) d] /\
            Forall isLogOrProgress (attempted body) /\
            Q (filter (keepButton days) buttons) (k, bs)).
Proof.
  intros HQ. unfold runBulkBooking.
  apply runs_log_then; intros d0.
  destruct (negb _).
  { apply runs_log_then; intros d. apply runs_effect. left.
    apply idle_cons_log, idle_cons_log. split; [reflexivity | constructor]. }
  unfold runBulkBooking_scan.
  eapply returns_bind; [apply waitForScheduleButtons_returns|].
  intros e2 found [-> q2]. cbv beta.
  destruct (discovered page) as [buttons|] eqn:D.
  - apply runs_log_then; intros d1.
    eapply returns_bind; [apply filterButtons_returns|].
    intros e3 kept [-> q3]. cbv beta.
    destruct (length (filter (keepButton days) buttons) =? 0)%nat.
    + apply runs_log_then; intros d2.
      apply runs_sendMessage; [|intros err]; left;
        apply idle_cons_log, idle_app, idle_cons_log, idle_app,
              idle_cons_log, idle_none;
        auto using quiet_idle.
    + apply runs_log_then; intros d2.
      eapply returns_bind;
        [apply returns_both; [apply clickLoop_progress | apply HQ]|].
      intros e4 [booked bookings] ((P & F) & q). cbv beta iota.
      apply runs_log_then; intros d3.
      apply runs_trySend. intros dd. right.
      exists buttons. eexists. exists booked, bookings, dd.
      split; [reflexivity|].
      split; [repeat first [ apply snoc_one | apply snoc_cons | apply snoc_app ]|].
      split; [|exact q].
      assert (N : forall ext, quiet ext -> Forall isLogOrProgress (attempted ext))
        by (intros ext qq; apply logs_are_logOrProgress, qq).
      repeat first [ rewrite attempted_app
                   | progress cbn [attempted app]
                   | apply Forall_app; split
                   | apply Forall_cons
                   | apply Forall_nil
                   | exact I
                   | apply N; assumption
                   | exact F ].
  - apply runs_log_then; intros d1.
    apply runs_sendMessage; [|intros err]; left;
      apply idle_cons_log, idle_app, idle_cons_log, idle_none;
      auto using quiet_idle.
Qed.

Lemma dates_filled from cs : Forall (fun s => s <> EmptyString) (dates from cs).
Proof.
  revert from. induction cs as [|c cs IH]; intros from; cbn [dates]; constructor.
  - unfold Js.orString. destruct (String.eqb_spec (dateLabel c) EmptyString); [discriminate | assumption].
  - apply IH.
Qed.

(** X20: the records a BOOKING_DONE carries have, in order, the date
    labels of the buttons that were clicked; a button whose label is empty
    gets the words Booking N, N being the number of the booking, so that
    no record has an empty date. *)
Theorem booking_records_are_dated
        (page : Page) (days : list Z) (ch : Channel)
        (total : Z) (bookings : option (list BookingRecord)) :
  In (BOOKING_DONE total bookings) (attempted (fst (runBulkBooking page days ch []))) ->
  exists buttons bs,
    discovered page = Some buttons /\
    bookings = Some bs /\
    map date bs = dates 0 (clicked days buttons) /\
    Forall (fun b => date b <> EmptyString) bs.
Proof.
  destruct (runBulkBooking_done
              (fun todo r => map date (snd r) = dates 0 (filter available todo))
              page days
              (fun n todo => clickLoop_dates n todo 0 0%Z []) ch [])
    as (ext & r & E & Q).
  rewrite E. cbn [fst app]. intros I.
  destruct Q as [[_ L]|(buttons & body & k & bs & d & D & -> & F & H)].
  - rewrite Forall_forall in L. apply L in I. destruct I.
  - rewrite attempted_app in I. apply in_app_or in I as [I|I].
    + rewrite Forall_forall in F. apply F in I. destruct I.
    + destruct I as [I|[]]. injection I as <- <-.
      exists buttons, bs. cbn [snd] in H. unfold clicked.
      repeat split; try assumption.
      apply Forall_forall. intros b Ib.
      pose proof (dates_filled 0 (filter available (filter (keepButton days) buttons))) as DF.
      rewrite <- H in DF. rewrite Forall_forall in DF.
      apply DF, in_map, Ib.
Qed.

Lemma booking_records_are_dated_witness :
  exists buttons bs,
    discovered Examples.schedulePage = Some buttons /\
    Some [ {| date := "Mon 3"; desk := "Desk 4" |} ] = Some bs /\
    map date bs = dates 0 (clicked [1; 3; 5]%Z buttons) /\
    Forall (fun b => date b <> EmptyString) bs.
Proof.
  apply (booking_records_are_dated Examples.schedulePage [1; 3; 5]%Z Examples.reliable 1%Z
           (Some [ {| date := "Mon 3"; desk := "Desk 4" |} ])).
  vm_compute. do 12 right. left. reflexivity.
Defined.

End AgentProtocol.

(** ** The texts of the page *)

Section TextOfThePage.
Import PageText.

Lemma take_length (n : nat) (s : string) : String.length (take n s) <= n.
Proof.
  revert s. induction n as [|n IH]; intros [|c s]; cbn; try lia.
  specialize (IH s). lia.
Qed.

Lemma allChars_take p n s : allChars p s = true -> allChars p (take n s) = true.
Proof.
  revert s. induction n as [|n IH]; intros [|c s]; cbn; try reflexivity.
  intros H. apply andb_true_iff in H as [H1 H2]. rewrite H1, (IH s H2). reflexivity.
Qed.

Lemma allChars_trimStart p s : allChars p s = true -> allChars p (Js.trimStart s) = true.
Proof.
  induction s as [|c s IH]; cbn; [reflexivity|].
  intros H. destruct (Js.isSpace c); [|exact H].
  apply andb_true_iff in H as [_ H]. apply IH, H.
Qed.

Lemma allChars_trimEnd p s : allChars p s = true -> allChars p (Js.trimEnd s) = true.
Proof.
  induction s as [|c s IH]; cbn [Js.trimEnd allChars]; [reflexivity|].
  intros H. apply andb_true_iff in H as [H1 H2]. specialize (IH H2).
  destruct (Js.trimEnd s) as [|c' r].
  - destruct (Js.isSpace c); cbn; rewrite ?H1; reflexivity.
  - cbn [allChars] in IH |- *. rewrite H1. exact IH.
Qed.

Lemma allChars_trim p s : allChars p s = true -> allChars p (Js.trim s) = true.
Proof. intros H. apply allChars_trimEnd, allChars_trimStart, H. Qed.

Lemma allChars_strip p skip s : allChars p s = true -> allChars p (strip skip s) = true.
Proof.
  revert skip. induction s as [|c s IH]; intros skip; cbn [strip allChars]; [reflexivity|].
  intros H. apply andb_true_iff in H as [H1 H2].
  destruct skip as [|k]; [|apply IH, H2].
  destruct (labelWordAt (String c s)) as [[|k]|]; cbn [allChars];
    rewrite ?H1; cbn [andb]; apply IH, H2.
Qed.

Lemma collapse_tidy inRun s : allChars tidyChar (collapse inRun s) = true.
Proof.
  revert inRun. induction s as [|c s IH]; intros inRun; cbn [collapse]; [reflexivity|].
  destruct (Js.isSpace c) eqn:W.
  - destruct inRun; [apply IH|]. cbn [allChars]. rewrite IH. reflexivity.
  - cbn [allChars]. rewrite IH. unfold tidyChar. rewrite W. reflexivity.
Qed.

Lemma trimStart_clean s : startsClean (Js.trimStart s) = true.
Proof.
  induction s as [|c s IH]; cbn; [reflexivity|].
  destruct (Js.isSpace c) eqn:W; [exact IH|]. cbn. rewrite W. reflexivity.
Qed.

Lemma trimEnd_clean s : startsClean s = true -> startsClean (Js.trimEnd s) = true.
Proof.
  destruct s as [|c s]; cbn [Js.trimEnd]; [reflexivity|].
  intros H. cbn [startsClean] in H. destruct (Js.trimEnd s); [|exact H].
  destruct (Js.isSpace c) eqn:W; [discriminate H|]. cbn. rewrite W. reflexivity.
Qed.

Lemma take_clean n s : startsClean s = true -> startsClean (take n s) = true.
Proof. destruct n, s; cbn; auto. Qed.

Lemma trim_clean s : startsClean (Js.trim s) = true.
Proof. apply trimEnd_clean, trimStart_clean. Qed.

Lemma collapse_blank s :
  allChars Js.isSpace s = true ->
  collapse true s = EmptyString /\
  (collapse false s = EmptyString \/ collapse false s = " "%string).
Proof.
  induction s as [|c s IH]; cbn [allChars collapse]; [auto|].
  intros H. apply andb_true_iff in H as [H1 H2]. rewrite H1.
  destruct (IH H2) as [T _]. rewrite T. auto.
Qed.

(** X15: the date label is at most 40 characters long, it does not begin
    with white space, and the only white space in it is the space
    character (tabs and line breaks of the page are gone); it is empty
    when the button has no container or the container holds white space
    only. *)
Theorem date_label_is_short_and_tidy (container : option string) :
  String.length (getButtonDateLabel container) <= 40 /\
  startsClean (getButtonDateLabel container) = true /\
  allChars tidyChar (getButtonDateLabel container) = true /\
  getButtonDateLabel None = EmptyString /\
  (forall blank, allChars Js.isSpace blank = true ->
                 getButtonDateLabel (Some blank) = EmptyString).
Proof.
  unfold getButtonDateLabel. split; [apply take_length|].
  split; [apply take_clean, trim_clean|]. split; [|split; [reflexivity|]].
  - apply allChars_take, allChars_trim, allChars_strip.
    destruct container as [t|]; [|reflexivity].
    apply allChars_trim, collapse_tidy.
  - intros blank B. destruct (collapse_blank blank B) as [_ [-> | ->]]; reflexivity.
Qed.

(** *** Words at the head of a text *)

Lemma lower_take n s : Js.toLowerCase (take n s) = take n (Js.toLowerCase s).
Proof.
  revert s. induction n as [|n IH]; intros [|c s]; cbn; try reflexivity.
  rewrite IH. reflexivity.
Qed.

Lemma lower_app a b : Js.toLowerCase (a ++ b) = (Js.toLowerCase a ++ Js.toLowerCase b)%string.
Proof. induction a as [|c a IH]; cbn; [reflexivity | rewrite IH; reflexivity]. Qed.

Lemma take_app a b : take (String.length a) (a ++ b) = a.
Proof. induction a as [|c a IH]; cbn; [destruct b; reflexivity | rewrite IH; reflexivity]. Qed.

Lemma take_take n s : take n (take n s) = take n s.
Proof.
  revert s. induction n as [|n IH]; intros [|c s]; cbn; try reflexivity.
  rewrite IH. reflexivity.
Qed.

Lemma prefix_app w x : String.prefix w (w ++ x) = true.
Proof. apply prefix_spec. exists x. reflexivity. Qed.

Lemma prefix_take w x : String.prefix w x = true -> take (String.length w) x = w.
Proof. intros P. apply prefix_spec in P as [post ->]. apply take_app. Qed.

Lemma lower_word c : isWordChar (Js.lowerChar c) = isWordChar c.
Proof. destruct c as [[] [] [] [] [] [] [] []]; reflexivity. Qed.

Lemma space_lower c : Js.isSpace c = true -> Js.lowerChar c = c.
Proof. destruct c as [[] [] [] [] [] [] [] []]; intros H; try reflexivity; discriminate H. Qed.

Lemma deskChar_not_space c : isDeskChar c = true -> Js.isSpace c = false.
Proof. destruct c as [[] [] [] [] [] [] [] []]; intros H; try reflexivity; discriminate H. Qed.

Lemma dayMap_keys k d :
  dayMap k = Some d ->
  In k DAY_ALTERNATIVES /\ (0 <= d <= 6)%Z /\ String.length k = 3.
Proof.
  unfold dayMap, DAY_ALTERNATIVES.
  repeat match goal with
         | |- context [(k =? ?x)%string] =>
             destruct (String.eqb_spec k x) as [->|_];
             [intros E; injection E as <-; cbn; split; [tauto | split; [lia | reflexivity]]|]
         end.
  discriminate.
Qed.

Lemma alternative_day k :
  In k DAY_ALTERNATIVES ->
  exists d, dayMap k = Some d /\ (0 <= d <= 6)%Z /\ String.length k = 3.
Proof.
  intros I. cbn in I.
  repeat (destruct I as [<-|I];
          [eexists; split; [reflexivity | split; [lia | reflexivity]]|]).
  destruct I.
Qed.

Lemma nonword_no_day c rest :
  isWordChar c = false ->
  existsb (fun w => matchesAt w (String c rest)) DAY_ALTERNATIVES = false.
Proof.
  intros N. unfold matchesAt. cbn [Js.toLowerCase existsb DAY_ALTERNATIVES String.prefix].
  repeat match goal with
         | |- context [ascii_dec ?a (Js.lowerChar c)] =>
             destruct (ascii_dec a (Js.lowerChar c)) as [e|_];
             [ apply (f_equal isWordChar) in e; rewrite lower_word, N in e; discriminate e | ]
         end.
  reflexivity.
Qed.

Lemma dayAbbr_after_lead lead boundary w rest :
  allChars nonWord lead = true ->
  (lead = EmptyString -> boundary = true) ->
  In (Js.toLowerCase w) DAY_ALTERNATIVES ->
  dayAbbr boundary (lead ++ w ++ rest) = Some w.
Proof.
  intros A B I. revert boundary B.
  induction lead as [|c lead IH]; intros boundary B.
  - rewrite (B eq_refl). cbn [append].
    destruct (alternative_day _ I) as (_ & _ & _ & L).
    assert (L' : String.length w = 3).
    { rewrite <- L. clear. induction w as [|c w IH]; cbn; [reflexivity | rewrite IH; reflexivity]. }
    destruct w as [|a w]; [discriminate L'|]. cbn [append dayAbbr andb].
    assert (M : existsb (fun k => matchesAt k (String a (w ++ rest))) DAY_ALTERNATIVES = true).
    { apply existsb_exists. exists (Js.toLowerCase (String a w)). split; [exact I|].
      unfold matchesAt. change (String a (w ++ rest)) with (String a w ++ rest)%string.
      rewrite lower_app. apply prefix_app. }
    rewrite M. f_equal.
    change (String a (w ++ rest)) with (String a w ++ rest)%string.
    rewrite <- L'. apply take_app.
  - cbn [allChars] in A. apply andb_true_iff in A as [Ac A].
    unfold nonWord in Ac. apply negb_true_iff in Ac.
    cbn [append dayAbbr]. rewrite (nonword_no_day c _ Ac), andb_false_r.
    apply IH; [exact A|]. intros _. rewrite Ac. reflexivity.
Qed.

Lemma lower_length w : String.length (Js.toLowerCase w) = String.length w.
Proof. induction w as [|c w IH]; cbn; [reflexivity | rewrite IH; reflexivity]. Qed.

Lemma take_all w : take (String.length w) w = w.
Proof. induction w as [|c w IH]; cbn; [reflexivity | rewrite IH; reflexivity]. Qed.

Lemma no_day_at_head s :
  dayMap (Js.toLowerCase (take 3 s)) = None ->
  existsb (fun w => matchesAt w s) DAY_ALTERNATIVES = false.
Proof.
  intros N. destruct (existsb _ DAY_ALTERNATIVES) eqn:E; [|reflexivity].
  apply existsb_exists in E as (k & I & M).
  destruct (alternative_day k I) as (d & D & _ & L).
  unfold matchesAt in M. apply prefix_take in M. rewrite L in M.
  rewrite lower_take, M, D in N. discriminate N.
Qed.

(** The scan stops at the first place where a word can begin and a
    weekday abbreviation stands. *)
Lemma dayAbbr_at pre front w rest d :
  wordBreak front pre = true ->
  dayMap (Js.toLowerCase w) = Some d ->
  (forall n, n < String.length pre -> wordBreak front (take n pre) = true ->
             dayMap (Js.toLowerCase (take 3 (drop n (pre ++ w ++ rest)))) = None) ->
  dayAbbr front (pre ++ w ++ rest) = Some w.
Proof.
  intros B D. destruct (dayMap_keys _ _ D) as (I & _ & _).
  revert front B. induction pre as [|c pre IH]; intros front B H.
  - cbn [wordBreak] in B. subst front.
    apply (dayAbbr_after_lead EmptyString true w rest eq_refl (fun _ => eq_refl) I).
  - cbn [append dayAbbr].
    assert (E : front && existsb (fun k => matchesAt k (String c (pre ++ w ++ rest)))
                               DAY_ALTERNATIVES = false).
    { destruct front; [|reflexivity]. cbn [andb]. apply no_day_at_head.
      apply (H 0); [cbn; lia | reflexivity]. }
    rewrite E. apply IH; [exact B|].
    intros n L W. apply (H (S n)); [cbn; lia | exact W].
Qed.

Lemma dayAbbr_absent text front :
  (forall n, n < String.length text -> wordBreak front (take n text) = true ->
             dayMap (Js.toLowerCase (take 3 (drop n text))) = None) ->
  dayAbbr front text = None.
Proof.
  revert front. induction text as [|c text IH]; intros front H; cbn [dayAbbr]; [reflexivity|].
  assert (E : front && existsb (fun k => matchesAt k (String c text)) DAY_ALTERNATIVES = false).
  { destruct front; [|reflexivity]. cbn [andb]. apply no_day_at_head.
    apply (H 0); [cbn; lia | reflexivity]. }
  rewrite E. apply IH. intros n L W. apply (H (S n)); [cbn; lia | exact W].
Qed.

(** X16: [getButtonDayOfWeek] lets the first weekday abbreviation decide
    that stands where a word can begin.  When Mon, Tue, Wed, Thu, Fri, Sat
    or Sun (in any mix of cases) stands at the start of the text or
    behind a character that is not a word character, and at no such place
    before it, the day is that of the abbreviation, one of 0 to 6,
    whatever follows the three letters (Monthly counts as Monday), and the
    date patterns are not consulted.  When no abbreviation stands at such
    a place the date patterns decide, and a button without a container
    has no day. *)
Theorem weekday_word_decides (dateFallback : string -> option Z) :
  (forall pre w rest d,
      wordBreak true pre = true ->
      dayMap (Js.toLowerCase w) = Some d ->
      (forall n, n < String.length pre -> wordBreak true (take n pre) = true ->
                 dayMap (Js.toLowerCase (take 3 (drop n (pre ++ w ++ rest)))) = None) ->
      getButtonDayOfWeek dateFallback (Some (pre ++ w ++ rest)) = Some d /\ (0 <= d <= 6)%Z) /\
  (forall text,
      (forall n, n < String.length text -> wordBreak true (take n text) = true ->
                 dayMap (Js.toLowerCase (take 3 (drop n text))) = None) ->
      getButtonDayOfWeek dateFallback (Some text) = dateFallback text) /\
  getButtonDayOfWeek dateFallback None = None.
Proof.
  split; [|split; [|reflexivity]].
  - intros pre w rest d B D H. unfold getButtonDayOfWeek.
    rewrite (dayAbbr_at pre true w rest d B D H).
    destruct (dayMap_keys _ _ D) as (_ & R & L). rewrite lower_length in L.
    rewrite <- L, take_all. auto.
  - intros text H. unfold getButtonDayOfWeek. rewrite (dayAbbr_absent text true H).
    reflexivity.
Qed.

Lemma weekday_word_decides_witness :
  getButtonDayOfWeek (fun _ => Some 3%Z) (Some "3rd FRIDAY or Sat, Nov 4"%string) = Some 5%Z /\
  getButtonDayOfWeek (fun _ => Some 3%Z) (Some "Monthly plan"%string) = Some 1%Z /\
  getButtonDayOfWeek (fun _ => Some 3%Z) (Some "Desk 4, Nov 4"%string) = Some 3%Z.
Proof.
  pose proof (weekday_word_decides (fun _ => Some 3%Z)) as (Found & Absent & _).
  split; [|split].
  - apply (Found "3rd "%string "FRI"%string "DAY or Sat, Nov 4"%string 5%Z eq_refl eq_refl).
    intros n L W. cbn in L.
    do 4 (destruct n as [|n]; [first [reflexivity | discriminate W]|]). lia.
  - apply (Found ""%string "Mon"%string "thly plan"%string 1%Z eq_refl eq_refl).
    intros n L. cbn in L. lia.
  - apply (Absent "Desk 4, Nov 4"%string).
    intros n L W. cbn in L.
    do 13 (destruct n as [|n]; [first [reflexivity | discriminate W]|]). lia.
Defined.

(** *** The desk label *)

Lemma firstSome_some {A B} (f : A -> option B) (l : list A) (b : B) :
  firstSome f l = Some b -> exists a, In a l /\ f a = Some b.
Proof.
  induction l as [|a l IH]; cbn; [discriminate|].
  destruct (f a) as [b'|] eqn:F.
  - intros E. injection E as <-. exists a. auto.
  - intros E. destruct (IH E) as (a' & I & H). exists a'. auto.
Qed.

Lemma deskMatch_some s m :
  deskMatch s = Some m ->
  exists w s', In w DESK_WORDS /\ deskMatchWith w s' = Some m.
Proof.
  induction s as [|c s IH]; cbn [deskMatch].
  - destruct (firstSome _ DESK_WORDS) as [m'|] eqn:F; [|discriminate].
    intros E. injection E as <-. apply firstSome_some in F as (w & I & H). eauto.
  - destruct (firstSome _ DESK_WORDS) as [m'|] eqn:F; [|exact IH].
    intros E. injection E as <-. apply firstSome_some in F as (w & I & H). eauto.
Qed.

Lemma takeWhile_all p s : allChars p (takeWhile p s) = true.
Proof.
  induction s as [|c s IH]; cbn; [reflexivity|].
  destruct (p c) eqn:P; cbn; [rewrite P; exact IH | reflexivity].
Qed.

Lemma trimEnd_solid t :
  allChars nonSpace t = true -> Js.trimEnd t = t.
Proof.
  induction t as [|c t IH]; cbn [allChars Js.trimEnd]; [reflexivity|].
  intros H. apply andb_true_iff in H as [Hc H]. rewrite (IH H).
  unfold nonSpace in Hc. apply negb_true_iff in Hc. rewrite Hc.
  destruct t; reflexivity.
Qed.

Lemma trimEnd_keep a t :
  t <> EmptyString -> allChars nonSpace t = true -> Js.trimEnd (a ++ t) = (a ++ t)%string.
Proof.
  intros N H. induction a as [|c a IH]; cbn [append Js.trimEnd].
  - apply trimEnd_solid, H.
  - rewrite IH. destruct (a ++ t)%string eqn:E; [|reflexivity].
    destruct a; [cbn in E; contradiction | discriminate E].
Qed.

Lemma append_length a b : String.length (a ++ b) = String.length a + String.length b.
Proof. induction a as [|c a IH]; cbn; [reflexivity | rewrite IH; reflexivity]. Qed.

Lemma append_assoc3 (a b c : string) : ((a ++ b) ++ c = a ++ b ++ c)%string.
Proof. induction a as [|x a IH]; cbn; [reflexivity | rewrite IH; reflexivity]. Qed.

Lemma desk_word_head w :
  In w DESK_WORDS -> exists a rest, w = String a rest /\ Js.isSpace a = false.
Proof.
  intros I. cbn in I.
  repeat (destruct I as [<-|I]; [eexists; eexists; split; reflexivity|]).
  destruct I.
Qed.

(** What a match of the desk pattern looks like. *)
Lemma deskMatchWith_some w s m :
  In w DESK_WORDS -> deskMatchWith w s = Some m ->
  Js.trim m = m /\ matchesAt w m = true /\ String.length w < String.length m.
Proof.
  intros I. unfold deskMatchWith.
  destruct (matchesAt w s) eqn:M; [|discriminate]. cbv zeta.
  set (after := drop (String.length w) s).
  set (token := takeWhile isDeskChar (dropWhile Js.isSpace after)).
  destruct (String.eqb_spec token EmptyString) as [|N]; [discriminate|].
  intros E. injection E as <-.
  assert (T : allChars nonSpace token = true).
  { subst token. generalize (dropWhile Js.isSpace after). intros u.
    induction u as [|c u IH]; cbn; [reflexivity|].
    destruct (isDeskChar c) eqn:D; cbn; [|reflexivity].
    unfold nonSpace at 1. rewrite (deskChar_not_space c D). exact IH. }
  unfold matchesAt in M. pose proof (prefix_take _ _ M) as P.
  rewrite <- lower_take in P.
  assert (Lw : String.length (take (String.length w) s) = String.length w).
  { rewrite <- P at 2. clear. generalize (take (String.length w) s). intros u.
    induction u as [|c u IH]; cbn; [reflexivity | rewrite IH; reflexivity]. }
  split; [|split].
  - unfold Js.trim.
    destruct (desk_word_head w I) as (a & rest & -> & Sa).
    destruct (take (String.length (String a rest)) s) as [|c head] eqn:H;
      [discriminate P|].
    cbn [Js.toLowerCase] in P. injection P as Pc _.
    assert (Sc : Js.isSpace c = false).
    { destruct (Js.isSpace c) eqn:W; [|reflexivity].
      rewrite (space_lower c W) in Pc. congruence. }
    cbn [append Js.trimStart]. rewrite Sc.
    replace (String c (head ++ takeWhile Js.isSpace after ++ token))
      with ((String c head ++ takeWhile Js.isSpace after) ++ token)%string.
    + apply trimEnd_keep; assumption.
    + apply (append_assoc3 (String c head)).
  - unfold matchesAt. rewrite lower_app, P. apply prefix_app.
  - rewrite !append_length, Lw. destruct token; [contradiction | cbn; lia].
Qed.

Lemma take_drop n s : (take n s ++ drop n s)%string = s.
Proof.
  revert s. induction n as [|n IH]; intros [|c s]; cbn; try reflexivity.
  rewrite IH. reflexivity.
Qed.

Lemma drop_app a b : drop (String.length a) (a ++ b) = b.
Proof. induction a as [|c a IH]; cbn; [destruct b; reflexivity | exact IH]. Qed.

Lemma takeWhile_dropWhile p s : (takeWhile p s ++ dropWhile p s)%string = s.
Proof.
  induction s as [|c s IH]; cbn; [reflexivity|].
  destruct (p c); cbn; [rewrite IH|]; reflexivity.
Qed.

Lemma takeWhile_app p a b :
  allChars p a = true -> stopsAt p b -> takeWhile p (a ++ b) = a.
Proof.
  intros A B. induction a as [|c a IH]; cbn [append takeWhile].
  - destruct b as [|c b]; cbn in B |- *; [reflexivity | rewrite B; reflexivity].
  - cbn [allChars] in A. apply andb_true_iff in A as [Ac A]. rewrite Ac, (IH A). reflexivity.
Qed.

Lemma dropWhile_app p a b :
  allChars p a = true -> stopsAt p b -> dropWhile p (a ++ b) = b.
Proof.
  intros A B. induction a as [|c a IH]; cbn [append dropWhile].
  - destruct b as [|c b]; cbn in B |- *; [reflexivity | rewrite B; reflexivity].
  - cbn [allChars] in A. apply andb_true_iff in A as [Ac A]. rewrite Ac. apply IH, A.
Qed.

Lemma firstSome_only (f : string -> option string) (l : list string) (k m : string) :
  In k l -> f k = Some m -> (forall a, In a l -> a <> k -> f a = None) ->
  firstSome f l = Some m.
Proof.
  induction l as [|a l IH]; intros I F N; [destruct I|]. cbn [firstSome].
  destruct (string_dec a k) as [->|D].
  - rewrite F. reflexivity.
  - rewrite (N a (or_introl eq_refl) D).
    apply IH; [destruct I; [contradiction | assumption] | exact F |].
    intros b Ib. apply N. right. exact Ib.
Qed.

(** Two of the five words do not begin at the same place. *)
Lemma desk_words_apart a k z :
  In a DESK_WORDS -> In k DESK_WORDS -> a <> k -> String.prefix a (k ++ z) = false.
Proof.
  intros Ia Ik N. cbn in Ia, Ik.
  repeat (destruct Ia as [<-|Ia]; [|]); try destruct Ia;
    repeat (destruct Ik as [<-|Ik]; [|]); try destruct Ik;
    first [ contradiction N; reflexivity | reflexivity ].
Qed.

(** The match at the head of a text that begins with one of the words,
    white space and a token. *)
Lemma desk_here w sp tok rest :
  In (Js.toLowerCase w) DESK_WORDS ->
  allChars Js.isSpace sp = true ->
  tok <> EmptyString -> allChars isDeskChar tok = true -> stopsAt isDeskChar rest ->
  firstSome (fun k => deskMatchWith k (w ++ sp ++ tok ++ rest)) DESK_WORDS
  = Some (w ++ sp ++ tok)%string.
Proof.
  intros I Sp N T R.
  apply firstSome_only with (k := Js.toLowerCase w); [exact I | |].
  - unfold deskMatchWith, matchesAt.
    rewrite lower_app, prefix_app, lower_length, take_app, drop_app.
    assert (Y : stopsAt Js.isSpace (tok ++ rest)).
    { destruct tok as [|c tok]; [contradiction|]. cbn [append stopsAt].
      cbn [allChars] in T. apply andb_true_iff in T as [Tc _].
      apply deskChar_not_space, Tc. }
    rewrite (dropWhile_app _ _ _ Sp Y), (takeWhile_app _ _ _ Sp Y), (takeWhile_app _ _ _ T R).
    destruct (String.eqb_spec tok EmptyString); [contradiction | reflexivity].
  - intros a Ia D. unfold deskMatchWith, matchesAt.
    rewrite lower_app, (desk_words_apart a _ _ Ia I D). reflexivity.
Qed.

(** Where no match begins, no alternative gives one. *)
Lemma no_desk_here s :
  ~ deskAt s 0 -> firstSome (fun k => deskMatchWith k s) DESK_WORDS = None.
Proof.
  intros N. destruct (firstSome _ DESK_WORDS) as [m|] eqn:F; [exfalso|reflexivity].
  apply firstSome_some in F as (k & I & H). apply N.
  unfold deskMatchWith in H. destruct (matchesAt k s) eqn:M; [|discriminate H].
  cbv zeta in H.
  unfold matchesAt in M. pose proof (prefix_take _ _ M) as P. rewrite <- lower_take in P.
  destruct (dropWhile Js.isSpace (drop (String.length k) s)) as [|c r] eqn:Dw;
    [discriminate H|].
  cbn [takeWhile] in H. destruct (isDeskChar c) eqn:Dc; [|discriminate H].
  exists (take (String.length k) s), (takeWhile Js.isSpace (drop (String.length k) s)), c, r.
  split; [|split; [|split]].
  - rewrite <- Dw, takeWhile_dropWhile, take_drop. destruct s; reflexivity.
  - rewrite P. exact I.
  - apply takeWhile_all.
  - exact Dc.
Qed.

(** The scan stops at the first place where a match begins. *)
Lemma deskMatch_at pre s m :
  (forall n, n < String.length pre -> ~ deskAt (pre ++ s) n) ->
  firstSome (fun k => deskMatchWith k s) DESK_WORDS = Some m ->
  deskMatch (pre ++ s) = Some m.
Proof.
  intros H F. induction pre as [|c pre IH]; cbn [append].
  - destruct s; cbn [deskMatch]; rewrite F; reflexivity.
  - cbn [deskMatch].
    rewrite (no_desk_here (String c (pre ++ s)) (H 0 ltac:(cbn; lia))).
    apply IH. intros n L D. apply (H (S n)); [cbn; lia | exact D].
Qed.

Lemma deskMatch_absent text : (forall n, ~ deskAt text n) -> deskMatch text = None.
Proof.
  induction text as [|c text IH]; intros H; cbn [deskMatch]; rewrite (no_desk_here _ (H 0)).
  - reflexivity.
  - apply IH. intros n D. apply (H (S n)). exact D.
Qed.

(** One of the words stands where a match begins. *)
Lemma deskAt_word text n :
  deskAt text n ->
  existsb (fun k => String.prefix k (Js.toLowerCase (drop n text))) DESK_WORDS = true.
Proof.
  intros (w & sp & c & rest & E & I & _). apply existsb_exists.
  exists (Js.toLowerCase w). split; [exact I|]. rewrite E, lower_app. apply prefix_app.
Qed.

(** X17: the desk label is the leftmost match of the pattern in the text
    of the container, or the literal Booked.  When the text has, at its
    first place where a match begins, one of the words desk, table, seat,
    spot, space in any mix of cases, white space or none, and a token of
    letters, digits, underscores, hashes and hyphens that ends with the
    text or before a character of another kind, the label is the word,
    the white space and the token, as they stand in the text.  When no
    match begins anywhere, or the container is missing, it is Booked.  It
    is never empty and has no white space at either end. *)
Theorem desk_label :
  (forall container,
      captureAssignedDesk container <> EmptyString /\
      Js.trim (captureAssignedDesk container) = captureAssignedDesk container) /\
  (forall pre w sp tok rest,
      In (Js.toLowerCase w) DESK_WORDS ->
      allChars Js.isSpace sp = true ->
      tok <> EmptyString -> allChars isDeskChar tok = true -> stopsAt isDeskChar rest ->
      (forall n, n < String.length pre -> ~ deskAt (pre ++ w ++ sp ++ tok ++ rest) n) ->
      captureAssignedDesk (Some (pre ++ w ++ sp ++ tok ++ rest)) = (w ++ sp ++ tok)%string) /\
  (forall text,
      (forall n, ~ deskAt text n) -> captureAssignedDesk (Some text) = "Booked"%string) /\
  captureAssignedDesk None = "Booked"%string.
Proof.
  split; [|split; [|split; [|reflexivity]]].
  - intros container. unfold captureAssignedDesk. cbv zeta.
    destruct (deskMatch match container with Some t => t | None => EmptyString end)
      as [m|] eqn:D.
    + destruct (deskMatch_some _ _ D) as (w & s' & I & H).
      destruct (deskMatchWith_some w s' m I H) as (T & M & L).
      rewrite T. split; [|exact T].
      intros E. rewrite E in L. cbn in L. lia.
    + split; [discriminate | reflexivity].
  - intros pre w sp tok rest I Sp N T R H. unfold captureAssignedDesk.
    pose proof (desk_here w sp tok rest I Sp N T R) as F.
    rewrite (deskMatch_at pre _ _ H F).
    apply firstSome_some in F as (k & Ik & Hk).
    apply (deskMatchWith_some k _ _ Ik Hk).
  - intros text H. unfold captureAssignedDesk. rewrite (deskMatch_absent text H). reflexivity.
Qed.

Lemma desk_label_witness :
  captureAssignedDesk (Some "Row 3   Desk  12-A, window"%string) = "Desk  12-A"%string /\
  captureAssignedDesk (Some "Row 3, window"%string) = "Booked"%string.
Proof.
  destruct desk_label as (_ & Found & Absent & _). split.
  - apply (Found "Row 3   "%string "Desk"%string "  "%string "12-A"%string ", window"%string).
    + cbn. tauto.
    + reflexivity.
    + discriminate.
    + reflexivity.
    + reflexivity.
    + intros n L D. apply deskAt_word in D. cbn in L.
      do 8 (destruct n as [|n]; [vm_compute in D; discriminate D|]). lia.
  - apply (Absent "Row 3, window"%string).
    intros n D. apply deskAt_word in D.
    do 14 (destruct n as [|n]; [vm_compute in D; discriminate D|]).
    vm_compute in D; discriminate D.
Defined.

End TextOfThePage.

(** ** The popup *)

Section PopupEscaping.
Import PageText Popup.

Lemma escHtml_cons c s : escHtml (String c s) = (escChar c ++ escHtml s)%string.
Proof.
  unfold escHtml, escChar. cbn [replaceAll].
  destruct (Ascii.eqb_spec c "&") as [->|_]; [reflexivity|]. cbn [replaceAll].
  destruct (Ascii.eqb_spec c "<") as [->|_]; [reflexivity|]. cbn [replaceAll].
  destruct (Ascii.eqb_spec c ">") as [->|_]; reflexivity.
Qed.

Lemma allChars_app p a b :
  allChars p (a ++ b) = allChars p a && allChars p b.
Proof. induction a as [|c a IH]; cbn; [reflexivity | rewrite IH, andb_assoc; reflexivity]. Qed.

Lemma escChar_notMarkup c : allChars notMarkup (escChar c) = true.
Proof.
  unfold escChar.
  destruct (Ascii.eqb_spec c "&"); [reflexivity|].
  destruct (Ascii.eqb c "<") eqn:L; [reflexivity|].
  destruct (Ascii.eqb c ">") eqn:G; [reflexivity|].
  cbn. unfold notMarkup. rewrite L, G. reflexivity.
Qed.

(** X18: the text [escHtml] returns contains neither < nor >, whatever
    the text it is given; the empty text stays empty. *)
Theorem escHtml_has_no_markup (str : string) :
  allChars notMarkup (escHtml str) = true /\ escHtml EmptyString = EmptyString.
Proof.
  split; [|reflexivity].
  induction str as [|c s IH]; [reflexivity|].
  rewrite escHtml_cons, allChars_app, escChar_notMarkup, IH. reflexivity.
Qed.

Lemma unescHtml_escChar c rest :
  unescHtml 0 (escChar c ++ rest) = String c (unescHtml 0 rest).
Proof.
  unfold escChar.
  destruct (Ascii.eqb_spec c "&") as [->|NA].
  - change ("&amp;" ++ rest)%string with (String "&" ("amp;" ++ rest)).
    cbn [unescHtml Ascii.eqb Bool.eqb]. rewrite prefix_app. reflexivity.
  - destruct (Ascii.eqb_spec c "<") as [->|NL].
    + change ("&lt;" ++ rest)%string with (String "&" ("lt;" ++ rest)).
      cbn [unescHtml Ascii.eqb Bool.eqb]. rewrite (prefix_app "lt;" rest).
      reflexivity.
    + destruct (Ascii.eqb_spec c ">") as [->|NG].
      * change ("&gt;" ++ rest)%string with (String "&" ("gt;" ++ rest)).
        cbn [unescHtml Ascii.eqb Bool.eqb]. rewrite (prefix_app "gt;" rest).
        reflexivity.
      * cbn [append unescHtml].
        destruct (Ascii.eqb_spec c "&"); [contradiction | reflexivity].
Qed.

(** X19: [escHtml] loses nothing: reading the three entities back gives
    the text that was escaped, so two different texts are never escaped to
    the same text. *)
Theorem escHtml_loses_nothing :
  (forall str, unescHtml 0 (escHtml str) = str) /\
  (forall a b, escHtml a = escHtml b -> a = b).
Proof.
  assert (R : forall str, unescHtml 0 (escHtml str) = str).
  { induction str as [|c s IH]; [reflexivity|].
    rewrite escHtml_cons, unescHtml_escChar, IH. reflexivity. }
  split; [exact R|].
  intros a b E. rewrite <- (R a), <- (R b), E. reflexivity.
Qed.

End PopupEscaping.

(** ** Both scripts together *)

Section RunsEndToEnd.
Import Spec Protocol Together.
Local Open Scope list_scope.

Lemma deliver_app envs i a b w :
  deliver envs i (a ++ b) w = deliver envs (i + length a) b (deliver envs i a w).
Proof.
  revert i w. induction a as [|m a IH]; intros i w; cbn [app deliver length].
  - rewrite Nat.add_0_r. reflexivity.
  - rewrite IH. f_equal. lia.
Qed.

Lemma deliver_passing envs i ms w :
  Forall passing ms ->
  Background.activeTabId (deliver envs i ms w) = Background.activeTabId w /\
  Background.openTabs (deliver envs i ms w) = Background.openTabs w /\
  Background.sentToTab (deliver envs i ms w) = Background.sentToTab w /\
  Background.lastRunDate (deliver envs i ms w) = Background.lastRunDate w /\
  Background.notifications (deliver envs i ms w) = Background.notifications w.
Proof.
  intros F. revert i w. induction F as [|m ms P _ IH]; intros i w; cbn [deliver].
  - repeat split.
  - destruct (IH (S i) (fst (Background.onMessage (envs i) w m))) as (A & B & C & D & E).
    rewrite A, B, C, D, E. destruct m; try contradiction; repeat split.
Qed.

(** X22: the guard is released and the tab closed by a terminal event
    only: whatever log lines, progress reports, state queries and messages
    of unknown type the background script handles, the guard, the open
    tabs, the stored date and the notifications stay as they are. *)
Theorem only_terminal_events_end_a_run
        (envs : nat -> Background.Env) (ms : list Message) (w : Background.World) :
  Forall passing ms ->
  Background.activeTabId (deliver envs 0 ms w) = Background.activeTabId w /\
  Background.openTabs (deliver envs 0 ms w) = Background.openTabs w /\
  Background.sentToTab (deliver envs 0 ms w) = Background.sentToTab w /\
  Background.lastRunDate (deliver envs 0 ms w) = Background.lastRunDate w /\
  Background.notifications (deliver envs 0 ms w) = Background.notifications w.
Proof. apply deliver_passing. Qed.

Lemma only_terminal_events_end_a_run_witness :
  Background.activeTabId
    (deliver (fun _ => Examples.smooth 1 Examples.laMorning) 0
       [LOG (Some info) "Clicking button 1/2"; BOOKING_PROGRESS 1 2; GET_STATE]
       Examples.firstLoading)
  = Some 1%Z.
Proof.
  refine (proj1 (only_terminal_events_end_a_run
                   (fun _ => Examples.smooth 1 Examples.laMorning)
                   [LOG (Some info) "Clicking button 1/2"; BOOKING_PROGRESS 1 2; GET_STATE]
                   Examples.firstLoading _)).
  repeat constructor.
Defined.

(** What the listener delivers on a reliable channel when it is started
    on the schedule page: log lines and progress reports, then
    BOOKING_DONE with the number of clicks, or BOOKING_NONE when nothing
    was clicked. *)
Lemma reliable_delivery page days ch :
  onSchedule page ->
  reliableChannel ch ->
  exists before last,
    Content.delivered (fst (Content.onMessage page (START_BOOKING days) ch []))
    = before ++ [last] /\
    Forall passing before /\
    ((exists bs,
         last = BOOKING_DONE
                  (Z.of_nat (length (Content.clicks
                                       (fst (Content.onMessage page (START_BOOKING days) ch [])))))
                  (Some bs)) \/
     (exists note,
         last = BOOKING_NONE (Some note) /\
         Content.clicks (fst (Content.onMessage page (START_BOOKING days) ch [])) = [])).
Proof.
  intros O R. apply includes_spec in O.
  destruct (listener_trace page days ch) as (ext & r & tail & E & S & T & K).
  destruct (honest_runBulkBooking page (Js.orArray days [1; 2; 3; 4; 5]%Z) ch
              [Content.SendResponse] R) as (ext' & r' & E' & A).
  rewrite E in E'. cbn [app] in E'. injection E' as <- <-.
  assert (P : forall body, Forall isLogOrProgress (Content.attempted body) ->
                           Forall passing (Content.delivered body)).
  { intros body F. apply delivered_Forall. eapply Forall_impl; [|exact F].
    intros []; cbn; tauto. }
  assert (Last : forall body t d, ext = body ++ [Content.Send t d] -> d = true).
  { intros body t d ->. apply Forall_app in A as [_ A].
    inversion A as [|x l Ad _]; subst. destruct d; [reflexivity | destruct Ad]. }
  assert (Q : forall body, quiet body ->
                           Forall isLogOrProgress (Content.attempted body))
    by (intros body q; apply logs_are_logOrProgress, q).
  assert (N0 : forall body note,
             ext = body ++ [Content.Send (BOOKING_NONE (Some note)) true] ->
             quiet body -> ended true r ->
             exists before last,
               Content.delivered (Content.SendResponse :: ext ++ tail) = before ++ [last] /\
               Forall passing before /\
               ((exists bs,
                    last = BOOKING_DONE
                             (Z.of_nat (length (Content.clicks
                                                  (Content.SendResponse :: ext ++ tail))))
                             (Some bs)) \/
                (exists note',
                    last = BOOKING_NONE (Some note') /\
                    Content.clicks (Content.SendResponse :: ext ++ tail) = []))).
  { intros body note -> q N.
    destruct r as [err|[]]; [discriminate N|]. subst tail.
    cbn [Content.delivered Content.clicks].
    rewrite app_nil_r, delivered_app, clicks_app. cbn [Content.delivered Content.clicks].
    exists (Content.delivered body). eexists. split; [reflexivity|].
    split; [apply P, Q, q|]. right. eexists. split; [reflexivity|].
    destruct q as [-> _]. reflexivity. }
  rewrite T. unfold shape in S. rewrite O in S.
  destruct (discovered page) as [buttons|].
  - destruct (length _ =? 0)%nat.
    + destruct S as (body & d & -> & q & N).
      pose proof (Last _ _ _ eq_refl) as ->. eapply N0; eauto.
    + destruct S as (body & bs & d & -> & -> & F & _ & C).
      pose proof (Last _ _ _ eq_refl) as ->. subst tail.
      cbn [Content.delivered Content.clicks].
      rewrite app_nil_r, delivered_app, clicks_app. cbn [Content.delivered Content.clicks].
      exists (Content.delivered body). eexists. split; [reflexivity|].
      split; [apply P, F|]. left. exists bs. rewrite app_nil_r, C. reflexivity.
  - destruct S as (body & d & -> & q & N).
    pose proof (Last _ _ _ eq_refl) as ->. eapply N0; eauto.
Qed.

(** X23: a whole run, started on a page whose address has /schedule in
    it, on a reliable channel, seen from the background script.  When the
    guard holds the tab and the background script handles, in order, the
    messages the content script delivers, the run is wound up: the guard
    is released, the tab closed, the status done, the counters both equal
    to the number of buttons the content script clicked, the UTC day of
    the instant at which the last message is handled stored as
    [lastRunDate], and one notification created. *)
Theorem reliable_run_is_wound_up
        (page : Content.Page) (days : option (list Z)) (ch : Content.Channel)
        (envs : nat -> Background.Env) (w : Background.World) (id : Z) :
  onSchedule page ->
  reliableChannel ch ->
  Background.activeTabId w = Some id ->
  Background.activeTabId
    (deliver envs 0
       (Content.delivered (fst (Content.onMessage page (START_BOOKING days) ch []))) w)
  = None /\
  ~ In id (Background.openTabs
             (deliver envs 0
                (Content.delivered (fst (Content.onMessage page (START_BOOKING days) ch []))) w)) /\
  Background.status
    (Background.getState
       (deliver envs 0
          (Content.delivered (fst (Content.onMessage page (START_BOOKING days) ch []))) w))
  = Background.st_done /\
  Background.total
    (Background.getState
       (deliver envs 0
          (Content.delivered (fst (Content.onMessage page (START_BOOKING days) ch []))) w))
  = Z.of_nat (length (Content.clicks
                        (fst (Content.onMessage page (START_BOOKING days) ch [])))) /\
  Background.current
    (Background.getState
       (deliver envs 0
          (Content.delivered (fst (Content.onMessage page (START_BOOKING days) ch []))) w))
  = Z.of_nat (length (Content.clicks
                        (fst (Content.onMessage page (START_BOOKING days) ch [])))) /\
  (exists day,
      Background.lastRunDate
        (deliver envs 0
           (Content.delivered (fst (Content.onMessage page (START_BOOKING days) ch []))) w)
      = Some day /\
      (day * Background.msPerDay
       <= Background.timeValue
            (Background.clock
               (envs (pred (length (Content.delivered
                                      (fst (Content.onMessage page (START_BOOKING days) ch []))))))
               1)
       < (day + 1) * Background.msPerDay)%Z) /\
  length (Background.notifications
            (deliver envs 0
               (Content.delivered (fst (Content.onMessage page (START_BOOKING days) ch []))) w))
  = S (length (Background.notifications w)).
Proof.
  intros O R G.
  destruct (reliable_delivery page days ch O R) as (before & last & -> & F & L).
  rewrite deliver_app, length_app. cbn [deliver Nat.add length].
  replace (pred (length before + 1)) with (length before) by lia.
  destruct (deliver_passing envs 0 before w F) as (A & B & _ & _ & N).
  rewrite G in A. revert A B N.
  generalize (deliver envs 0 before w). intros w1 A B N.
  pose proof (utc_day (Background.clock (envs (length before)) 1)) as U.
  destruct L as [(bs & ->) | (note & -> & ->)];
    cbn [Background.onMessage fst];
    unfold Background.finishRun;
    cbn [Background.activeTabId Background.addLog Background.setState
         Background.set_envoy_booking];
    rewrite A; cbn; rewrite N, length_app; cbn;
    repeat split; try apply remove_In; try lia;
    (eexists; split; [reflexivity | exact U]).
Qed.

Lemma reliable_run_is_wound_up_witness :
  onSchedule Examples.schedulePage /\
  Background.activeTabId
    (deliver (fun _ => Examples.smooth 1 Examples.laMorning) 0
       (Content.delivered
          (fst (Content.onMessage Examples.schedulePage (START_BOOKING (Some [1; 3; 5]%Z))
                  Examples.reliable [])))
       Examples.firstLoading)
  = None.
Proof.
  assert (O : onSchedule Examples.schedulePage)
    by (exists "https://dashboard.envoy.com"%string, ""%string; reflexivity).
  split; [exact O|].
  exact (proj1 (reliable_run_is_wound_up Examples.schedulePage (Some [1; 3; 5]%Z)
                  Examples.reliable (fun _ => Examples.smooth 1 Examples.laMorning)
                  Examples.firstLoading 1%Z O (fun _ => eq_refl) eq_refl)).
Defined.





End RunsEndToEnd.
